(** * MicroS: the conversational pipeline of [agentic/]

    A shallow embedding of the LangGraph workflow of [agentic/graph.py] and of
    the agents it wires together ([agentic/agents/*.py]), with the tool
    functions they import from the package [agentic/tools/] ([food.py],
    [meal.py], [summary.py], [goals.py]; the package takes precedence over
    the module [agentic/tools.py] of the same name, which is never loaded),
    and of what stands around them: the other meal tools, the tool registry,
    the choice of the model and the UPC check of [app/barcode.py].

    Layout:
    - [Py]         the fragment of the Python runtime the agents rely on:
                   strings, dynamically typed values, binary64 floats,
                   [float()], [int()], [str()], the ['.1f'] format and
                   [re.search];
    - [Tools]      the storage-facing tool functions;
    - [State]      the state record the nodes pass on;
    - [Agents]     the eight agent classes, one function per [run] method;
    - [Graph]      the workflow of [create_graph] and its execution by
                   [run_agent];
    - [Spec]       the vocabulary of the specification, on those definitions;
    - [Examples]   concrete surroundings and turns;
    - [Meals]      [tool_update_meal] and [tool_delete_meal];
    - [Barcode]    [validate_upc];
    - [Registry]   [ToolSpec] and [ToolRegistry];
    - [LlmFactory] [get_llm] and [get_available_providers];
    - [Terms], [Cases]  further vocabulary and examples;
    - the properties C1 to C10, then further properties of the code. *)

From Stdlib Require Import ZArith QArith List String Ascii Bool Lia DecimalString.
Import ListNotations.
Open Scope string_scope.
Open Scope Z_scope.

(* ================================================================== *)
(** ** Python runtime *)
(* ================================================================== *)

Module Py.

(** *** Exceptions and fallible computations *)

Inductive exn : Type :=
| AttributeError
| KeyError
| TypeError
| ValueError
| OverflowError
| IndexError
| ZeroDivisionError
| GraphRecursionError.

(** A computation either returns or raises. *)
Inductive result (A : Type) : Type :=
| Ok (a : A)
| Raise (e : exn).
Arguments Ok {A} a.
Arguments Raise {A} e.

Definition bind {A B : Type} (r : result A) (k : A -> result B) : result B :=
  match r with
  | Ok a => k a
  | Raise e => Raise e
  end.

Notation "x <- r ;; k" := (bind r (fun x => k))
  (at level 61, r at next level, right associativity).

(** *** Characters and strings (ASCII text) *)

Definition code (c : ascii) : Z := Z.of_N (N_of_ascii c).

Definition is_digit (c : ascii) : bool := (48 <=? code c) && (code c <=? 57).
Definition digit_val (c : ascii) : Z := code c - 48.

Definition is_upper (c : ascii) : bool := (65 <=? code c) && (code c <=? 90).
Definition is_lower (c : ascii) : bool := (97 <=? code c) && (code c <=? 122).

(** [str.isspace] on one ASCII character: tab, LF, VT, FF, CR, the four
    separators 0x1c-0x1f and the blank. *)
Definition is_space (c : ascii) : bool :=
  ((9 <=? code c) && (code c <=? 13))
  || ((28 <=? code c) && (code c <=? 31))
  || (code c =? 32).

(** [\w] of [re]: letters, digits and the underscore. *)
Definition is_word (c : ascii) : bool :=
  is_digit c || is_upper c || is_lower c || (code c =? 95).

Definition lower_char (c : ascii) : ascii :=
  if is_upper c then ascii_of_N (N_of_ascii c + 32) else c.

(** [s.lower()] *)
Fixpoint lower (s : string) : string :=
  match s with
  | EmptyString => EmptyString
  | String c s' => String (lower_char c) (lower s')
  end.

Fixpoint lstrip (s : string) : string :=
  match s with
  | EmptyString => EmptyString
  | String c s' => if is_space c then lstrip s' else s
  end.

(** Drops the blanks at the end: the result is empty while only blanks
    have been seen. *)
Fixpoint rstrip (s : string) : string :=
  match s with
  | EmptyString => EmptyString
  | String c s' =>
      match rstrip s' with
      | EmptyString => if is_space c then EmptyString else String c EmptyString
      | r => String c r
      end
  end.

(** [s.strip()] *)
Definition strip (s : string) : string := rstrip (lstrip s).

(** [s.replace(" ", "")] *)
Fixpoint remove_blanks (s : string) : string :=
  match s with
  | EmptyString => EmptyString
  | String c s' =>
      if (code c =? 32) then remove_blanks s' else String c (remove_blanks s')
  end.

(** [s.startswith(p)] *)
Fixpoint startswith (s p : string) : bool :=
  match p, s with
  | EmptyString, _ => true
  | String a p', String b s' => Ascii.eqb a b && startswith s' p'
  | String _ _, EmptyString => false
  end.

(** [p in s] for strings. *)
Fixpoint contains (s p : string) : bool :=
  startswith s p ||
  match s with
  | EmptyString => false
  | String _ s' => contains s' p
  end.

(** [any(k in s for k in ks)] *)
Definition contains_any (s : string) (ks : list string) : bool :=
  existsb (contains s) ks.

(** [s[n:]] *)
Fixpoint drop (n : nat) (s : string) : string :=
  match n, s with
  | O, _ => s
  | S n', String _ s' => drop n' s'
  | S _, EmptyString => EmptyString
  end.

(** [s.endswith("g")] and [s[:-1]] *)
Fixpoint endswith_char (s : string) (c : ascii) : bool :=
  match s with
  | EmptyString => false
  | String a EmptyString => Ascii.eqb a c
  | String _ s' => endswith_char s' c
  end.

Fixpoint drop_last (s : string) : string :=
  match s with
  | EmptyString => EmptyString
  | String _ EmptyString => EmptyString
  | String a s' => String a (drop_last s')
  end.

Definition chars (s : string) : list ascii := list_ascii_of_string s.
Definition text (l : list ascii) : string := string_of_list_ascii l.

(** Decimal rendering of an integer, as [str(n)]. *)
Definition str_of_Z (z : Z) : string := NilZero.string_of_int (Z.to_int z).

Fixpoint repeat_char (c : ascii) (n : nat) : string :=
  match n with
  | O => EmptyString
  | S n' => String c (repeat_char c n')
  end.

(** *** binary64 floats

    A finite float is the rational it denotes, in lowest terms; every
    operation that produces one rounds to the nearest binary64 value, ties to
    even, as IEEE 754 does.  The sign of zero is not kept. *)

Inductive pyfloat : Type :=
| FNum (q : Q)
| FInf (negative : bool)
| FNan.

(** [n / d] rounded to the nearest integer, ties to even ([0 <= n], [0 < d]). *)
Definition round_half_even (n d : Z) : Z :=
  let q := n / d in
  let r := n mod d in
  if 2 * r <? d then q
  else if d <? 2 * r then q + 1
  else if Z.even q then q else q + 1.

(** [2^e <= n / d], for any integer [e]. *)
Definition pow2_le (e n d : Z) : bool :=
  if 0 <=? e then d * 2 ^ e <=? n else d <=? n * 2 ^ (- e).

(** [floor (log2 (n / d))] for [0 < n], [0 < d]. *)
Definition ilog2 (n d : Z) : Z :=
  let e0 := Z.log2 n - Z.log2 d in
  if pow2_le e0 n d then e0 else e0 - 1.

(** The binary64 value nearest to [n / d] ([0 < n], [0 < d]), as a mantissa
    [m] and an exponent [p]: the value is [m * 2^p].  Below [2^-1022] the
    spacing is that of the subnormals. *)
Definition round64_pos (n d : Z) : Z * Z :=
  let e := ilog2 n d in
  let p := Z.max e (-1022) - 52 in
  let m := if 0 <=? p then round_half_even n (d * 2 ^ p)
           else round_half_even (n * 2 ^ (- p)) d in
  (m, p).

Definition Q_of_scaled (neg : bool) (m p : Z) : Q :=
  let v := if 0 <=? p then (m * 2 ^ p) # 1 else Qred (m # Z.to_pos (2 ^ (- p))) in
  if neg then Qopp v else v.

Definition round64 (q : Q) : pyfloat :=
  let n := Qnum q in
  let d := Zpos (Qden q) in
  if n =? 0 then FNum 0
  else
    let neg := n <? 0 in
    let '(m, p) := round64_pos (Z.abs n) d in
    if (0 <=? p) && (2 ^ 1024 <=? m * 2 ^ p) then FInf neg
    else FNum (Q_of_scaled neg m p).

Definition fzero : pyfloat := FNum 0.

(** [x <= 0], [x > 5000], [x >= y], [x > y], [x > 0] on floats: every
    comparison with a NaN is false. *)
Definition fle (x y : pyfloat) : bool :=
  match x, y with
  | FNan, _ | _, FNan => false
  | FInf true, _ => true
  | _, FInf false => true
  | FInf false, _ => false
  | _, FInf true => false
  | FNum a, FNum b => Qle_bool a b
  end.

Definition flt (x y : pyfloat) : bool :=
  match x, y with
  | FNan, _ | _, FNan => false
  | _, _ => negb (fle y x)
  end.

Definition fge (x y : pyfloat) : bool := fle y x.
Definition fgt (x y : pyfloat) : bool := flt y x.

Definition float_of_Z (z : Z) : pyfloat := round64 (inject_Z z).

(** [bool(x)] of a float: only zero is false. *)
Definition float_truthy (x : pyfloat) : bool :=
  match x with
  | FNum q => negb (Qnum q =? 0)
  | _ => true
  end.

Definition fneg_sign (x : pyfloat) : bool :=
  match x with
  | FNum q => Qnum q <? 0
  | FInf s => s
  | FNan => false
  end.

(** Arithmetic: the exact result, rounded; the infinities follow IEEE 754. *)
Definition fadd (x y : pyfloat) : pyfloat :=
  match x, y with
  | FNan, _ | _, FNan => FNan
  | FInf s, FInf t => if Bool.eqb s t then FInf s else FNan
  | FInf s, _ | _, FInf s => FInf s
  | FNum a, FNum b => round64 (Qplus a b)
  end.

Definition fopp (x : pyfloat) : pyfloat :=
  match x with
  | FNum q => FNum (Qopp q)
  | FInf s => FInf (negb s)
  | FNan => FNan
  end.

Definition fsub (x y : pyfloat) : pyfloat := fadd x (fopp y).

Definition fmul (x y : pyfloat) : pyfloat :=
  match x, y with
  | FNan, _ | _, FNan => FNan
  | FNum a, FNum b => round64 (Qmult a b)
  | _, _ =>
      if float_truthy x && float_truthy y
      then FInf (xorb (fneg_sign x) (fneg_sign y)) else FNan
  end.

(** [x / y]: [None] stands for [ZeroDivisionError]. *)
Definition fdiv (x y : pyfloat) : option pyfloat :=
  if negb (float_truthy y) then None
  else
    Some match x, y with
         | FNan, _ | _, FNan => FNan
         | FInf _, FInf _ => FNan
         | FInf s, _ => FInf (xorb s (fneg_sign y))
         | FNum _, FInf _ => fzero
         | FNum a, FNum b => round64 (Qdiv a b)
         end.

Definition fmin (x y : pyfloat) : pyfloat := if flt y x then y else x.
Definition fmax (x y : pyfloat) : pyfloat := if fgt y x then y else x.

(** Equality of floats as values ([x == y] without the NaN rule). *)
Definition feqb (x y : pyfloat) : bool :=
  match x, y with
  | FNum a, FNum b => (Qnum a =? Qnum b) && (Zpos (Qden a) =? Zpos (Qden b))
  | FInf s, FInf t => Bool.eqb s t
  | FNan, FNan => true
  | _, _ => false
  end.

(** *** [float(s)] for a string

    The grammar of [float]: blanks around, a sign, then [inf], [infinity],
    [nan] in any case, or digits with an optional fraction and exponent; an
    underscore may stand between two digits. *)

(** Reads digits (and single underscores between them) after a first digit:
    the value read so far, the number of digits, and what follows. *)
Fixpoint digits_loop (acc : Z) (n : nat) (cs : list ascii) : Z * nat * list ascii :=
  match cs with
  | [] => (acc, n, [])
  | c :: cs' =>
      if is_digit c then digits_loop (acc * 10 + digit_val c) (S n) cs'
      else if (code c =? 95) then
        match cs' with
        | d :: cs'' =>
            if is_digit d then digits_loop (acc * 10 + digit_val d) (S n) cs''
            else (acc, n, cs)
        | [] => (acc, n, cs)
        end
      else (acc, n, cs)
  end.

Definition digitpart (cs : list ascii) : option (Z * nat * list ascii) :=
  match cs with
  | c :: cs' => if is_digit c then Some (digits_loop (digit_val c) 1 cs') else None
  | [] => None
  end.

Definition read_sign (cs : list ascii) : bool * list ascii :=
  match cs with
  | c :: cs' =>
      if (code c =? 45) then (true, cs')
      else if (code c =? 43) then (false, cs')
      else (false, cs)
  | [] => (false, [])
  end.

(** [m * 10^e] as a rational. *)
Definition decimal (m e : Z) : Q :=
  if 0 <=? e then inject_Z (m * 10 ^ e) else m # Z.to_pos (10 ^ (- e)).

(** The exact value of an unsigned decimal literal that spans all of [cs]. *)
Definition parse_number (cs : list ascii) : option Q :=
  let '(ip, r1) :=
    match digitpart cs with
    | Some (v, _, r) => (Some v, r)
    | None => (None, cs)
    end in
  let '(fp, r2) :=
    match r1 with
    | c :: r =>
        if (code c =? 46) then
          match digitpart r with
          | Some (v, n, r') => (Some (v, n), r')
          | None => (None, r)
          end
        else (None, r1)
    | [] => (None, r1)
    end in
  match ip, fp with
  | None, None => None
  | _, _ =>
      let iv := match ip with Some v => v | None => 0 end in
      let '(fv, fn) := match fp with Some x => x | None => (0, O) end in
      let m := iv * 10 ^ Z.of_nat fn + fv in
      match r2 with
      | [] => Some (decimal m (- Z.of_nat fn))
      | c :: r =>
          if (code c =? 101) || (code c =? 69) then
            let '(eneg, r') := read_sign r in
            match digitpart r' with
            | Some (ev, _, []) =>
                Some (decimal m ((if eneg then - ev else ev) - Z.of_nat fn))
            | _ => None
            end
          else None
      end
  end.

(** [float(s)]: [None] stands for [ValueError]. *)
Definition float_of_string (s : string) : option pyfloat :=
  let '(neg, r) := read_sign (chars (strip s)) in
  let word := lower (text r) in
  if String.eqb word "inf" || String.eqb word "infinity" then Some (FInf neg)
  else if String.eqb word "nan" then Some FNan
  else
    match parse_number r with
    | Some q => Some (round64 (if neg then Qopp q else q))
    | None => None
    end.

(** [int(s)] for a string, base 10: [None] stands for [ValueError]. *)
Definition int_of_string (s : string) : option Z :=
  let '(neg, r) := read_sign (chars (strip s)) in
  match digitpart r with
  | Some (v, _, []) => Some (if neg then - v else v)
  | _ => None
  end.

(** *** Rendering floats *)

(** [format(x, '.1f')] *)
Definition format_1f (x : pyfloat) : string :=
  match x with
  | FNan => "nan"
  | FInf true => "-inf"
  | FInf false => "inf"
  | FNum q =>
      let n := Qnum q in
      let t := round_half_even (Z.abs n * 10) (Zpos (Qden q)) in
      (if n <? 0 then "-" else "") ++ str_of_Z (t / 10) ++ "." ++ str_of_Z (t mod 10)
  end.

(** The least [k >= k0] with [1 <= (n / d) * 10^k], searched over [fuel] steps. *)
Fixpoint first_scale (fuel : nat) (n d k : Z) : Z :=
  match fuel with
  | O => k
  | S f => if d <=? n * 10 ^ k then k else first_scale f n d (k + 1)
  end.

(** [floor (log10 (n / d))] for [0 < n], [0 < d], over the binary64 range. *)
Definition ilog10 (n d : Z) : Z :=
  if d <=? n then Z.of_nat (String.length (str_of_Z (n / d))) - 1
  else - first_scale 400 n d 1.

(** The decimal [m * 10^x] with [k] digits that reads back as [n / d], if
    there is one: of the two neighbours of [n / d] the nearer one that does. *)
Definition candidate (n d : Z) (e10 : Z) (k : Z) : option (Z * Z) :=
  let x := e10 - k + 1 in
  let '(num, den) := if 0 <=? x then (n, d * 10 ^ x) else (n * 10 ^ (- x), d) in
  let lo := num / den in
  let hi := lo + 1 in
  let back m := feqb (round64 (decimal m x)) (round64 (n # Z.to_pos d)) in
  let nearer := round_half_even num den in
  match back lo, back hi with
  | true, true => Some (nearer, x)
  | true, false => Some (lo, x)
  | false, true => Some (hi, x)
  | false, false => None
  end.

Fixpoint shortest (fuel : nat) (n d e10 k : Z) : Z * Z :=
  match fuel with
  | O => (0, 0)
  | S f =>
      match candidate n d e10 k with
      | Some mx => mx
      | None => shortest f n d e10 (k + 1)
      end
  end.

(** Drops the zeros at the end of the digits. *)
Fixpoint trim_zeros (fuel : nat) (m x : Z) : Z * Z :=
  match fuel with
  | O => (m, x)
  | S f => if (m mod 10 =? 0) && negb (m =? 0) then trim_zeros f (m / 10) (x + 1) else (m, x)
  end.

Definition pad2 (s : string) : string :=
  match s with
  | String c EmptyString => String "0" s
  | _ => s
  end.

(** [repr(x)] (and [str(x)]) of a float: the shortest digits that read back
    as [x], written with an exponent when it is below [-4] or at least [16]. *)
Definition float_repr (x : pyfloat) : string :=
  match x with
  | FNan => "nan"
  | FInf true => "-inf"
  | FInf false => "inf"
  | FNum q =>
      let n := Z.abs (Qnum q) in
      let d := Zpos (Qden q) in
      let sign := if Qnum q <? 0 then "-" else "" in
      if n =? 0 then "0.0"
      else
        let '(m0, x0) := shortest 17 n d (ilog10 n d) 1 in
        let '(m, x) := trim_zeros 20 m0 x0 in
        let ds := str_of_Z m in
        let nd := Z.of_nat (String.length ds) in
        let e := x + nd - 1 in
        if (-4 <=? e) && (e <? 16) then
          if 0 <=? x then sign ++ ds ++ repeat_char "0" (Z.to_nat x) ++ ".0"
          else if 0 <=? e then
            sign ++ String.substring 0 (Z.to_nat (e + 1)) ds ++ "."
                 ++ drop (Z.to_nat (e + 1)) ds
          else sign ++ "0." ++ repeat_char "0" (Z.to_nat (- e - 1)) ++ ds
        else
          sign ++ String.substring 0 1 ds
               ++ (if 1 <? nd then "." ++ drop 1 ds else "")
               ++ "e" ++ (if e <? 0 then "-" else "+") ++ pad2 (str_of_Z (Z.abs e))
  end.

(** *** Dynamically typed values

    What a JSON reply or an entity slot may hold: the six kinds of JSON
    value.  A dict is its items in insertion order, keys distinct. *)

#[local] Set Warnings "-register-all".
Inductive value : Type :=
| VNone
| VBool (b : bool)
| VInt (z : Z)
| VFloat (f : pyfloat)
| VStr (s : string)
| VList (elems : list value)
| VDict (items : list (string * value)).

Definition dict : Type := list (string * value).

(** [bool(v)] *)
Definition truthy (v : value) : bool :=
  match v with
  | VNone => false
  | VBool b => b
  | VInt z => negb (z =? 0)
  | VFloat f => float_truthy f
  | VStr s => negb (String.eqb s "")
  | VList l => match l with [] => false | _ => true end
  | VDict d => match d with [] => false | _ => true end
  end.

(** [a or b] *)
Definition py_or (a b : value) : value := if truthy a then a else b.

(** [v == s] for a string constant [s]. *)
Definition eq_str (v : value) (s : string) : bool :=
  match v with
  | VStr t => String.eqb t s
  | _ => false
  end.

Definition is_none (v : value) : bool :=
  match v with
  | VNone => true
  | _ => false
  end.

Definition quoted (s : string) : string := "'" ++ s ++ "'".

(** [repr(v)] and [str(v)], as an f-string renders it: they differ on
    strings only.  A string is quoted as one without quotes or escapes is. *)
Fixpoint py_repr (v : value) : string :=
  match v with
  | VNone => "None"
  | VBool true => "True"
  | VBool false => "False"
  | VInt z => str_of_Z z
  | VFloat f => float_repr f
  | VStr s => quoted s
  | VList l =>
      "[" ++ (fix elems (l : list value) : string :=
                match l with
                | [] => ""
                | [x] => py_repr x
                | x :: r => py_repr x ++ ", " ++ elems r
                end) l ++ "]"
  | VDict d =>
      "{" ++ (fix items (l : list (string * value)) : string :=
                match l with
                | [] => ""
                | [(k, x)] => quoted k ++ ": " ++ py_repr x
                | (k, x) :: r => quoted k ++ ": " ++ py_repr x ++ ", " ++ items r
                end) d ++ "}"
  end.

Definition py_str (v : value) : string :=
  match v with
  | VStr s => s
  | _ => py_repr v
  end.

(** [float(v)] *)
Definition py_float (v : value) : result pyfloat :=
  match v with
  | VFloat f => Ok f
  | VInt z =>
      match float_of_Z z with
      | FInf _ => Raise OverflowError
      | f => Ok f
      end
  | VBool b => Ok (if b then float_of_Z 1 else fzero)
  | VStr s =>
      match float_of_string s with
      | Some f => Ok f
      | None => Raise ValueError
      end
  | VNone | VList _ | VDict _ => Raise TypeError
  end.

(** [int(v)]: a float is cut towards zero. *)
Definition py_int (v : value) : result Z :=
  match v with
  | VInt z => Ok z
  | VBool b => Ok (if b then 1 else 0)
  | VFloat (FNum q) => Ok (Z.quot (Qnum q) (Zpos (Qden q)))
  | VFloat (FInf _) => Raise OverflowError
  | VFloat FNan => Raise ValueError
  | VStr s =>
      match int_of_string s with
      | Some z => Ok z
      | None => Raise ValueError
      end
  | VNone | VList _ | VDict _ => Raise TypeError
  end.

(** *** Dicts *)

Fixpoint lookup {A : Type} (d : list (string * A)) (k : string) : option A :=
  match d with
  | [] => None
  | (k', v) :: r => if String.eqb k' k then Some v else lookup r k
  end.

(** [d.get(k)] and [d.get(k, default)] *)
Definition get_or (d : dict) (k : string) (default : value) : value :=
  match lookup d k with
  | Some v => v
  | None => default
  end.

Definition get (d : dict) (k : string) : value := get_or d k VNone.

(** [d[k] = v]: an existing key keeps its place. *)
Fixpoint set (d : dict) (k : string) (v : value) : dict :=
  match d with
  | [] => [(k, v)]
  | (k', v') :: r => if String.eqb k' k then (k', v) :: r else (k', v') :: set r k v
  end.

(** [k in d] *)
Definition has_key {A : Type} (d : list (string * A)) (k : string) : bool :=
  match lookup d k with
  | Some _ => true
  | None => false
  end.

(** The receiver of [.get]: anything but a dict raises [AttributeError]. *)
Definition as_dict (v : value) : result dict :=
  match v with
  | VDict d => Ok d
  | _ => Raise AttributeError
  end.

(** *** [re.search]

    The patterns of the heuristic extractor, matched by backtracking in the
    order [re] tries the alternatives: the first start position that admits a
    match wins, repetitions are greedy.  [Group] marks the one group whose text
    the caller reads. *)

Inductive regex : Type :=
| Chars (p : ascii -> bool)
| Lit (c : ascii)
| Seq (r1 r2 : regex)
| Alt (r1 r2 : regex)
| Star (r : regex)
| Opt (r : regex)
| Times (n : nat) (r : regex)
| Group (r : regex)
| Boundary.

Definition Plus (r : regex) : regex := Seq r (Star r).

Fixpoint Word (s : string) : regex :=
  match s with
  | EmptyString => Times 0 Boundary
  | String c EmptyString => Lit c
  | String c s' => Seq (Lit c) (Word s')
  end.

Definition is_word_opt (c : option ascii) : bool :=
  match c with
  | Some a => is_word a
  | None => false
  end.

(** A span: where the group started and ended. *)
Definition span : Type := option (nat * nat).

Section Matcher.
Variable R : Type.

(** What remains to be matched after a subterm: it receives the character
    before the position, the rest of the subject, the position and the span. *)
Definition cont : Type := option ascii -> list ascii -> nat -> span -> option R.

Fixpoint rmatch (r : regex) (prev : option ascii) (rest : list ascii) (pos : nat)
    (cap : span) (k : cont) {struct r} : option R :=
  match r with
  | Chars p =>
      match rest with
      | c :: rest' => if p c then k (Some c) rest' (S pos) cap else None
      | [] => None
      end
  | Lit a =>
      match rest with
      | c :: rest' => if Ascii.eqb c a then k (Some c) rest' (S pos) cap else None
      | [] => None
      end
  | Seq r1 r2 =>
      rmatch r1 prev rest pos cap
        (fun prev' rest' pos' cap' => rmatch r2 prev' rest' pos' cap' k)
  | Alt r1 r2 =>
      match rmatch r1 prev rest pos cap k with
      | Some x => Some x
      | None => rmatch r2 prev rest pos cap k
      end
  | Opt r1 =>
      match rmatch r1 prev rest pos cap k with
      | Some x => Some x
      | None => k prev rest pos cap
      end
  | Star r1 =>
      (fix star (n : nat) (prev : option ascii) (rest : list ascii) (pos : nat)
           (cap : span) {struct n} : option R :=
         match n with
         | O => k prev rest pos cap
         | S n' =>
             match rmatch r1 prev rest pos cap
                     (fun prev' rest' pos' cap' =>
                        if Nat.eqb pos' pos then None
                        else star n' prev' rest' pos' cap') with
             | Some x => Some x
             | None => k prev rest pos cap
             end
         end) (List.length rest) prev rest pos cap
  | Times n r1 =>
      (fix rep (n : nat) (prev : option ascii) (rest : list ascii) (pos : nat)
           (cap : span) {struct n} : option R :=
         match n with
         | O => k prev rest pos cap
         | S n' =>
             rmatch r1 prev rest pos cap
               (fun prev' rest' pos' cap' => rep n' prev' rest' pos' cap')
         end) n prev rest pos cap
  | Group r1 =>
      rmatch r1 prev rest pos cap
        (fun prev' rest' pos' _ => k prev' rest' pos' (Some (pos, pos')))
  | Boundary =>
      let after := match rest with c :: _ => is_word c | [] => false end in
      if xorb (is_word_opt prev) after then k prev rest pos cap else None
  end.

End Matcher.

Fixpoint search_from (r : regex) (prev : option ascii) (rest : list ascii)
    (pos : nat) : option span :=
  match rmatch span r prev rest pos None (fun _ _ _ cap => Some cap) with
  | Some cap => Some cap
  | None =>
      match rest with
      | c :: rest' => search_from r (Some c) rest' (S pos)
      | [] => None
      end
  end.

(** [m = re.search(r, s)] followed by [m.group(1)]: [None] when [m] is. *)
Definition search_group (r : regex) (s : string) : option string :=
  match search_from r None (chars s) 0 with
  | Some (Some (a, b)) => Some (String.substring a (b - a) s)
  | _ => None
  end.

End Py.

(* ================================================================== *)
(** ** Storage and the tool functions (the package [agentic/tools/]) *)
(* ================================================================== *)

Module Tools.
Import Py.

(** *** Calendar dates ([datetime.date]) *)

Record date : Type := mkdate { year : Z; month : Z; day : Z }.

Definition is_leap (y : Z) : bool :=
  ((y mod 4 =? 0) && negb (y mod 100 =? 0)) || (y mod 400 =? 0).

Definition days_in_month (y m : Z) : Z :=
  if m =? 2 then (if is_leap y then 29 else 28)
  else if (m =? 4) || (m =? 6) || (m =? 9) || (m =? 11) then 30
  else 31.

Definition valid_date (d : date) : bool :=
  (1 <=? year d) && (year d <=? 9999)
  && (1 <=? month d) && (month d <=? 12)
  && (1 <=? day d) && (day d <=? days_in_month (year d) (month d)).

Definition date_eqb (a b : date) : bool :=
  (year a =? year b) && (month a =? month b) && (day a =? day b).

(** [str(n).zfill(w)] for [0 <= n]. *)
Definition zfill (w : nat) (n : Z) : string :=
  let t := str_of_Z n in
  repeat_char "0" (w - String.length t) ++ t.

(** [d.isoformat()]: [YYYY-MM-DD]. *)
Definition isoformat (d : date) : string :=
  zfill 4 (year d) ++ "-" ++ zfill 2 (month d) ++ "-" ++ zfill 2 (day d).

Definition all_digits (l : list ascii) : bool := forallb is_digit l.

Definition number (l : list ascii) : Z :=
  fold_left (fun acc c => acc * 10 + digit_val c) l 0.

(** [d - timedelta(days=1)]; before 0001-01-01 it raises [OverflowError]. *)
Definition minus_one_day (d : date) : result date :=
  if 1 <? day d then Ok (mkdate (year d) (month d) (day d - 1))
  else if 1 <? month d then
    Ok (mkdate (year d) (month d - 1) (days_in_month (year d) (month d - 1)))
  else if 1 <? year d then Ok (mkdate (year d - 1) 12 31)
  else Raise OverflowError.

(** *** Rows ([app/models.py]) *)

(** A row of [foods]: the per-100 g [Float] columns are kept by name. *)
Record Food : Type := mkFood {
  food_id : Z;
  food_name : string;
  food_brand : value;
  food_upc : value;
  food_columns : dict
}.

(** A row of [meal_logs]. *)
Record MealLog : Type := mkMealLog {
  log_id : Z;
  log_user_id : Z;
  log_food_id : Z;
  log_grams : value;
  log_meal_type : value;
  log_notes : value;
  log_day : date;          (* the calendar day of [logged_at] *)
  logged_at : string       (* [logged_at.isoformat()] *)
}.

(** The [meal_logs] table: the part of the store a turn may change. *)
Definition DB : Type := list MealLog.

(** What a turn reads from its surroundings: the clock, the [users] and
    [foods] tables, and the three food queries of [app/barcode.py] and
    [tool_list_foods], which are left to the database engine. *)
Record World : Type := mkWorld {
  today : date;                                  (* [date.today()] *)
  utcnow_day : date;                             (* [datetime.utcnow()], its day *)
  utcnow_iso : string;                           (* and its [isoformat()] *)
  other_isoformat : string -> option date;       (* see [fromisoformat] *)
  users : list (Z * value);                      (* id and [prefs] of each user *)
  foods : list Food;                             (* [db.query(Food).all()] *)
  lookup_upc : value -> list Food;               (* [Food.upc == upc] *)
  search_food_by_name : value -> Z -> list Food; (* [Food.name.ilike], limited *)
  list_foods : Z -> list Food                    (* by id, limited *)
}.

(** [HH:MM:SS], or [HH:MM:SS.ffffff]: the time of day as
    [datetime.isoformat()] writes it. *)
Definition clock_time (l : list ascii) : bool :=
  match l with
  | h1 :: h2 :: c1 :: m1 :: m2 :: c2 :: s1 :: s2 :: fraction =>
      all_digits [h1; h2; m1; m2; s1; s2]
      && (code c1 =? 58) && (code c2 =? 58)
      && (number [h1; h2] <? 24) && (number [m1; m2] <? 60)
      && (number [s1; s2] <? 60)
      && match fraction with
         | [] => true
         | point :: f =>
             (code point =? 46) && (List.length f =? 6)%nat && all_digits f
         end
  | _ => false
  end.

(** [datetime.fromisoformat(s).date()]; [None] stands for [ValueError].
    Every form the parser takes starts with the four digits of the year.
    The calendar date [YYYY-MM-DD], alone or followed by one ASCII character
    and a time of day as [isoformat()] writes it, is read here.  Which
    other strings that start with a year are accepted (shorter times, time
    zones, the basic and the week forms) depends on the version of the
    interpreter: for these the answer is that of the surroundings,
    [other_isoformat]. *)
Definition fromisoformat (w : World) (s : string) : option date :=
  match chars s with
  | y1 :: y2 :: y3 :: y4 :: rest =>
      if all_digits [y1; y2; y3; y4] then
        match rest with
        | s1 :: m1 :: m2 :: s2 :: d1 :: d2 :: tail =>
            if all_digits [m1; m2; d1; d2] && (code s1 =? 45) && (code s2 =? 45)
            then
              let d := mkdate (number [y1; y2; y3; y4]) (number [m1; m2])
                              (number [d1; d2]) in
              match tail with
              | [] => if valid_date d then Some d else None
              | separator :: time =>
                  if valid_date d && (code separator <? 128) && clock_time time
                  then Some d
                  else other_isoformat w s
              end
            else other_isoformat w s
        | _ => other_isoformat w s
        end
      else None
  | _ => None
  end.

(** The dict the food tools return for a row. *)
Definition food_summary (f : Food) : dict :=
  [ ("id", VInt (food_id f));
    ("name", VStr (food_name f));
    ("brand", food_brand f);
    ("upc", food_upc f);
    ("calories", get (food_columns f) "calories");
    ("protein_g", get (food_columns f) "protein_g");
    ("fat_g", get (food_columns f) "fat_g");
    ("carbs_g", get (food_columns f) "carbs_g") ].

Definition tool_search_food (w : World) (query : value) (limit : Z) : list dict :=
  map food_summary (search_food_by_name w query limit).

Definition tool_lookup_upc (w : World) (upc : value) : list dict :=
  map food_summary (lookup_upc w upc).

Definition tool_list_foods (w : World) (limit : Z) : list dict :=
  map food_summary (list_foods w limit).

(** [db.query(User).filter(User.id == user_id).first()]: the user's [prefs]. *)
Definition first_user (w : World) (user_id : Z) : option value :=
  match find (fun u => fst u =? user_id) (users w) with
  | Some (_, prefs) => Some prefs
  | None => None
  end.

(** [db.query(Food).filter(Food.id == food_id).first()] *)
Definition first_food (w : World) (fid : Z) : option Food :=
  find (fun f => food_id f =? fid) (foods w).

(** The same query for a key of any type: only an integer names a row. *)
Definition first_food_by (w : World) (key : value) : option Food :=
  match key with
  | VInt fid => first_food w fid
  | _ => None
  end.

(** The operand of an arithmetic operator as a float: a string is no number. *)
Definition number_of (v : value) : result pyfloat :=
  match v with
  | VStr _ => Raise TypeError
  | _ => py_float v
  end.

(** A value [Column(String, default=...)] stores: SQLAlchemy leaves an
    attribute that is [None] out of the INSERT, so the column default is
    written ([app/models.py]: [meal_type = Column(String, default="snack")]). *)
Definition column_default (given default : value) : value :=
  if is_none given then default else given.

(** The next primary key of [meal_logs]. *)
Definition next_id (db : DB) : Z :=
  1 + fold_left (fun m l => Z.max m (log_id l)) db 0.

Definition error_dict (msg : string) : dict := [("error", VStr msg)].

(** [tool_log_meal(user_id, food_id, grams, meal_type)]: the dict it returns
    and the table afterwards. *)
Definition tool_log_meal (w : World) (db : DB) (user_id : Z)
    (food_id grams meal_type : value) : dict * DB :=
  match first_user w user_id, first_food_by w food_id with
  | None, _ => (error_dict "User not found", db)
  | Some _, None => (error_dict "Food not found", db)
  | Some _, Some food =>
      let meal_log :=
        mkMealLog (next_id db) user_id (Tools.food_id food) grams
                  (column_default meal_type (VStr "snack")) VNone
                  (utcnow_day w) (utcnow_iso w) in
      ([ ("id", VInt (log_id meal_log));
         ("user_id", VInt (log_user_id meal_log));
         ("food_id", VInt (log_food_id meal_log));
         ("food_name", VStr (food_name food));
         ("grams", log_grams meal_log);
         ("meal_type", log_meal_type meal_log);
         ("logged_at", VStr (logged_at meal_log)) ],
       (db ++ [meal_log])%list)
  end.

(** *** [compute_totals] ([app/nutrition.py]) and [NutritionTotals] ([app/schemas.py]) *)

(** The thirty-four fields of [NutritionTotals], in the order of the class,
    which is the order of [totals.dict()] and of the additions of
    [compute_totals]; the flag tells the macronutrients, which
    [compute_totals] reads without [or 0]. *)
Definition TOTAL_KEYS : list (string * bool) :=
  [ ("calories", true); ("protein_g", true); ("fat_g", true); ("carbs_g", true);
    ("vitamin_a_rae", false); ("vitamin_d_iu", false); ("vitamin_e_mg", false);
    ("vitamin_k_mcg", false);
    ("vitamin_c_mg", false); ("vitamin_b1_mg", false); ("vitamin_b2_mg", false);
    ("vitamin_b3_mg", false); ("vitamin_b5_mg", false); ("vitamin_b6_mg", false);
    ("vitamin_b7_mcg", false); ("vitamin_b9_mcg", false);
    ("vitamin_b12_mcg", false); ("choline_mg", false);
    ("calcium_mg", false); ("phosphorus_mg", false); ("magnesium_mg", false);
    ("sodium_mg", false); ("potassium_mg", false); ("chloride_mg", false);
    ("sulfur_mg", false);
    ("iron_mg", false); ("zinc_mg", false); ("copper_mg", false);
    ("manganese_mg", false); ("iodine_mcg", false); ("selenium_mcg", false);
    ("chromium_mcg", false); ("molybdenum_mcg", false); ("fluoride_mg", false) ].

(** [totals.k += food.k * scale_factor], or [(food.k or 0) * scale_factor],
    for each key in turn; [old] holds the totals before this log. *)
Fixpoint add_columns (food : Food) (scale : pyfloat) (old : list (string * pyfloat))
    (keys : list (string * bool)) (acc : list (string * pyfloat))
    : result (list (string * pyfloat)) :=
  match keys with
  | [] => Ok acc
  | (k, macro) :: keys' =>
      let col := get (food_columns food) k in
      x <- number_of (if macro then col else py_or col (VInt 0)) ;;
      let total := match lookup old k with Some t => t | None => fzero end in
      add_columns food scale old keys' (acc ++ [(k, fadd total (fmul x scale))])%list
  end.

Fixpoint compute_totals (w : World) (meal_logs : list MealLog)
    (totals : list (string * pyfloat)) : result (list (string * pyfloat)) :=
  match meal_logs with
  | [] => Ok totals
  | log :: rest =>
      g <- number_of (log_grams log) ;;
      match fdiv g (float_of_Z 100) with
      | None => Raise ZeroDivisionError
      | Some scale_factor =>
          match first_food w (log_food_id log) with
          | None => Raise AttributeError        (* [log.food] is [None] *)
          | Some food =>
              totals' <- add_columns food scale_factor totals TOTAL_KEYS [] ;;
              compute_totals w rest totals'
          end
      end
  end.

(** [NutritionTotals()]: every field is [0.0]. *)
Definition zero_totals : list (string * pyfloat) :=
  map (fun k => (fst k, fzero)) TOTAL_KEYS.

(** *** [tool_compute_day] ([agentic/tools/summary.py]) *)

(** The entry of a log in ["meals"]:
    ["food_name": log.food.name if log.food else None]. *)
Definition meal_dict (w : World) (log : MealLog) : value :=
  VDict [ ("id", VInt (log_id log));
          ("food_name", match first_food w (log_food_id log) with
                        | Some food => VStr (food_name food)
                        | None => VNone
                        end);
          ("grams", log_grams log);
          ("meal_type", log_meal_type log);
          ("logged_at", VStr (logged_at log)) ].

(** The date [tool_compute_day] computes for: [datetime.fromisoformat] of a
    true [date_iso], else the day of [datetime.utcnow()]. *)
Definition target_date (w : World) (date_iso : value) : result date :=
  if truthy date_iso then
    match date_iso with
    | VStr s =>
        match fromisoformat w s with
        | Some d => Ok d
        | None => Raise ValueError
        end
    | _ => Raise TypeError
    end
  else Ok (utcnow_day w).

(** [tool_compute_day(user_id, date_iso)]: the logs of the user whose
    [logged_at] lies in the target day, their totals ([totals.dict()], all
    the fields of [NutritionTotals]) and their entries. *)
Definition tool_compute_day (w : World) (db : DB) (user_id : Z) (date_iso : value)
    : result dict :=
  target <- target_date w date_iso ;;
  let meal_logs :=
    filter (fun l => (log_user_id l =? user_id) && date_eqb (log_day l) target) db in
  totals <- compute_totals w meal_logs zero_totals ;;
  Ok [ ("date", VStr (isoformat target));
       ("meal_count", VInt (Z.of_nat (List.length meal_logs)));
       ("totals", VDict (map (fun kv => (fst kv, VFloat (snd kv))) totals));
       ("meals", VList (map (meal_dict w) meal_logs)) ].

(** [tool_get_user_goals(user_id)] ([agentic/tools/goals.py]):
    [user.prefs.get("goals", {}) if user.prefs else {}]. *)
Definition tool_get_user_goals (w : World) (user_id : Z) : result value :=
  match first_user w user_id with
  | None => Ok (VDict (error_dict "User not found"))
  | Some prefs =>
      if truthy prefs then
        d <- as_dict prefs ;;
        Ok (get_or d "goals" (VDict []))
      else Ok (VDict [])
  end.

End Tools.

(* ================================================================== *)
(** ** The shared state ([agentic/state.py]) *)
(* ================================================================== *)

Module State.
Import Py.

(** A tool call an assistant message asks for. *)
Record tool_call : Type := mkCall {
  call_name : string;
  call_args : value;
  call_id : string
}.

(** The entries of [messages]: the dict [llm_node] starts from, and the
    message objects of [langchain_core]. *)
Inductive message : Type :=
| DictMessage (role content : string)
| SystemMessage (content : string)
| HumanMessage (content : string)
| AIMessage (content : string) (tool_calls : list tool_call)
| ToolMessage (content : string) (tool_call_id : string).

(** [GraphState], with the two keys the agents add to it ([day_data],
    [recommendations]). *)
Record GraphState : Type := mkState {
  messages : list message;
  user_id : Z;
  input_text : string;
  intent : value;
  entities : value;
  food_candidates : list dict;
  selected_food : option dict;
  log_entry : option dict;
  day_data : option dict;
  day_totals : option value;
  goals : option value;
  response : string;
  needs_clarification : bool;
  questions : list string;
  confidence : pyfloat;
  recommendations : list dict
}.

(** [state[key] = v], one function per key that is written. *)
Definition set_messages (st : GraphState) (v : list message) : GraphState :=
  mkState v (user_id st) (input_text st) (intent st) (entities st)
          (food_candidates st) (selected_food st) (log_entry st) (day_data st)
          (day_totals st) (goals st) (response st) (needs_clarification st)
          (questions st) (confidence st) (recommendations st).

Definition set_intent (st : GraphState) (v : value) : GraphState :=
  mkState (messages st) (user_id st) (input_text st) v (entities st)
          (food_candidates st) (selected_food st) (log_entry st) (day_data st)
          (day_totals st) (goals st) (response st) (needs_clarification st)
          (questions st) (confidence st) (recommendations st).

Definition set_entities (st : GraphState) (v : value) : GraphState :=
  mkState (messages st) (user_id st) (input_text st) (intent st) v
          (food_candidates st) (selected_food st) (log_entry st) (day_data st)
          (day_totals st) (goals st) (response st) (needs_clarification st)
          (questions st) (confidence st) (recommendations st).

Definition set_food_candidates (st : GraphState) (v : list dict) : GraphState :=
  mkState (messages st) (user_id st) (input_text st) (intent st) (entities st)
          v (selected_food st) (log_entry st) (day_data st)
          (day_totals st) (goals st) (response st) (needs_clarification st)
          (questions st) (confidence st) (recommendations st).

Definition set_selected_food (st : GraphState) (v : option dict) : GraphState :=
  mkState (messages st) (user_id st) (input_text st) (intent st) (entities st)
          (food_candidates st) v (log_entry st) (day_data st)
          (day_totals st) (goals st) (response st) (needs_clarification st)
          (questions st) (confidence st) (recommendations st).

Definition set_log_entry (st : GraphState) (v : option dict) : GraphState :=
  mkState (messages st) (user_id st) (input_text st) (intent st) (entities st)
          (food_candidates st) (selected_food st) v (day_data st)
          (day_totals st) (goals st) (response st) (needs_clarification st)
          (questions st) (confidence st) (recommendations st).

Definition set_day_data (st : GraphState) (v : option dict) : GraphState :=
  mkState (messages st) (user_id st) (input_text st) (intent st) (entities st)
          (food_candidates st) (selected_food st) (log_entry st) v
          (day_totals st) (goals st) (response st) (needs_clarification st)
          (questions st) (confidence st) (recommendations st).

Definition set_day_totals (st : GraphState) (v : option value) : GraphState :=
  mkState (messages st) (user_id st) (input_text st) (intent st) (entities st)
          (food_candidates st) (selected_food st) (log_entry st) (day_data st)
          v (goals st) (response st) (needs_clarification st)
          (questions st) (confidence st) (recommendations st).

Definition set_goals (st : GraphState) (v : option value) : GraphState :=
  mkState (messages st) (user_id st) (input_text st) (intent st) (entities st)
          (food_candidates st) (selected_food st) (log_entry st) (day_data st)
          (day_totals st) v (response st) (needs_clarification st)
          (questions st) (confidence st) (recommendations st).

Definition set_response (st : GraphState) (v : string) : GraphState :=
  mkState (messages st) (user_id st) (input_text st) (intent st) (entities st)
          (food_candidates st) (selected_food st) (log_entry st) (day_data st)
          (day_totals st) (goals st) v (needs_clarification st)
          (questions st) (confidence st) (recommendations st).

Definition set_needs_clarification (st : GraphState) (v : bool) : GraphState :=
  mkState (messages st) (user_id st) (input_text st) (intent st) (entities st)
          (food_candidates st) (selected_food st) (log_entry st) (day_data st)
          (day_totals st) (goals st) (response st) v
          (questions st) (confidence st) (recommendations st).

Definition set_questions (st : GraphState) (v : list string) : GraphState :=
  mkState (messages st) (user_id st) (input_text st) (intent st) (entities st)
          (food_candidates st) (selected_food st) (log_entry st) (day_data st)
          (day_totals st) (goals st) (response st) (needs_clarification st)
          v (confidence st) (recommendations st).

Definition set_confidence (st : GraphState) (v : pyfloat) : GraphState :=
  mkState (messages st) (user_id st) (input_text st) (intent st) (entities st)
          (food_candidates st) (selected_food st) (log_entry st) (day_data st)
          (day_totals st) (goals st) (response st) (needs_clarification st)
          (questions st) v (recommendations st).

Definition set_recommendations (st : GraphState) (v : list dict) : GraphState :=
  mkState (messages st) (user_id st) (input_text st) (intent st) (entities st)
          (food_candidates st) (selected_food st) (log_entry st) (day_data st)
          (day_totals st) (goals st) (response st) (needs_clarification st)
          (questions st) (confidence st) v.

(** The three assignments every agent makes when it asks the user:
    [needs_clarification = True], [questions = [question]], [response]. *)
Definition ask (st : GraphState) (question reply : string) : GraphState :=
  set_response
    (set_questions (set_needs_clarification st true) [question]) reply.

(** [d[k]] *)
Definition item (d : dict) (k : string) : result value :=
  match lookup d k with
  | Some v => Ok v
  | None => Raise KeyError
  end.

(** [initial_state] of [run_agent]. *)
Definition initial_state (uid : Z) (message : string) : GraphState :=
  mkState [] uid message VNone (VDict []) [] None None None None None
          "" false [] fzero [].

End State.

(* ================================================================== *)
(** ** The agents ([agentic/agents/*.py]) *)
(* ================================================================== *)

Module Agents.
Import Py Tools State.

(** The language model behind [get_llm()], seen through its two uses:
    [invoke] is [llm.invoke(prompt)] followed by [json.loads] of the reply
    ([None] when either raises); [chat] is [llm.bind_tools(tools).invoke] of a
    tool pipeline, named by its prefix, on the transcript. *)
Record LLM : Type := mkLLM {
  invoke : string -> option value;
  chat : string -> list message -> result (string * list tool_call)
}.

(** *** [OrchestratorAgent] *)

Definition ALLOWED_INTENTS : list string :=
  ["scan_barcode"; "search_food"; "log_meal"; "daily_summary"; "recommend"].

(** [", ".join(l)] *)
Fixpoint join (sep : string) (l : list string) : string :=
  match l with
  | [] => ""
  | [x] => x
  | x :: r => x ++ sep ++ join sep r
  end.

Definition NL : string := String (ascii_of_nat 10) EmptyString.

Definition build_prompt (user_text : string) : string :=
  let allowed := join ", " ALLOWED_INTENTS in
  "You are an intent and entity extractor for a nutrition app." ++ NL
  ++ "Return STRICT JSON with keys: intent, entities, confidence." ++ NL ++ NL
  ++ "Allowed intents: " ++ allowed ++ NL
  ++ "Entities: food_name, grams, upc, meal_type, date, food_id (use null if not present)." ++ NL
  ++ "Rules: extract concise food_name (e.g., 'oats'), parse 'food_id=3', '100g'/'80 grams', 12-digit UPC;"
  ++ " set date to 'today' if user says today." ++ NL ++ NL
  ++ "User message:" ++ NL ++ user_text ++ NL.

Definition digit : regex := Chars is_digit.
Definition blanks : regex := Star (Chars is_space).

(** [(\d+(?:\.\d+)?)\s*(g|grams?)\b]; the second group is not read. *)
Definition GRAMS_RE : regex :=
  Seq (Group (Seq (Plus digit) (Opt (Seq (Lit ".") (Plus digit)))))
      (Seq blanks
           (Seq (Alt (Lit "g") (Seq (Word "gram") (Opt (Lit "s")))) Boundary)).

(** [food_id\s*=\s*(\d+)] *)
Definition FOOD_ID_RE : regex :=
  Seq (Word "food_id") (Seq blanks (Seq (Lit "=") (Seq blanks (Group (Plus digit))))).

(** [\b(\d{12})\b] *)
Definition UPC_RE : regex :=
  Seq Boundary (Seq (Group (Times 12 digit)) Boundary).

(** [for mt in [...]: if mt in text: entities["meal_type"] = mt; break] *)
Fixpoint first_contained (s : string) (words : list string) : value :=
  match words with
  | [] => VNone
  | wd :: r => if contains s wd then VStr wd else first_contained s r
  end.

Definition heuristic_intent (state : GraphState) : GraphState :=
  let text := strip (lower (input_text state)) in
  let grams :=
    match search_group GRAMS_RE text with
    | Some g => match float_of_string g with Some f => VFloat f | None => VNone end
    | None => VNone
    end in
  let food_id :=
    match search_group FOOD_ID_RE text with
    | Some g => match int_of_string g with Some z => VInt z | None => VNone end
    | None => VNone
    end in
  let upc :=
    match search_group UPC_RE text with
    | Some g => VStr g
    | None => VNone
    end in
  let meal_type := first_contained text ["breakfast"; "lunch"; "dinner"; "snack"] in
  let date :=
    if contains text "yesterday" then VStr "yesterday"
    else if contains text "today" then VStr "today"
    else VNone in
  let entities (food_name date : value) : value :=
    VDict [ ("food_name", food_name); ("grams", grams); ("upc", upc);
            ("meal_type", meal_type); ("date", date); ("food_id", food_id) ] in
  let '(intent, ents) :=
    if contains_any text ["barcode"; "upc"; "scan"] then
      ("scan_barcode", entities VNone date)
    else if startswith text "search " then
      ("search_food", entities (VStr (strip (drop 7 (input_text state)))) date)
    else if contains_any text ["recommend"; "suggest"] then
      ("recommend", entities VNone (py_or date (VStr "today")))
    else if contains_any text ["summary"; "report"]
            || String.eqb text "today" || String.eqb text "yesterday" then
      ("daily_summary", entities VNone (py_or date (VStr "today")))
    else if contains_any text ["log"; "ate"; "consumed"]
            || truthy food_id || truthy grams then
      ("log_meal", entities VNone date)
    else ("search_food", entities VNone date) in
  set_confidence (set_entities (set_intent state (VStr intent)) ents)
                 (round64 (5 # 10)).

(** [OrchestratorAgent.run]; [llm] is [self.llm]. *)
Definition OrchestratorAgent_run (llm : option LLM) (state : GraphState) : GraphState :=
  match llm with
  | None => heuristic_intent state
  | Some m =>
      match invoke m (build_prompt (input_text state)) with
      | Some (VDict result) =>
          match py_float (get_or result "confidence" (VFloat (round64 (7 # 10)))) with
          | Ok c =>
              set_confidence
                (set_entities (set_intent state (get result "intent"))
                              (get_or result "entities" (VDict [])))
                c
          | Raise _ => heuristic_intent state
          end
      | _ => heuristic_intent state      (* [except Exception] *)
      end
  end.

(** *** [BarcodeAgent] *)

Definition BarcodeAgent_run (w : World) (state : GraphState) : result GraphState :=
  ents <- as_dict (entities state) ;;
  let upc := get ents "upc" in
  if negb (truthy upc) then
    Ok (ask state "Please provide a UPC code to scan."
            "I need a UPC code to look up the product. Please provide the barcode number.")
  else
    let foods := tool_lookup_upc w upc in
    match foods with
    | first :: _ =>
        name <- item first "name" ;;
        brand <- item first "brand" ;;
        calories <- item first "calories" ;;
        Ok (set_response
              (set_selected_food (set_food_candidates state foods) (Some first))
              ("Found " ++ py_str name ++ " (" ++ py_str brand ++ "). "
               ++ py_str calories ++ " calories per 100g."))
    | [] =>
        Ok (ask state "Would you like to search by name instead?"
                ("No food found with UPC " ++ py_str upc
                 ++ ". Would you like to search by name instead?"))
    end.

(** *** [FoodSearchAgent] *)

Definition FoodSearchAgent_run (w : World) (state : GraphState) : result GraphState :=
  ents <- as_dict (entities state) ;;
  let food_name := get ents "food_name" in
  if negb (truthy food_name) then
    Ok (ask state "What food would you like to search for?"
            "What food would you like to search for?")
  else
    let foods := tool_search_food w food_name 5 in
    match foods with
    | _ :: _ =>
        Ok (set_response (set_food_candidates state foods)
              ("Found " ++ str_of_Z (Z.of_nat (List.length foods)) ++ " food items."))
    | [] =>
        Ok (set_response state
              ("No foods found matching '" ++ py_str food_name
               ++ "'. Try a different search term."))
    end.

(** *** [LoggingAgent] *)

(** [not state.get("selected_food")]: [None] or an empty dict. *)
Definition no_selection (st : GraphState) : bool :=
  match selected_food st with
  | Some (_ :: _) => false
  | _ => true
  end.

Definition no_candidates (st : GraphState) : bool :=
  match food_candidates st with
  | [] => true
  | _ => false
  end.

Definition LoggingAgent_run (w : World) (db : DB) (state : GraphState)
    : result (GraphState * DB) :=
  ents <- as_dict (entities state) ;;
  if truthy (get ents "food_id") then
    let food_id := get ents "food_id" in
    let grams := get ents "grams" in
    if negb (truthy grams) then
      Ok (ask state "How many grams?" "How many grams would you like to log?", db)
    else
      let meal_type := get_or ents "meal_type" (VStr "snack") in
      fid <- py_int food_id ;;
      g <- py_float grams ;;
      let '(result, db') :=
        tool_log_meal w db (user_id state) (VInt fid) (VFloat g) meal_type in
      if has_key result "error" then
        Ok (set_response state ("Error logging meal: " ++ py_str (get result "error")),
            db')
      else
        Ok (set_response (set_log_entry state (Some result))
              ("Logged " ++ py_str (get result "grams") ++ "g of "
               ++ py_str (get result "food_name") ++ " ("
               ++ py_str (get result "meal_type") ++ ")."),
            db')
  else if no_candidates state && no_selection state then
    let suggestions := tool_list_foods w 5 in
    Ok (set_response
          (set_food_candidates
             (set_questions (set_needs_clarification state true)
                ["What food would you like to log? You can choose an ID from suggestions."])
             suggestions)
          "What food would you like to log?",
        db)
  else
    let candidates := food_candidates state in
    let choice : option dict :=     (* [None]: the agent asks which one *)
      if no_selection state then
        match candidates with
        | [] => Some []      (* not reached: the test above has returned *)
        | [only] => Some only
        | _ => None
        end
      else selected_food state in
    match choice with
    | None =>
        Ok (ask state
              ("Which food (1-" ++ str_of_Z (Z.of_nat (List.length candidates)) ++ ")?")
              "Please specify which food item you'd like to log.",
            db)
    | Some food =>
        let grams := get ents "grams" in
        if negb (truthy grams) then
          name <- item food "name" ;;
          Ok (ask state "How many grams?"
                ("How many grams of " ++ py_str name ++ " would you like to log?"),
              db)
        else
          let meal_type := get_or ents "meal_type" (VStr "snack") in
          fid <- item food "id" ;;
          let '(result, db') :=
            tool_log_meal w db (user_id state) fid grams meal_type in
          if has_key result "error" then
            Ok (set_response state
                  ("Error logging meal: " ++ py_str (get result "error")),
                db')
          else
            name <- item food "name" ;;
            Ok (set_response (set_log_entry state (Some result))
                  ("Logged " ++ py_str grams ++ "g of " ++ py_str name ++ " ("
                   ++ py_str meal_type ++ ")."),
                db')
    end.

(** *** [AnalysisAgent] *)

(** [v[k]] on a value. *)
Definition subscript (v : value) (k : string) : result value :=
  match v with
  | VDict d => item d k
  | _ => Raise TypeError
  end.

(** [format(v, '.1f')]: a number is formatted as the float it converts to. *)
Definition fmt1 (v : value) : result string :=
  match v with
  | VStr _ => Raise ValueError
  | _ => f <- py_float v ;; Ok (format_1f f)
  end.

(** [v > 0] *)
Definition positive (v : value) : result bool :=
  match v with
  | VInt z => Ok (0 <? z)
  | VBool b => Ok b
  | VFloat f => Ok (fgt f fzero)
  | _ => Raise TypeError
  end.

(** The two marks of a goal line, as the bytes of the source file.
    PASS is c3 a2 c5 93 e2 80 a6 and FAIL is c3 a2 c5 92. *)
Definition bytes (l : list nat) : string := text (map ascii_of_nat l).
Definition PASS : string := bytes [195; 162; 197; 147; 226; 128; 166]%nat.
Definition FAIL : string := bytes [195; 162; 197; 146]%nat.

(** The date the agent hands to [tool_compute_day]. *)
Definition analysis_date (w : World) (date_iso : value) : result value :=
  if eq_str date_iso "today" || eq_str date_iso "now" || is_none date_iso then
    Ok VNone
  else if eq_str date_iso "yesterday" then
    yesterday <- minus_one_day (today w) ;;
    Ok (VStr (isoformat yesterday))
  else Ok date_iso.

(** [(actual / goal * 100) if goal > 0 else 0] *)
Definition percentage (actual goal : value) : result pyfloat :=
  pos <- positive goal ;;
  if pos then
    a <- number_of actual ;;
    g <- number_of goal ;;
    match fdiv a g with
    | Some r => Ok (fmul r (float_of_Z 100))
    | None => Raise ZeroDivisionError
    end
  else Ok fzero.

(** One turn of [for nutrient, goal in goals.items()]: what is added to
    the response. *)
Definition goal_progress (totals : value) (nutrient : string) (goal : value)
    : result string :=
  t <- (match totals with VDict d => Ok d | _ => Raise TypeError end) ;;
  if has_key t nutrient then
    actual <- item t nutrient ;;
    p <- percentage actual goal ;;
    a <- number_of actual ;;
    g <- number_of goal ;;
    let status := if fge a g then PASS else FAIL in
    sa <- fmt1 actual ;;
    sg <- fmt1 goal ;;
    Ok (status ++ " " ++ nutrient ++ ": " ++ sa ++ "/" ++ sg
        ++ " (" ++ format_1f p ++ "%)" ++ NL)
  else Ok "".

Fixpoint goals_loop (totals : value) (goals : dict) (response : string)
    : result string :=
  match goals with
  | [] => Ok response
  | (nutrient, goal) :: rest =>
      line <- goal_progress totals nutrient goal ;;
      goals_loop totals rest (response ++ line)
  end.

(** The nutrients the summary prints, with their label and unit. *)
Definition SUMMARY_LINES : list (string * string * string) :=
  [ ("Calories", "calories", ""); ("Protein", "protein_g", "g");
    ("Fat", "fat_g", "g"); ("Carbs", "carbs_g", "g");
    ("Vitamin C", "vitamin_c_mg", "mg"); ("Calcium", "calcium_mg", "mg");
    ("Iron", "iron_mg", "mg"); ("Magnesium", "magnesium_mg", "mg") ].

Fixpoint totals_lines (totals : value) (rows : list (string * string * string))
    (response : string) : result string :=
  match rows with
  | [] => Ok response
  | (label, key, unit) :: rest =>
      v <- subscript totals key ;;
      t <- fmt1 v ;;
      totals_lines totals rest (response ++ label ++ ": " ++ t ++ unit ++ NL)
  end.

Definition AnalysisAgent_run (w : World) (db : DB) (state : GraphState)
    : result GraphState :=
  ents <- as_dict (entities state) ;;
  date_iso <- analysis_date w (get ents "date") ;;
  day_data <- tool_compute_day w db (user_id state) date_iso ;;
  if has_key day_data "error" then
    Ok (set_response state
          ("Error computing daily summary: " ++ py_str (get day_data "error")))
  else
    totals <- item day_data "totals" ;;
    let state := set_day_totals (set_day_data state (Some day_data)) (Some totals) in
    goals <- tool_get_user_goals w (user_id state) ;;
    let state := set_goals state (Some goals) in
    date_str <- item day_data "date" ;;
    meal_count <- item day_data "meal_count" ;;
    let response :=
      "Daily Summary for " ++ py_str date_str ++ ":" ++ NL
      ++ "Meals logged: " ++ py_str meal_count ++ NL in
    response <- totals_lines totals SUMMARY_LINES response ;;
    response <-
      (if truthy goals then
         g <- as_dict goals ;;
         goals_loop totals g (response ++ NL ++ "Goal Progress:" ++ NL)
       else Ok response) ;;
    Ok (set_response state response).

(** *** [RecommendationAgent] *)

(** [getattr(food, key, None)] *)
Definition food_attr (food : Food) (key : string) : value :=
  if String.eqb key "id" then VInt (food_id food)
  else if String.eqb key "name" then VStr (food_name food)
  else if String.eqb key "brand" then food_brand food
  else if String.eqb key "upc" then food_upc food
  else get (food_columns food) key.

(** The loop that fills [gaps]: a goal whose conversion raises is skipped. *)
Fixpoint compute_gaps (totals : dict) (goals : dict) (gaps : list (string * pyfloat))
    : list (string * pyfloat) :=
  match goals with
  | [] => gaps
  | (k, goal) :: rest =>
      let gaps' :=
        match py_float (get_or totals k (VFloat fzero)), py_float goal with
        | Ok actual, Ok g =>
            let delta := fsub g actual in
            if fgt delta fzero then (gaps ++ [(k, delta)])%list else gaps
        | _, _ => gaps
        end in
      compute_gaps totals rest gaps'
  end.

(** [sorted(l, key=..., reverse=True)]: stable, largest key first. *)
Fixpoint insert_desc {A : Type} (key : A -> pyfloat) (x : A) (l : list A) : list A :=
  match l with
  | [] => [x]
  | y :: r => if flt (key y) (key x) then x :: l else y :: insert_desc key x r
  end.

Definition sort_desc {A : Type} (key : A -> pyfloat) (l : list A) : list A :=
  fold_left (fun acc x => insert_desc key x acc) l [].

(** [isinstance(value, (int, float)) and value > 0] *)
Definition positive_number (v : value) : bool :=
  match v with
  | VInt z => 0 <? z
  | VBool b => b
  | VFloat f => fgt f fzero
  | _ => false
  end.

(** The inner loop over [top_gap_keys] for one food: its score and coverage. *)
Fixpoint score_food (food : Food) (top : list (string * pyfloat))
    (score : pyfloat) (coverage : list (string * pyfloat))
    : result (pyfloat * list (string * pyfloat)) :=
  match top with
  | [] => Ok (score, coverage)
  | (key, gap) :: rest =>
      let v := food_attr food key in
      if positive_number v then
        x <- number_of v ;;
        let covered := fmin x gap in
        match fdiv covered (fmax gap (round64 (1 # 1000000000))) with
        | Some part =>
            score_food food rest (fadd score part) (coverage ++ [(key, covered)])%list
        | None => Raise ZeroDivisionError
        end
      else score_food food rest score coverage
  end.

Definition ranked_food : Type := pyfloat * Food * list (string * pyfloat).

Fixpoint rank_foods (foods : list Food) (top : list (string * pyfloat))
    (ranked : list ranked_food) : result (list ranked_food) :=
  match foods with
  | [] => Ok ranked
  | food :: rest =>
      sc <- score_food food top fzero [] ;;
      let '(score, coverage) := sc in
      rank_foods rest top
        (if fgt score fzero then (ranked ++ [(score, food, coverage)])%list else ranked)
  end.

(** The dash of the response line: e2 80 94. *)
Definition DASH : string := bytes [226; 128; 148]%nat.

Definition recommendation_line (p : ranked_food) : string :=
  let '(_, food, coverage) := p in
  let why := join ", " (map (fun kv => fst kv ++ ": +" ++ format_1f (snd kv)) coverage) in
  "- " ++ food_name food ++ " (" ++ py_str (food_brand food) ++ ") " ++ DASH
  ++ " covers " ++ why.

Definition recommendation_dict (p : ranked_food) : dict :=
  let '(_, food, coverage) := p in
  [ ("food_id", VInt (food_id food));
    ("name", VStr (food_name food));
    ("brand", food_brand food);
    ("coverage", VDict (map (fun kv => (fst kv, VFloat (snd kv))) coverage));
    ("calories_per_100g", get (food_columns food) "calories") ].

Definition RecommendationAgent_run (w : World) (db : DB) (state : GraphState)
    : result GraphState :=
  ents <- as_dict (entities state) ;;
  let target_date := py_or (get ents "date") (VStr (isoformat (today w))) in
  day_data <- tool_compute_day w db (user_id state) target_date ;;
  goals <- tool_get_user_goals w (user_id state) ;;
  totals <- as_dict (get_or day_data "totals" (VDict [])) ;;
  g <- as_dict (py_or goals (VDict [])) ;;
  let gaps := compute_gaps totals g [] in
  match gaps with
  | [] => Ok (set_response state "You're meeting your goals today. Nice work!")
  | _ =>
      let top_gap_keys := firstn 6 (sort_desc snd gaps) in
      ranked <- rank_foods (foods w) top_gap_keys [] ;;
      let picks := firstn 5 (sort_desc (fun p => fst (fst p)) ranked) in
      match picks with
      | [] =>
          Ok (set_response state
                "I couldn't find foods that improve your biggest gaps from the current list.")
      | _ =>
          let lines := "Recommendations (100g servings):" :: map recommendation_line picks in
          Ok (set_recommendations (set_response state (join NL lines))
                                  (map recommendation_dict picks))
      end
  end.

(** *** [EvaluatorOptimizer] *)

(** The first block of [run]: a textual [grams] is rewritten as a float in
    the entities, or the agent asks and returns (right).  The dict written
    to is the one the state holds (a dict with a [grams] key is not empty,
    so [or {}] has kept it): the write shows in the state at once. *)
Definition normalize_text_grams (state : GraphState) (entities : dict)
    : (GraphState * dict) + GraphState :=
  match get entities "grams" with
  | VStr grams =>
      let s := remove_blanks (lower (strip grams)) in
      let s := if endswith_char s "g" then drop_last s else s in
      match float_of_string s with
      | Some f =>
          let entities' := set entities "grams" (VFloat f) in
          inl (set_entities state (VDict entities'), entities')
      | None =>
          inr (ask state "How many grams?" "I couldn't read the amount. How many grams?")
      end
  | _ => inl (state, entities)
  end.

(** The second block and the last assignment: the range check of a
    [grams] that is not [None], then [state["entities"] = entities]. *)
Definition check_grams (state : GraphState) (entities : dict) : GraphState :=
  let grams := get entities "grams" in
  if is_none grams then set_entities state (VDict entities)
  else
    match py_float grams with
    | Ok grams =>
        if fle grams fzero then
          ask state "How many grams?"
              "The amount must be greater than 0g. How many grams?"
        else if fgt grams (float_of_Z 5000) then
          ask state "Please provide a reasonable grams amount (e.g., 50, 100, 200)."
              "That seems too large. Did you mean a smaller amount in grams?"
        else set_entities state (VDict (set entities "grams" (VFloat grams)))
    | Raise _ =>
        ask state "How many grams?" "I couldn't interpret the grams value."
    end.

Definition EvaluatorOptimizer_run (state : GraphState) : result GraphState :=
  entities <- as_dict (py_or (entities state) (VDict [])) ;;
  match normalize_text_grams state entities with
  | inr asked => Ok asked
  | inl (state, entities) => Ok (check_grams state entities)
  end.

(** *** [ElicitationAgent] *)

Definition GENERIC_QUESTION : string :=
  "Could you clarify your request with a bit more detail?".

(** [if cond: questions.append(q)] *)
Definition append_if (cond : bool) (questions : list string) (q : string) : list string :=
  if cond then (questions ++ [q])%list else questions.

Definition elicitation_questions (state : GraphState) (entities : dict) : list string :=
  let intent := intent state in
  let missing k := negb (truthy (get entities k)) in
  let questions :=
    if eq_str intent "log_meal" then
      let qs := append_if (missing "food_id" && no_selection state && no_candidates state) []
                  "Which food would you like to log? You can say a name or provide food_id." in
      let qs := append_if (missing "grams") qs "How many grams?" in
      append_if (missing "meal_type") qs
        "Which meal was this for (breakfast/lunch/dinner/snack)?"
    else if eq_str intent "search_food" || eq_str intent "scan_barcode" then
      let qs := append_if (eq_str intent "search_food" && missing "food_name") []
                  "What food would you like to search for?" in
      append_if (eq_str intent "scan_barcode" && missing "upc") qs
        "Please provide the UPC (12 digits)."
    else if eq_str intent "daily_summary" || eq_str intent "recommend" then
      append_if (missing "date") [] "For which day? You can say 'today' or 'yesterday'."
    else [] in
  append_if (match questions with [] => true | _ => false end) questions GENERIC_QUESTION.

Definition ElicitationAgent_run (state : GraphState) : result GraphState :=
  entities <- as_dict (py_or (entities state) (VDict [])) ;;
  match elicitation_questions state entities with
  | first :: _ => Ok (ask state first first)
  | [] => Raise IndexError
  end.

End Agents.

(* ================================================================== *)
(** ** The workflow ([agentic/graph.py]) *)
(* ================================================================== *)

Module Graph.
Import Py Tools State Agents.

(** What [create_graph] closes over: the store's read side, the model that
    [get_llm()] returns ([None] when it raises), the execution of one tool
    call by [ToolNode], and the system prompts of [agentic/prompts.py] by
    pipeline prefix (their text is read by the model only). *)
Record Env : Type := mkEnv {
  world : World;
  llm : option LLM;
  run_tool : DB -> tool_call -> string * DB;
  system_prompt : string -> string
}.

(** *** A [StateGraph] *)

Definition END : string := "__end__".

(** A node maps the state (and the store) to the state it returns. *)
Definition action : Type := DB -> GraphState -> result (GraphState * DB).

(** A conditional edge: the function that names the branch, and the map
    from branch names to nodes. *)
Definition branch : Type := ((GraphState -> string) * list (string * string))%type.

Record StateGraph : Type := mkGraph {
  nodes : list (string * action);
  entry_point : string;
  edges : list (string * string);
  branches : list (string * branch)
}.

Definition empty_graph : StateGraph := mkGraph [] "" [] [].

Definition add_node (g : StateGraph) (name : string) (f : action) : StateGraph :=
  mkGraph (nodes g ++ [(name, f)])%list (entry_point g) (edges g) (branches g).

Definition set_entry_point (g : StateGraph) (name : string) : StateGraph :=
  mkGraph (nodes g) name (edges g) (branches g).

Definition add_edge (g : StateGraph) (src dst : string) : StateGraph :=
  mkGraph (nodes g) (entry_point g) (edges g ++ [(src, dst)])%list (branches g).

Definition add_conditional_edges (g : StateGraph) (src : string)
    (path : GraphState -> string) (path_map : list (string * string)) : StateGraph :=
  mkGraph (nodes g) (entry_point g) (edges g)
          (branches g ++ [(src, (path, path_map))])%list.

(** The node that runs after [node] has returned [st]: the target of its
    conditional edge, else of its edge; a node with neither ends the run, as
    does a target [END]. *)
Definition successor (g : StateGraph) (node : string) (st : GraphState)
    : result (option string) :=
  match lookup (branches g) node with
  | Some (path, path_map) =>
      match lookup path_map (path st) with
      | Some target => Ok (if String.eqb target END then None else Some target)
      | None => Raise KeyError
      end
  | None =>
      match lookup (edges g) node with
      | Some target => Ok (if String.eqb target END then None else Some target)
      | None => Ok None
      end
  end.

(** Every node an edge or a conditional edge leads to. *)
Definition targets (g : StateGraph) : list string :=
  (map snd (edges g) ++ flat_map (fun b => map snd (snd (snd b))) (branches g))%list.

(** [graph.invoke]: the nodes run one after the other from [node]; [limit]
    is the recursion limit, the number of steps a run may take before
    LangGraph raises [GraphRecursionError]. *)
Fixpoint invoke_from (g : StateGraph) (limit : nat) (node : string)
    (db : DB) (st : GraphState) : result (GraphState * DB) :=
  match limit with
  | O => Raise GraphRecursionError
  | S limit' =>
      match lookup (nodes g) node with
      | None => Raise KeyError
      | Some f =>
          r <- f db st ;;
          next <- successor g node (fst r) ;;
          match next with
          | None => Ok r
          | Some node' => invoke_from g limit' node' (snd r) (fst r)
          end
      end
  end.

(** The names of the nodes a run executes, in order. *)
Fixpoint path_from (g : StateGraph) (limit : nat) (node : string)
    (db : DB) (st : GraphState) : list string :=
  match limit with
  | O => []
  | S limit' =>
      match lookup (nodes g) node with
      | None => []
      | Some f =>
          match f db st with
          | Raise _ => [node]
          | Ok r =>
              match successor g node (fst r) with
              | Ok (Some node') => node :: path_from g limit' node' (snd r) (fst r)
              | _ => [node]
              end
          end
      end
  end.

(** *** The tool pipelines *)

(** [add_messages], the reducer of the [messages] channel, on the list a
    node returns: a dict becomes the message object of its role. *)
Definition coerce (m : message) : message :=
  match m with
  | DictMessage role content =>
      if String.eqb role "user" || String.eqb role "human" then HumanMessage content
      else if String.eqb role "system" then SystemMessage content
      else if String.eqb role "assistant" || String.eqb role "ai" then AIMessage content []
      else m
  | _ => m
  end.

Definition is_system (m : message) : bool :=
  match m with
  | DictMessage role _ => String.eqb role "system"
  | SystemMessage _ => true
  | _ => false
  end.

(** The transcript [llm_node] sends: the user's text when there is none
    yet, and the system prompt in front unless one is there. *)
Definition prepare_messages (prompt : string) (state : GraphState) : list message :=
  let msgs := match messages state with
              | [] => [DictMessage "user" (input_text state)]
              | l => l
              end in
  match msgs with
  | first :: _ => if is_system first then msgs else SystemMessage prompt :: msgs
  | [] => [SystemMessage prompt]
  end.

Definition llm_node (m : LLM) (prefix prompt : string) : action :=
  fun db state =>
    let msgs := prepare_messages prompt state in
    reply <- chat m prefix msgs ;;
    let '(content, calls) := reply in
    Ok (set_response
          (set_messages state (map coerce (msgs ++ [AIMessage content calls])%list))
          content,
        db).

(** [tools_condition] *)
Definition tools_condition (state : GraphState) : string :=
  match last (messages state) (SystemMessage "") with
  | AIMessage _ (_ :: _) => "tools"
  | _ => END
  end.

Fixpoint run_calls (env : Env) (db : DB) (calls : list tool_call)
    : list message * DB :=
  match calls with
  | [] => ([], db)
  | c :: rest =>
      let '(out, db1) := run_tool env db c in
      let '(outs, db2) := run_calls env db1 rest in
      (ToolMessage out (call_id c) :: outs, db2)
  end.

(** [ToolNode(tools)]: one [ToolMessage] per call of the last message. *)
Definition tool_node (env : Env) : action :=
  fun db state =>
    match last (messages state) (SystemMessage "") with
    | AIMessage _ calls =>
        let '(outs, db') := run_calls env db calls in
        Ok (set_messages state (messages state ++ outs)%list, db')
    | _ => Raise ValueError
    end.

(** [add_agent_tool_pipeline(prefix, tools, post_func, system_prompt)]: the
    graph with the nodes added, and the pair it returns. *)
Definition add_agent_tool_pipeline (env : Env) (workflow : StateGraph)
    (prefix : string) (post_func : action)
    : StateGraph * option (string * string) :=
  let post_name := prefix ++ "_post" in
  let workflow := add_node workflow post_name post_func in
  match llm env with
  | None => (workflow, None)
  | Some m =>
      let llm_node_name := prefix ++ "_llm" in
      let tools_node_name := prefix ++ "_tools" in
      let workflow := add_node workflow llm_node_name
                        (llm_node m prefix (system_prompt env prefix)) in
      let workflow := add_node workflow tools_node_name (tool_node env) in
      let workflow := add_conditional_edges workflow llm_node_name tools_condition
                        [("tools", tools_node_name); (END, post_name)] in
      let workflow := add_edge workflow tools_node_name llm_node_name in
      (workflow, Some (llm_node_name, post_name))
  end.

(** *** [create_graph] *)

(** The prefixes of the four tool pipelines. *)
Definition PIPELINES : list string := ["search"; "logging"; "analysis"; "recommend"].

Definition needs_elicitation (state : GraphState) : string :=
  if needs_clarification state then "to_elicitation" else "to_end".

(** [nodes[0] if nodes else default] *)
Definition first_or (nodes : option (string * string)) (default : string) : string :=
  match nodes with
  | Some (first, _) => first
  | None => default
  end.

Definition route_by_intent (search_nodes logging_nodes analysis_nodes recommend_nodes
    : option (string * string)) (state : GraphState) : string :=
  let intent := intent state in
  if eq_str intent "scan_barcode" then "barcode"
  else if eq_str intent "search_food" then first_or search_nodes "search_post"
  else if eq_str intent "log_meal" then first_or logging_nodes "logging_post"
  else if eq_str intent "daily_summary" then first_or analysis_nodes "analysis_post"
  else if eq_str intent "recommend" then first_or recommend_nodes "recommend_post"
  else first_or search_nodes "search_post".

(** Agents that leave the store alone, as actions. *)
Definition pure_action (f : GraphState -> result GraphState) : action :=
  fun db state => st <- f state ;; Ok (st, db).

(** [for nodes in [...]: if nodes is None: continue; add_edge(post, "evaluator")] *)
Fixpoint add_post_edges (workflow : StateGraph) (l : list (option (string * string)))
    : StateGraph :=
  match l with
  | [] => workflow
  | None :: rest => add_post_edges workflow rest
  | Some (_, post) :: rest => add_post_edges (add_edge workflow post "evaluator") rest
  end.

Definition create_graph (env : Env) : StateGraph :=
  let w := world env in
  let workflow := empty_graph in
  let workflow := add_node workflow "orchestrator"
                    (pure_action (fun st => Ok (OrchestratorAgent_run (llm env) st))) in
  let workflow := set_entry_point workflow "orchestrator" in
  let workflow := add_node workflow "barcode" (pure_action (BarcodeAgent_run w)) in
  let '(workflow, search_nodes) :=
    add_agent_tool_pipeline env workflow "search" (pure_action (FoodSearchAgent_run w)) in
  let '(workflow, logging_nodes) :=
    add_agent_tool_pipeline env workflow "logging" (LoggingAgent_run w) in
  let '(workflow, analysis_nodes) :=
    add_agent_tool_pipeline env workflow "analysis"
      (fun db st => st' <- AnalysisAgent_run w db st ;; Ok (st', db)) in
  let '(workflow, recommend_nodes) :=
    add_agent_tool_pipeline env workflow "recommend"
      (fun db st => st' <- RecommendationAgent_run w db st ;; Ok (st', db)) in
  let workflow := add_node workflow "evaluator" (pure_action EvaluatorOptimizer_run) in
  let workflow := add_node workflow "elicitation" (pure_action ElicitationAgent_run) in
  let workflow :=
    add_post_edges workflow [search_nodes; logging_nodes; analysis_nodes; recommend_nodes] in
  let workflow := add_edge workflow "barcode" "evaluator" in
  let workflow := add_conditional_edges workflow "evaluator" needs_elicitation
                    [("to_elicitation", "elicitation"); ("to_end", END)] in
  let workflow := add_edge workflow "elicitation" END in
  let search := first_or search_nodes "search_post" in
  let logging := first_or logging_nodes "logging_post" in
  let analysis := first_or analysis_nodes "analysis_post" in
  let recommend := first_or recommend_nodes "recommend_post" in
  add_conditional_edges workflow "orchestrator"
    (route_by_intent search_nodes logging_nodes analysis_nodes recommend_nodes)
    [ ("barcode", "barcode"); (search, search); (logging, logging);
      (analysis, analysis); (recommend, recommend) ].

(** LangGraph's default recursion limit; [run_agent] passes no other. *)
Definition RECURSION_LIMIT : nat := 25.

(** [graph.invoke(initial_state)] *)
Definition graph_invoke (g : StateGraph) (limit : nat) (db : DB) (st : GraphState)
    : result (GraphState * DB) :=
  invoke_from g limit (entry_point g) db st.

(** [run_agent(user_id, message)], on the store [db]. *)
Definition run_agent (env : Env) (db : DB) (uid : Z) (message : string)
    : result (GraphState * DB) :=
  graph_invoke (create_graph env) RECURSION_LIMIT db (initial_state uid message).

End Graph.

(* ================================================================== *)
(** ** The vocabulary of the specification *)
(* ================================================================== *)

Module Spec.
Import Py Tools State Agents Graph.



(** [0 <= x <= 1] *)
Definition in_unit_interval (x : pyfloat) : bool :=
  fle fzero x && fle x (float_of_Z 1).

(** The invariant of [questions]: [needs_clarification] is true exactly when
    there is one question, and without it there is none. *)
Definition one_question (st : GraphState) : Prop :=
  (needs_clarification st = true <-> List.length (questions st) = 1%nat)
  /\ (needs_clarification st = false -> questions st = []).

(** What a node may do to the clarification fields and to [confidence]:
    it keeps [confidence], and either keeps [needs_clarification] and
    [questions] or sets them to true and to one question. *)
Definition keeps_or_asks (st st' : GraphState) : Prop :=
  confidence st' = confidence st
  /\ ((needs_clarification st' = needs_clarification st /\ questions st' = questions st)
      \/ (needs_clarification st' = true /\ exists q, questions st' = [q])).

(** The confidence the orchestrator settles on, in the words of the
    specification: 0.5 on the heuristic path (no model, a reply that is not a
    JSON object, a confidence that is no number), 0.7 when the model's reply
    has no confidence of its own, else the value the model supplies. *)
Definition turn_confidence (llm : option LLM) (message : string) : pyfloat :=
  match llm with
  | None => round64 (5 # 10)
  | Some m =>
      match invoke m (build_prompt message) with
      | Some (VDict reply) =>
          match lookup reply "confidence" with
          | None => round64 (7 # 10)
          | Some v =>
              match py_float v with
              | Ok c => c
              | Raise _ => round64 (5 # 10)
              end
          end
      | _ => round64 (5 # 10)
      end
  end.

(** The model's reply carries a confidence of its own, which converts to
    the float [c]. *)
Definition supplied_confidence (llm : option LLM) (message : string) (c : pyfloat) : Prop :=
  exists m reply v,
    llm = Some m
    /\ invoke m (build_prompt message) = Some (VDict reply)
    /\ lookup reply "confidence" = Some v
    /\ py_float v = Ok c.

(** What the evaluator leaves as it finds it: the intent, the selection,
    the candidates, and every entity but [grams]. *)
Definition same_slots (s s' : GraphState) (d : dict) : Prop :=
  intent s' = intent s
  /\ selected_food s' = selected_food s
  /\ food_candidates s' = food_candidates s
  /\ exists d', entities s' = VDict d'
                /\ truthy (VDict d') = true
                /\ forall k, k <> "grams" -> get d' k = get d k.

(** The three relative dates a [date] entity may hold. *)
Definition relative_date (v : value) : Prop :=
  v = VStr "today" \/ v = VStr "now" \/ v = VStr "yesterday".

(** No meal type was stated: the entities have no [meal_type], or [None]. *)
Definition no_meal_type (d : dict) : Prop :=
  lookup d "meal_type" = None \/ lookup d "meal_type" = Some VNone.





(** [k] round trips of a tool pipeline: [k] times the model's reply asks
    for tools and the tools node runs them. *)
Inductive round_trips (env : Env) (m : LLM) (prefix : string)
    : nat -> GraphState * DB -> GraphState * DB -> Prop :=
| trips_none (s : GraphState * DB) : round_trips env m prefix 0 s s
| trips_more (k : nat) (s s1 s2 s3 : GraphState * DB) :
    llm_node m prefix (system_prompt env prefix) (snd s) (fst s) = Ok s1 ->
    tools_condition (fst s1) = "tools" ->
    tool_node env (snd s1) (fst s1) = Ok s2 ->
    round_trips env m prefix k s2 s3 ->
    round_trips env m prefix (S k) s s3.

(** A model that asks for a tool at every reply. *)
Definition always_asks (m : LLM) : Prop :=
  forall prefix msgs, exists content call calls,
    chat m prefix msgs = Ok (content, call :: calls).

(** A clarification whose response is its one question. *)
Definition asks (st : GraphState) (q : string) : Prop :=
  needs_clarification st = true /\ questions st = [q] /\ response st = q.

End Spec.

(* ================================================================== *)
(** ** Concrete surroundings, for the examples *)
(* ================================================================== *)

Module Examples.
Import Py Tools State Agents Graph.

Definition fl (n d : Z) : value := VFloat (round64 (n # Z.to_pos d)).

Definition oats : Food :=
  mkFood 1 "Oats" (VStr "Generic") (VStr "012345678905")
    [ ("calories", fl 389 1); ("protein_g", fl 169 10); ("fat_g", fl 69 10);
      ("carbs_g", fl 663 10); ("iron_mg", fl 47 10); ("zinc_mg", fl 73 10) ].

(** One user with two goals, one food, on the first of March 2024. *)
Definition pantry : World :=
  mkWorld (mkdate 2024 3 1) (mkdate 2024 3 1) "2024-03-01T10:00:00"
    (fun _ => None)
    [ (1, VDict [("goals", VDict [("protein_g", VInt 10); ("iron_mg", VInt 18)])]) ]
    [oats]
    (fun upc => if eq_str upc "012345678905" then [oats] else [])
    (fun _ _ => [oats])
    (fun _ => [oats]).

Definition no_tool (db : DB) (c : tool_call) : string * DB := ("", db).

(** No API key is set: [get_llm()] raises. *)
Definition offline : Env := mkEnv pantry None no_tool (fun _ => "").

(** A model whose classification is the given JSON value and which answers a
    pipeline in plain text at once. *)
Definition replying (json : value) : LLM :=
  mkLLM (fun _ => Some json) (fun _ _ => Ok ("Done.", [])).

Definition online (json : value) : Env :=
  mkEnv pantry (Some (replying json)) no_tool (fun _ => "").

(** A model that asks for a tool call whatever the transcript is. *)
Definition list_call : tool_call := mkCall "tool_list_foods" (VDict []) "call_1".

Definition insatiable : LLM :=
  mkLLM (fun _ => None) (fun _ _ => Ok ("", [list_call])).

Definition looping : Env := mkEnv pantry (Some insatiable) no_tool (fun _ => "").

(** A model that asks for a tool until the transcript holds [n] tool
    results, then answers. *)
Definition tool_results (msgs : list message) : nat :=
  List.length (filter (fun m => match m with ToolMessage _ _ => true | _ => false end) msgs).

Definition patient (n : nat) : LLM :=
  mkLLM (fun _ => None)
        (fun _ msgs => if Nat.ltb (tool_results msgs) n
                       then Ok ("", [list_call]) else Ok ("Here you are.", [])).

(** A state whose [grams] entity was typed by the user, and the state the
    Validator makes of it. *)
Definition typed_grams : GraphState :=
  set_entities (set_intent (initial_state 1 "log 100 G") (VStr "log_meal"))
               (VDict [("food_id", VInt 1); ("grams", VStr " 100 G ")]).

Definition read_grams : GraphState :=
  set_entities typed_grams (VDict [("food_id", VInt 1); ("grams", fl 100 1)]).


(** The turns the examples speak of, by their last state. *)
Definition last_state (r : result (GraphState * DB)) : GraphState :=
  match r with
  | Ok (st, _) => st
  | Raise _ => initial_state 0 ""
  end.

(** "log food_id=1" without a model: the handler asks for the grams. *)
Definition asked_for_grams : GraphState :=
  Eval vm_compute in last_state (run_agent offline [] 1 "log food_id=1").

(** "scan 012345678906" without a model: no food has that UPC. *)
Definition unknown_upc : GraphState :=
  Eval vm_compute in last_state (run_agent offline [] 1 "scan 012345678906").

(** The model answers with a confidence of 5. *)
Definition overconfident : value :=
  VDict [ ("intent", VStr "search_food");
          ("entities", VDict [("food_name", VStr "oats")]);
          ("confidence", VInt 5) ].

Definition overconfident_turn : GraphState :=
  Eval vm_compute in last_state (run_agent (online overconfident) [] 1 "search oats").

(** The model reads "log oats" as a meal to log, with a food and no grams. *)
Definition wants_to_log : value :=
  VDict [ ("intent", VStr "log_meal");
          ("entities", VDict [("food_id", VInt 1); ("grams", VNone)]) ].

Definition asked_by_elicitation : GraphState :=
  Eval vm_compute in last_state (run_agent (online wants_to_log) [] 1 "log oats").

(** What the heuristic reads in two messages. *)
Definition asks_for_advice : GraphState :=
  heuristic_intent (initial_state 1 "recommend something").

Definition logs_oats : GraphState :=
  heuristic_intent (initial_state 1 "log meal: 100g food_id=1").

Definition heuristic_entities (food_name grams meal_type date food_id : value) : dict :=
  [ ("food_name", food_name); ("grams", grams); ("upc", VNone);
    ("meal_type", meal_type); ("date", date); ("food_id", food_id) ].

(** The model asks for one tool call, then answers. *)
Definition waiting : Env := mkEnv pantry (Some (patient 1)) no_tool (fun _ => "").

Definition search_request : GraphState :=
  heuristic_intent (initial_state 1 "search oats").

Definition first_reply : GraphState :=
  Eval vm_compute in last_state (llm_node (patient 1) "search" "" [] search_request).

Definition tool_result : GraphState :=
  Eval vm_compute in last_state (tool_node waiting [] first_reply).

Definition second_reply : GraphState :=
  Eval vm_compute in last_state (llm_node (patient 1) "search" "" [] tool_result).




End Examples.

(* ================================================================== *)
(** ** Changing a logged meal ([agentic/tools/meal.py]) *)
(* ================================================================== *)

Module Meals.
Import Py Tools.

(** [db.query(MealLog).filter(MealLog.id == meal_id).first()] *)
Definition first_meal (db : DB) (meal_id : Z) : option MealLog :=
  find (fun l => log_id l =? meal_id) db.

(** [if v is not None: log.attr = v] *)
Definition assign (given old : value) : value :=
  if is_none given then old else given.

(** The three assignments of [tool_update_meal] on a row. *)
Definition updated (grams meal_type notes : value) (log : MealLog) : MealLog :=
  mkMealLog (log_id log) (log_user_id log) (log_food_id log)
            (assign grams (log_grams log))
            (assign meal_type (log_meal_type log))
            (assign notes (log_notes log))
            (log_day log) (logged_at log).

(** [tool_update_meal(meal_id, grams, meal_type, notes)]: the dict it
    returns and the table afterwards; the commit writes the row whose
    primary key is [meal_id]. *)
Definition tool_update_meal (db : DB) (meal_id : Z) (grams meal_type notes : value)
    : dict * DB :=
  match first_meal db meal_id with
  | None => (error_dict "Meal not found", db)
  | Some log =>
      let log := updated grams meal_type notes log in
      ([ ("id", VInt (log_id log));
         ("user_id", VInt (log_user_id log));
         ("food_id", VInt (log_food_id log));
         ("grams", log_grams log);
         ("meal_type", log_meal_type log);
         ("logged_at", VStr (logged_at log)) ],
       map (fun l => if log_id l =? meal_id then updated grams meal_type notes l else l) db)
  end.

(** [tool_delete_meal(meal_id)] *)
Definition tool_delete_meal (db : DB) (meal_id : Z) : dict * DB :=
  match first_meal db meal_id with
  | None => (error_dict "Meal not found", db)
  | Some _ => ([("success", VBool true)], filter (fun l => negb (log_id l =? meal_id)) db)
  end.

End Meals.

(* ================================================================== *)
(** ** UPC check digits ([app/barcode.py]) *)
(* ================================================================== *)

Module Barcode.
Import Py.

(** [[int(d) for d in upc]]: [None] stands for the [ValueError] of a
    character that [int] does not read. *)
Fixpoint digits_of (cs : list ascii) : option (list Z) :=
  match cs with
  | [] => Some []
  | c :: r =>
      match int_of_string (String c EmptyString), digits_of r with
      | Some z, Some zs => Some (z :: zs)
      | _, _ => None
      end
  end.

(** [sum(l)] *)
Definition py_sum (l : list Z) : Z := fold_left Z.add l 0.

(** [validate_upc(upc)]; the list holds twelve digits when it is indexed. *)
Definition validate_upc (upc : string) : bool :=
  if String.eqb upc EmptyString || negb (Nat.eqb (String.length upc) 12) then false
  else
    match digits_of (chars upc) with
    | Some digits =>
        let check_sum :=
          py_sum (map (fun i => nth i digits 0 * (if Nat.even i then 3 else 1))
                      (seq 0 11)) in
        let check_digit := (10 - check_sum mod 10) mod 10 in
        check_digit =? nth 11 digits 0
    | None => false
    end.

End Barcode.

(* ================================================================== *)
(** ** The tool registry ([agentic/tools/registry.py]) *)
(* ================================================================== *)

Module Registry.
Import Py.

Section Specs.

(** The type of the functions a [ToolSpec] carries. *)
Variable callable : Type.

Record ToolSpec : Type := mkSpec {
  spec_name : string;
  spec_func : callable;
  spec_description : string;
  spec_schema : value
}.

(** [ToolSpec(name, func, description, schema)]: [self.schema = schema or {}]. *)
Definition new_spec (name : string) (func : callable) (description : string)
    (schema : value) : ToolSpec :=
  mkSpec name func description (py_or schema (VDict [])).

(** [ToolRegistry._tools], a dict in insertion order. *)
Definition ToolRegistry : Type := list (string * ToolSpec).

(** [ToolRegistry()] *)
Definition empty_registry : ToolRegistry := [].

(** [registry.register(spec)] *)
Definition register (tools : ToolRegistry) (spec : ToolSpec) : result ToolRegistry :=
  if has_key tools (spec_name spec) then Raise ValueError
  else Ok (tools ++ [(spec_name spec, spec)])%list.

(** [registry.get(name)] *)
Definition get_tool (tools : ToolRegistry) (name : string) : result ToolSpec :=
  match lookup tools name with
  | Some spec => Ok spec
  | None => Raise KeyError
  end.

(** [registry.list()]: a copy of the dict. *)
Definition list_tools (tools : ToolRegistry) : ToolRegistry := tools.

End Specs.

Arguments mkSpec {callable}.
Arguments spec_name {callable}.
Arguments spec_func {callable}.
Arguments spec_description {callable}.
Arguments spec_schema {callable}.
Arguments new_spec {callable}.
Arguments empty_registry {callable}.
Arguments register {callable}.
Arguments get_tool {callable}.
Arguments list_tools {callable}.

End Registry.

(* ================================================================== *)
(** ** The choice of the model ([agentic/llm_factory.py]) *)
(* ================================================================== *)

Module LlmFactory.
Import Py.

(** The process environment, as [os.getenv] reads it. *)
Definition environ : Type := string -> option string.

(** [os.getenv(k, default)] *)
Definition getenv_or (env : environ) (k default : string) : string :=
  match env k with
  | Some v => v
  | None => default
  end.

(** The two chat clients, with the arguments [get_llm] builds them with:
    the model, the temperature, the key, the timeout and the retries. *)
Inductive client : Type :=
| ChatOpenAI (model : string) (temperature : Q) (api_key : string)
             (timeout max_retries : Z)
| ChatGoogleGenerativeAI (model : string) (temperature : Q) (google_api_key : string)
                         (timeout max_retries : Z).

(** [not api_key or api_key == placeholder] *)
Definition unset (api_key : option string) (placeholder : string) : bool :=
  match api_key with
  | None => true
  | Some k => String.eqb k EmptyString || String.eqb k placeholder
  end.

(** [get_llm(provider)]; each of its failures is a [ValueError]. *)
Definition get_llm (env : environ) (provider : option string) : result client :=
  let provider :=
    match provider with
    | None => lower (getenv_or env "LLM_PROVIDER" "gemini")
    | Some p => p
    end in
  if String.eqb provider "openai" then
    let api_key := env "OPENAI_API_KEY" in
    match api_key with
    | Some k =>
        if unset api_key "sk-xxxx" then Raise ValueError
        else Ok (ChatOpenAI "gpt-4o-mini" (1 # 10) k 30 2)
    | None => Raise ValueError
    end
  else if String.eqb provider "gemini" then
    let api_key := env "GEMINI_API_KEY" in
    match api_key with
    | Some k =>
        if unset api_key "your-gemini-api-key" then Raise ValueError
        else Ok (ChatGoogleGenerativeAI "gemini-1.5-flash" (1 # 10) k 30 2)
    | None => Raise ValueError
    end
  else Raise ValueError.

(** [get_available_providers()] *)
Definition get_available_providers (env : environ) : list string :=
  ((if unset (env "OPENAI_API_KEY") "sk-xxxx" then [] else ["openai"])
   ++ (if unset (env "GEMINI_API_KEY") "your-gemini-api-key" then [] else ["gemini"]))%list.

End LlmFactory.

(* ================================================================== *)
(** ** Further vocabulary *)
(* ================================================================== *)

Module Terms.
Import Py Tools State Agents Graph.


(** The node the orchestrator hands a state to: the first node of the
    pipeline of its intent, which is the model's node when there is a model. *)
Definition handler (env : Env) (st : GraphState) : string :=
  let entry prefix :=
    match llm env with Some _ => prefix ++ "_llm" | None => prefix ++ "_post" end in
  if eq_str (intent st) "scan_barcode" then "barcode"
  else if eq_str (intent st) "search_food" then entry "search"
  else if eq_str (intent st) "log_meal" then entry "logging"
  else if eq_str (intent st) "daily_summary" then entry "analysis"
  else if eq_str (intent st) "recommend" then entry "recommend"
  else entry "search".

(** The rows of a user on a day. *)
Definition of_the_day (uid : Z) (t : date) (l : MealLog) : bool :=
  (log_user_id l =? uid) && date_eqb (log_day l) t.

(** [zfill w n] is [w] digits that read [n]. *)
Definition zfill_reads (w : nat) (n : Z) : bool :=
  let cs := chars (zfill w n) in
  Nat.eqb (List.length cs) w && all_digits cs && (number cs =? n).

(** The weighted sum of the digits of a UPC, check digit included: weight 3
    at the first, third, ... digit. *)
Fixpoint upc_sum (three : bool) (cs : list ascii) : Z :=
  match cs with
  | [] => 0
  | c :: r => (if three then 3 else 1) * digit_val c + upc_sum (negb three) r
  end.

(** Every field of the state but the entities, the response and the two
    clarification fields is the same in [s'] as in [s]. *)
Definition same_turn (s s' : GraphState) : Prop :=
  messages s' = messages s /\ user_id s' = user_id s /\ input_text s' = input_text s
  /\ intent s' = intent s /\ food_candidates s' = food_candidates s
  /\ selected_food s' = selected_food s /\ log_entry s' = log_entry s
  /\ day_data s' = day_data s /\ day_totals s' = day_totals s
  /\ goals s' = goals s /\ confidence s' = confidence s
  /\ recommendations s' = recommendations s.

End Terms.

(* ================================================================== *)
(** ** Further examples *)
(* ================================================================== *)

Module Cases.
Import Py Tools State Agents Graph.

(** The entities name a UPC that is in the pantry. *)
Definition scans_oats : GraphState :=
  set_entities (initial_state 1 "scan 012345678905") (VDict [("upc", VStr "012345678905")]).

(** A search whose food name is empty. *)
Definition nameless_search : GraphState :=
  set_entities (initial_state 1 "search") (VDict [("food_name", VStr EmptyString)]).

(** A meal of user 1 on the first of March 2024. *)
Definition oats_meal : MealLog :=
  mkMealLog 1 1 1 (Examples.fl 100 1) (VStr "snack") VNone (mkdate 2024 3 1)
            "2024-03-01T08:00:00".

(** The first meal logged in an empty table, and the day before and after. *)
Definition first_log : dict * DB :=
  Eval vm_compute in tool_log_meal Examples.pantry [] 1 (VInt 1) (Examples.fl 100 1) VNone.

Definition day_of (db : DB) : dict :=
  match tool_compute_day Examples.pantry db 1 VNone with
  | Ok day => day
  | Raise _ => []
  end.

Definition day_before : dict := Eval vm_compute in day_of [].
Definition day_after : dict := Eval vm_compute in day_of (snd first_log).

(** Nobody has the id 7. *)
Definition stranger : GraphState :=
  set_entities (initial_state 7 "recommend") (VDict []).

(** User 1 asks for advice, with no date. *)
Definition advice : GraphState :=
  set_entities (initial_state 1 "recommend") (VDict []).

Definition advised : GraphState :=
  Eval vm_compute in
    match RecommendationAgent_run Examples.pantry [] advice with
    | Ok st => st
    | Raise _ => advice
    end.

(** A tool whose function is kept by its name. *)
Definition search_spec : Registry.ToolSpec string :=
  Registry.new_spec "tool_search_food" "tool_search_food"
    "Search foods by name (ILIKE)" VNone.

End Cases.

(* ================================================================== *)
(** ** Properties *)
(* ================================================================== *)

Import Py Tools State Agents Graph Spec.

(** *** Proof steps *)

(** Splits a hypothesis [f ... = Ok _] along the branches of [f]. *)
Ltac split_ok H :=
  repeat
    (match type of H with
     | bind ?r _ = Ok _ => destruct r eqn:?; cbn [bind] in H; [|discriminate H]
     | (if ?c then _ else _) = Ok _ => destruct c eqn:?
     | match ?x with _ => _ end = Ok _ => destruct x eqn:?
     | Raise _ = Ok _ => discriminate H
     end).

Ltac frame :=
  split;
  [ reflexivity
  | first [ left; split; reflexivity
          | right; split; [reflexivity | eexists; reflexivity] ] ].


(** *** Dicts and states *)

Lemma lookup_set_same (d : dict) (k : string) (v : value) :
  lookup (set d k v) k = Some v.
Proof.
  induction d as [|[k' v'] d IH]; simpl.
  - now rewrite String.eqb_refl.
  - destruct (String.eqb k' k) eqn:E; simpl; rewrite E; auto.
Qed.

Lemma get_set_same (d : dict) (k : string) (v : value) :
  get (set d k v) k = v.
Proof. unfold get, get_or. now rewrite lookup_set_same. Qed.

Lemma set_idem (d : dict) (k : string) (v : value) :
  set (set d k v) k v = set d k v.
Proof.
  induction d as [|[k' v'] d IH]; simpl.
  - now rewrite String.eqb_refl.
  - destruct (String.eqb k' k) eqn:E; simpl; rewrite E; congruence.
Qed.

Lemma set_not_empty (d : dict) (k : string) (v : value) :
  truthy (VDict (set d k v)) = true.
Proof. destruct d as [|[k' v'] d]; simpl; [|destruct (String.eqb k' k)]; reflexivity. Qed.

Lemma ask_entities (st : GraphState) (q r : string) :
  entities (ask st q r) = entities st.
Proof. reflexivity. Qed.

Lemma py_or_of_dict (d : dict) : py_or (VDict d) (VDict []) = VDict d.
Proof. now destruct d. Qed.

(** *** The graph that [create_graph] builds *)

Lemma node_evaluator (env : Env) :
  lookup (nodes (create_graph env)) "evaluator" = Some (pure_action EvaluatorOptimizer_run).
Proof. unfold create_graph, add_agent_tool_pipeline. destruct (llm env); reflexivity. Qed.

Lemma node_elicitation (env : Env) :
  lookup (nodes (create_graph env)) "elicitation" = Some (pure_action ElicitationAgent_run).
Proof. unfold create_graph, add_agent_tool_pipeline. destruct (llm env); reflexivity. Qed.

Lemma node_barcode (env : Env) :
  lookup (nodes (create_graph env)) "barcode"
  = Some (pure_action (BarcodeAgent_run (world env))).
Proof. unfold create_graph, add_agent_tool_pipeline. destruct (llm env); reflexivity. Qed.

Lemma node_orchestrator (env : Env) :
  lookup (nodes (create_graph env)) "orchestrator"
  = Some (pure_action (fun st => Ok (OrchestratorAgent_run (llm env) st))).
Proof. unfold create_graph, add_agent_tool_pipeline. destruct (llm env); reflexivity. Qed.

Lemma successor_evaluator (env : Env) (st : GraphState) :
  successor (create_graph env) "evaluator" st
  = Ok (if needs_clarification st then Some "elicitation" else None).
Proof.
  unfold create_graph, add_agent_tool_pipeline. destruct (llm env); cbn.
  all: unfold needs_elicitation; destruct (needs_clarification st); reflexivity.
Qed.

Lemma successor_elicitation (env : Env) (st : GraphState) :
  successor (create_graph env) "elicitation" st = Ok None.
Proof. unfold create_graph, add_agent_tool_pipeline. destruct (llm env); reflexivity. Qed.

Lemma successor_barcode (env : Env) (st : GraphState) :
  successor (create_graph env) "barcode" st = Ok (Some "evaluator").
Proof. unfold create_graph, add_agent_tool_pipeline. destruct (llm env); reflexivity. Qed.

Lemma entry_point_orchestrator (env : Env) :
  entry_point (create_graph env) = "orchestrator".
Proof. unfold create_graph, add_agent_tool_pipeline. destruct (llm env); reflexivity. Qed.

(** *** The Validator *)

(** The evaluator on a state whose entities are the dict [d] (or are false,
    with [d] empty) and hold no textual [grams]. *)
Lemma evaluator_no_text (s : GraphState) (d : dict) :
  py_or (entities s) (VDict []) = VDict d ->
  (forall t, get d "grams" <> VStr t) ->
  EvaluatorOptimizer_run s = Ok (check_grams s d).
Proof.
  intros Hd Hg. unfold EvaluatorOptimizer_run. rewrite Hd. simpl.
  unfold normalize_text_grams.
  destruct (get d "grams") eqn:G; try reflexivity.
  now elim (Hg s0).
Qed.

Lemma check_grams_entities (s : GraphState) (d : dict) :
  py_or (entities s) (VDict []) = VDict d ->
  (forall t, get d "grams" <> VStr t) ->
  exists d', py_or (entities (check_grams s d)) (VDict []) = VDict d'
             /\ (forall t, get d' "grams" <> VStr t)
             /\ check_grams (check_grams s d) d' = check_grams s d.
Proof.
  intros Hd Hg.
  destruct (is_none (get d "grams")) eqn:N.
  - assert (E : check_grams s d = set_entities s (VDict d))
      by (unfold check_grams; now rewrite N).
    rewrite E. exists d. simpl. rewrite py_or_of_dict. repeat split; auto.
    unfold check_grams. now rewrite N.
  - destruct (py_float (get d "grams")) as [g|e] eqn:F.
    + destruct (fle g fzero) eqn:L; [|destruct (fgt g (float_of_Z 5000)) eqn:U].
      * assert (E : check_grams s d = ask s "How many grams?"
                      "The amount must be greater than 0g. How many grams?")
          by (unfold check_grams; now rewrite N, F, L).
        rewrite E. exists d. rewrite ask_entities. repeat split; auto.
        unfold check_grams. now rewrite N, F, L.
      * assert (E : check_grams s d = ask s
                      "Please provide a reasonable grams amount (e.g., 50, 100, 200)."
                      "That seems too large. Did you mean a smaller amount in grams?")
          by (unfold check_grams; now rewrite N, F, L, U).
        rewrite E. exists d. rewrite ask_entities. repeat split; auto.
        unfold check_grams. now rewrite N, F, L, U.
      * assert (E : check_grams s d = set_entities s (VDict (set d "grams" (VFloat g))))
          by (unfold check_grams; now rewrite N, F, L, U).
        rewrite E. exists (set d "grams" (VFloat g)). simpl entities.
        rewrite py_or_of_dict. repeat split.
        -- intros t. rewrite get_set_same. discriminate.
        -- unfold check_grams. rewrite get_set_same. simpl is_none. cbv iota.
           simpl py_float. cbv iota. now rewrite L, U, set_idem.
    + assert (E : check_grams s d = ask s "How many grams?"
                    "I couldn't interpret the grams value.")
        by (unfold check_grams; now rewrite N, F).
      rewrite E. exists d. rewrite ask_entities. repeat split; auto.
      unfold check_grams. now rewrite N, F.
Qed.

(** The evaluator returns on every state whose entities are a dict or
    are false (an empty dict, [None]). *)
Lemma evaluator_returns (s : GraphState) (d : dict) :
  py_or (entities s) (VDict []) = VDict d ->
  exists s', EvaluatorOptimizer_run s = Ok s'.
Proof.
  intros Hd. unfold EvaluatorOptimizer_run. rewrite Hd. simpl.
  destruct (normalize_text_grams s d) as [[st e]|asked]; eauto.
Qed.

(** A state the evaluator returns is one it maps to itself. *)
Lemma evaluator_fixed_point (s s' : GraphState) :
  EvaluatorOptimizer_run s = Ok s' -> EvaluatorOptimizer_run s' = Ok s'.
Proof.
  intros H.
  assert (exists d, py_or (entities s) (VDict []) = VDict d) as [d Hd].
  { unfold EvaluatorOptimizer_run in H.
    destruct (py_or (entities s) (VDict [])); try discriminate. eauto. }
  assert (forall t d0, py_or (entities t) (VDict []) = VDict d0 ->
            (forall x, get d0 "grams" <> VStr x) ->
            EvaluatorOptimizer_run (check_grams t d0) = Ok (check_grams t d0)) as Fix.
  { intros t d0 H0 H1.
    destruct (check_grams_entities t d0 H0 H1) as (d' & A & B & C).
    rewrite (evaluator_no_text _ d' A B). now rewrite C. }
  unfold EvaluatorOptimizer_run in H. rewrite Hd in H. simpl in H.
  unfold normalize_text_grams in H.
  destruct (get d "grams") eqn:G;
    try (injection H as <-; apply Fix; [assumption | rewrite G; discriminate]).
  destruct (float_of_string _) as [f|] eqn:P in H.
  - injection H as <-. apply Fix.
    + simpl. apply py_or_of_dict.
    + intros x. rewrite get_set_same. discriminate.
  - injection H as <-.
    unfold EvaluatorOptimizer_run. rewrite ask_entities, Hd. simpl.
    unfold normalize_text_grams. rewrite G, P. reflexivity.
Qed.

(** C9. The Validator is idempotent: validating the state it returns
    gives that state again, field by field ([needs_clarification],
    [questions], [response] and [entities] included); where it raises, it
    raises. *)
Theorem evaluator_idempotent (s : GraphState) :
  bind (EvaluatorOptimizer_run s) EvaluatorOptimizer_run = EvaluatorOptimizer_run s.
Proof.
  destruct (EvaluatorOptimizer_run s) as [s'|e] eqn:H; simpl.
  - now apply evaluator_fixed_point with s.
  - reflexivity.
Qed.

Lemma evaluator_idempotent_witness :
  EvaluatorOptimizer_run Examples.typed_grams = Ok Examples.read_grams
  /\ EvaluatorOptimizer_run Examples.read_grams = Ok Examples.read_grams.
Proof.
  assert (H : EvaluatorOptimizer_run Examples.typed_grams = Ok Examples.read_grams)
    by (vm_compute; reflexivity).
  split; [exact H|].
  pose proof (evaluator_idempotent Examples.typed_grams) as I.
  rewrite H in I. exact I.
Defined.

(** *** The clarification step *)





(** A state the evaluator leaves unmarked ends the run. *)
Lemma settled_turn (env : Env) (limit : nat) (db : DB) (s s' : GraphState) :
  EvaluatorOptimizer_run s = Ok s' ->
  needs_clarification s' = false ->
  invoke_from (create_graph env) (S limit) "evaluator" db s = Ok (s', db).
Proof.
  intros H N.
  cbn [invoke_from]. rewrite node_evaluator. unfold pure_action at 1.
  rewrite H. cbn [bind fst snd]. rewrite successor_evaluator, N. reflexivity.
Qed.

(** *** The grams rules of the Validator *)




(** *** What each node keeps *)

Lemma analysis_frame (w : World) (db : DB) (st st' : GraphState) :
  AnalysisAgent_run w db st = Ok st' -> keeps_or_asks st st'.
Proof.
  intros H. unfold AnalysisAgent_run in H. split_ok H.
  all: injection H as <-; frame.
Qed.

Lemma recommendation_frame (w : World) (db : DB) (st st' : GraphState) :
  RecommendationAgent_run w db st = Ok st' -> keeps_or_asks st st'.
Proof.
  intros H. unfold RecommendationAgent_run in H. split_ok H.
  all: injection H as <-; frame.
Qed.

Lemma logging_frame (w : World) (db db' : DB) (st st' : GraphState) :
  LoggingAgent_run w db st = Ok (st', db') -> keeps_or_asks st st'.
Proof.
  intros H. unfold LoggingAgent_run in H. split_ok H.
  all: injection H as <- <-; frame.
Qed.

Lemma barcode_frame (w : World) (st st' : GraphState) :
  BarcodeAgent_run w st = Ok st' -> keeps_or_asks st st'.
Proof.
  intros H. unfold BarcodeAgent_run in H. split_ok H.
  all: injection H as <-; frame.
Qed.

Lemma search_frame (w : World) (st st' : GraphState) :
  FoodSearchAgent_run w st = Ok st' -> keeps_or_asks st st'.
Proof.
  intros H. unfold FoodSearchAgent_run in H. split_ok H.
  all: injection H as <-; frame.
Qed.

Lemma check_grams_frame (g : GraphState) (d : dict) :
  keeps_or_asks g (check_grams g d).
Proof.
  unfold check_grams.
  repeat match goal with
         | |- context [if ?c then _ else _] => destruct c
         | |- context [match ?x with _ => _ end] => destruct x
         end; frame.
Qed.

Lemma evaluator_frame (st st' : GraphState) :
  EvaluatorOptimizer_run st = Ok st' -> keeps_or_asks st st'.
Proof.
  intros H. unfold EvaluatorOptimizer_run in H.
  destruct (as_dict _) as [a|] eqn:A; [|discriminate]. cbn [bind] in H.
  unfold normalize_text_grams in H.
  destruct (get a "grams"); try (injection H as <-; apply check_grams_frame).
  destruct (float_of_string _) as [x|].
  - injection H as <-.
    destruct (check_grams_frame (set_entities st (VDict (set a "grams" (VFloat x))))
                (set a "grams" (VFloat x))) as [C F].
    split; [exact C | exact F].
  - injection H as <-. frame.
Qed.

Lemma elicitation_frame (st st' : GraphState) :
  ElicitationAgent_run st = Ok st' -> keeps_or_asks st st'.
Proof.
  intros H. unfold ElicitationAgent_run in H. split_ok H.
  all: injection H as <-; frame.
Qed.

Lemma orchestrator_flags (llm : option LLM) (st : GraphState) :
  needs_clarification (OrchestratorAgent_run llm st) = needs_clarification st
  /\ questions (OrchestratorAgent_run llm st) = questions st.
Proof.
  unfold OrchestratorAgent_run, heuristic_intent.
  repeat match goal with
         | |- context [match ?x with _ => _ end] => destruct x
         end; split; reflexivity.
Qed.

Lemma llm_node_frame (m : LLM) (prefix prompt : string) (db db' : DB)
    (st st' : GraphState) :
  llm_node m prefix prompt db st = Ok (st', db') -> keeps_or_asks st st'.
Proof.
  intros H. unfold llm_node in H. split_ok H.
  all: injection H as <- <-; frame.
Qed.

Lemma tool_node_frame (env : Env) (db db' : DB) (st st' : GraphState) :
  tool_node env db st = Ok (st', db') -> keeps_or_asks st st'.
Proof.
  intros H. unfold tool_node in H. split_ok H.
  all: injection H as <- <-; frame.
Qed.

(** *** Runs of the graph *)

Lemma lookup_In {A : Type} (l : list (string * A)) (k : string) (v : A) :
  lookup l k = Some v -> In (k, v) l.
Proof.
  induction l as [|[k' v'] l IH]; simpl; [discriminate|].
  destruct (String.eqb k' k) eqn:E.
  - intros [= ->]. apply String.eqb_eq in E. subst. now left.
  - intros H. right. auto.
Qed.

Lemma successor_in_targets (g : StateGraph) (n n' : string) (st : GraphState) :
  successor g n st = Ok (Some n') -> In n' (targets g).
Proof.
  unfold successor, targets. intros H. apply in_or_app.
  destruct (lookup (branches g) n) as [[path pm]|] eqn:B.
  - destruct (lookup pm (path st)) as [t|] eqn:L; [|discriminate].
    destruct (String.eqb t END); [discriminate|]. injection H as ->.
    right. apply in_flat_map. exists (n, (path, pm)). split.
    + now apply lookup_In.
    + simpl. apply in_map_iff. exists (path st, n'). split; auto. now apply lookup_In.
  - destruct (lookup (edges g) n) as [t|] eqn:L; [|discriminate].
    destruct (String.eqb t END); [discriminate|]. injection H as ->.
    left. apply in_map_iff. exists (n, n'). split; auto. now apply lookup_In.
Qed.

(** No edge of the workflow leads back to the orchestrator. *)
Lemma targets_create_graph (env : Env) :
  Forall (fun t => t <> "orchestrator") (targets (create_graph env)).
Proof.
  unfold create_graph, add_agent_tool_pipeline. destruct (llm env).
  all: cbn [targets edges branches add_node add_edge add_conditional_edges set_entry_point
            add_post_edges first_or empty_graph app map flat_map snd fst String.append].
  all: repeat constructor; discriminate.
Qed.

(** The nodes of the workflow, with and without a model. *)
Lemma nodes_create_graph (env : Env) :
  nodes (create_graph env) =
  let w := world env in
  match llm env with
  | None =>
      [ ("orchestrator", pure_action (fun st => Ok (OrchestratorAgent_run (llm env) st)));
        ("barcode", pure_action (BarcodeAgent_run w));
        ("search_post", pure_action (FoodSearchAgent_run w));
        ("logging_post", LoggingAgent_run w);
        ("analysis_post", fun db st => st' <- AnalysisAgent_run w db st ;; Ok (st', db));
        ("recommend_post",
         fun db st => st' <- RecommendationAgent_run w db st ;; Ok (st', db));
        ("evaluator", pure_action EvaluatorOptimizer_run);
        ("elicitation", pure_action ElicitationAgent_run) ]
  | Some m =>
      [ ("orchestrator", pure_action (fun st => Ok (OrchestratorAgent_run (llm env) st)));
        ("barcode", pure_action (BarcodeAgent_run w));
        ("search_post", pure_action (FoodSearchAgent_run w));
        ("search_llm", llm_node m "search" (system_prompt env "search"));
        ("search_tools", tool_node env);
        ("logging_post", LoggingAgent_run w);
        ("logging_llm", llm_node m "logging" (system_prompt env "logging"));
        ("logging_tools", tool_node env);
        ("analysis_post", fun db st => st' <- AnalysisAgent_run w db st ;; Ok (st', db));
        ("analysis_llm", llm_node m "analysis" (system_prompt env "analysis"));
        ("analysis_tools", tool_node env);
        ("recommend_post",
         fun db st => st' <- RecommendationAgent_run w db st ;; Ok (st', db));
        ("recommend_llm", llm_node m "recommend" (system_prompt env "recommend"));
        ("recommend_tools", tool_node env);
        ("evaluator", pure_action EvaluatorOptimizer_run);
        ("elicitation", pure_action ElicitationAgent_run) ]
  end.
Proof.
  unfold create_graph, add_agent_tool_pipeline. destruct (llm env); reflexivity.
Qed.

(** Every node but the orchestrator keeps the confidence and keeps or sets
    the clarification fields; the orchestrator keeps the latter. *)
Lemma node_frame (env : Env) (n : string) (f : action) (db : DB) (st : GraphState)
    (r : GraphState * DB) :
  lookup (nodes (create_graph env)) n = Some f ->
  f db st = Ok r ->
  (n <> "orchestrator" -> keeps_or_asks st (fst r))
  /\ (needs_clarification (fst r) = needs_clarification st
        /\ questions (fst r) = questions st
      \/ needs_clarification (fst r) = true /\ exists q, questions (fst r) = [q]).
Proof.
  intros L H. apply lookup_In in L. rewrite nodes_create_graph in L.
  assert (K : keeps_or_asks st (fst r) ->
              (n <> "orchestrator" -> keeps_or_asks st (fst r))
              /\ (needs_clarification (fst r) = needs_clarification st
                    /\ questions (fst r) = questions st
                  \/ needs_clarification (fst r) = true
                     /\ exists q, questions (fst r) = [q]))
    by (intros [C F]; split; [intros _; split; assumption | exact F]).
  cbv zeta in L. destruct (llm env) as [m|]; cbn [In] in L.
  all: destruct L as [L|L];
    [ injection L as <- <-; unfold pure_action in H; cbn [bind] in H;
      injection H as <-; cbn [fst];
      split;
      [ intros N; now elim N
      | left;
        first [ exact (orchestrator_flags None st)
              | match goal with
                | m : LLM |- _ => exact (orchestrator_flags (Some m) st)
                end ] ]
    | ].
  all: repeat (destruct L as [L|L]; [injection L as <- <-|]); try contradiction.
  all: try (unfold pure_action in H).
  all: try (destruct r as [st' db']; cbn [fst]).
  all: try (split_ok H; injection H as <- <-).
  all: apply K; cbn [fst].
  all: eauto using barcode_frame, search_frame, logging_frame, analysis_frame,
         recommendation_frame, evaluator_frame, elicitation_frame, llm_node_frame,
         tool_node_frame.
Qed.

(** A property that every node reachable from [good] nodes keeps holds at
    the end of a run that starts in a [good] node. *)
Lemma invoke_from_invariant (g : StateGraph) (P : GraphState -> Prop)
    (good : string -> Prop) :
  (forall n f db st r,
      good n -> lookup (nodes g) n = Some f -> P st -> f db st = Ok r -> P (fst r)) ->
  (forall n st n', good n -> successor g n st = Ok (Some n') -> good n') ->
  forall limit n db st r,
    good n -> P st -> invoke_from g limit n db st = Ok r -> P (fst r).
Proof.
  intros Hnode Hnext. induction limit as [|limit IH]; intros n db st r G HP H.
  - discriminate.
  - cbn [invoke_from] in H.
    destruct (lookup (nodes g) n) as [f|] eqn:L; [|discriminate].
    destruct (f db st) as [r1|] eqn:F; [|discriminate]. cbn [bind] in H.
    destruct (successor g n (fst r1)) as [[n'|]|] eqn:S; cbn [bind] in H.
    + eapply IH; [eapply Hnext; eauto | eapply Hnode; eauto | exact H].
    + injection H as <-. eapply Hnode; eauto.
    + discriminate.
Qed.

Lemma one_question_kept (st st' : GraphState) :
  one_question st ->
  (needs_clarification st' = needs_clarification st /\ questions st' = questions st
   \/ needs_clarification st' = true /\ exists q, questions st' = [q]) ->
  one_question st'.
Proof.
  intros I [[N Q]|[N [q Q]]].
  - unfold one_question. now rewrite N, Q.
  - unfold one_question. rewrite N, Q. simpl. repeat split; auto. discriminate.
Qed.

Lemma one_question_run (env : Env) (limit : nat) (n : string) (db : DB)
    (st : GraphState) (r : GraphState * DB) :
  one_question st ->
  invoke_from (create_graph env) limit n db st = Ok r ->
  one_question (fst r).
Proof.
  intros I H.
  apply (invoke_from_invariant (create_graph env) one_question (fun _ => True))
    with (limit := limit) (n := n) (db := db) (st := st); auto.
  intros n0 f db0 st0 r0 _ L P F.
  destruct (node_frame env n0 f db0 st0 r0 L F) as [_ K].
  now apply one_question_kept with st0.
Qed.

(** C2. At the end of a turn, whatever the message and whatever the
    collaborators reply, [needs_clarification] is true exactly when
    [questions] has one element, and [questions] is empty when it is false. *)
Theorem one_question_at_turn_end (env : Env) (db db' : DB) (uid : Z)
    (message : string) (st : GraphState) :
  run_agent env db uid message = Ok (st, db') ->
  (needs_clarification st = true <-> List.length (questions st) = 1%nat)
  /\ (needs_clarification st = false -> questions st = []).
Proof.
  intros H. unfold run_agent, graph_invoke in H.
  apply one_question_run in H; [exact H|].
  unfold one_question. simpl. repeat split; auto; discriminate.
Qed.

Lemma one_question_at_turn_end_witness :
  (needs_clarification Examples.asked_for_grams = true
   <-> List.length (questions Examples.asked_for_grams) = 1%nat)
  /\ (needs_clarification Examples.asked_for_grams = false
      -> questions Examples.asked_for_grams = []).
Proof.
  apply (one_question_at_turn_end Examples.offline [] [] 1 "log food_id=1").
  vm_compute. reflexivity.
Defined.

(** *** One step of a run *)

Lemma invoke_step (g : StateGraph) (limit : nat) (n n' : string) (f : action)
    (db : DB) (st : GraphState) (r : GraphState * DB) :
  lookup (nodes g) n = Some f ->
  f db st = Ok r ->
  successor g n (fst r) = Ok (Some n') ->
  invoke_from g (S limit) n db st = invoke_from g limit n' (snd r) (fst r).
Proof. intros L F S. cbn [invoke_from]. now rewrite L, F; cbn [bind]; rewrite S. Qed.

Lemma invoke_last (g : StateGraph) (limit : nat) (n : string) (f : action)
    (db : DB) (st : GraphState) (r : GraphState * DB) :
  lookup (nodes g) n = Some f ->
  f db st = Ok r ->
  successor g n (fst r) = Ok None ->
  invoke_from g (S limit) n db st = Ok r.
Proof. intros L F S. cbn [invoke_from]. now rewrite L, F; cbn [bind]; rewrite S. Qed.

(** A turn is the orchestrator's step and then a run from a node that is
    not the orchestrator. *)
Lemma run_agent_unfold (env : Env) (db : DB) (uid : Z) (message : string)
    (r : GraphState * DB) :
  run_agent env db uid message = Ok r ->
  let st1 := OrchestratorAgent_run (llm env) (initial_state uid message) in
  exists n, n <> "orchestrator"
            /\ invoke_from (create_graph env) 24 n db st1 = Ok r.
Proof.
  intros H st1. unfold run_agent, graph_invoke, RECURSION_LIMIT in H.
  rewrite entry_point_orchestrator in H. cbn [invoke_from] in H.
  rewrite node_orchestrator in H. unfold pure_action in H. cbn [bind fst snd] in H.
  fold st1 in H.
  destruct (successor (create_graph env) "orchestrator" st1) as [[n|]|] eqn:S;
    cbn [bind] in H; try discriminate.
  - exists n. split; [|exact H].
    apply successor_in_targets in S.
    pose proof (targets_create_graph env) as T. rewrite Forall_forall in T. now apply T.
  - exfalso. clear H. revert S.
    unfold create_graph, add_agent_tool_pipeline, successor.
    destruct (llm env); cbn [branches add_conditional_edges add_node add_edge
      set_entry_point add_post_edges first_or empty_graph app lookup String.eqb
      Ascii.eqb Bool.eqb fst snd String.append].
    all: unfold route_by_intent, first_or.
    all: repeat match goal with
                | |- context [if eq_str ?a ?b then _ else _] => destruct (eq_str a b)
                end.
    all: cbn; discriminate.
Qed.

(** After the orchestrator no node writes [confidence]. *)
Lemma confidence_kept (env : Env) (limit : nat) (n : string) (db : DB)
    (st : GraphState) (r : GraphState * DB) :
  n <> "orchestrator" ->
  invoke_from (create_graph env) limit n db st = Ok r ->
  confidence (fst r) = confidence st.
Proof.
  intros N H.
  apply (invoke_from_invariant (create_graph env)
           (fun s => confidence s = confidence st) (fun k => k <> "orchestrator"))
    with (limit := limit) (n := n) (db := db) (st := st); auto.
  - intros n0 f db0 st0 r0 G L P F.
    destruct (node_frame env n0 f db0 st0 r0 L F) as [K _].
    destruct (K G) as [C _]. congruence.
  - intros n0 st0 n' _ S. apply successor_in_targets in S.
    pose proof (targets_create_graph env) as T. rewrite Forall_forall in T. now apply T.
Qed.

Lemma heuristic_confidence (st : GraphState) :
  confidence (heuristic_intent st) = round64 (5 # 10).
Proof.
  unfold heuristic_intent.
  match goal with
  | |- context [let '(_, _) := ?x in _] => destruct x
  end.
  reflexivity.
Qed.

Lemma orchestrator_confidence (llm : option LLM) (st : GraphState) :
  confidence (OrchestratorAgent_run llm st) = turn_confidence llm (input_text st).
Proof.
  unfold OrchestratorAgent_run, turn_confidence, get_or.
  destruct llm as [m|]; [|apply heuristic_confidence].
  destruct (invoke m _) as [[| | | | | |reply]|]; try apply heuristic_confidence.
  destruct (lookup reply "confidence") as [v|].
  - destruct (py_float v); [reflexivity | apply heuristic_confidence].
  - reflexivity.
Qed.

Lemma heuristic_in_unit_interval : in_unit_interval (round64 (5 # 10)) = true.
Proof. vm_compute. reflexivity. Qed.

Lemma default_in_unit_interval : in_unit_interval (round64 (7 # 10)) = true.
Proof. vm_compute. reflexivity. Qed.

(** C8, as amended.  The confidence at the end of a turn is the one the
    orchestrator settled on: 0.5 on the heuristic path, 0.7 when the model's
    reply carries no confidence, else the float of the value the model
    supplies, unclamped.  It lies in [0, 1] unless the model supplies a value
    that does not. *)
Theorem confidence_of_turn (env : Env) (db db' : DB) (uid : Z) (message : string)
    (st : GraphState) :
  run_agent env db uid message = Ok (st, db') ->
  confidence st = turn_confidence (llm env) message
  /\ (confidence st = round64 (5 # 10)
      \/ confidence st = round64 (7 # 10)
      \/ supplied_confidence (llm env) message (confidence st))
  /\ (in_unit_interval (confidence st) = true
      \/ supplied_confidence (llm env) message (confidence st)).
Proof.
  intros H. apply run_agent_unfold in H. destruct H as (n & N & H).
  apply confidence_kept in H; [|exact N]. cbn [fst] in H.
  rewrite orchestrator_confidence in H. cbn [input_text initial_state] in H.
  rewrite H. split; [reflexivity|].
  pose proof heuristic_in_unit_interval as U5.
  pose proof default_in_unit_interval as U7.
  unfold turn_confidence, supplied_confidence.
  destruct (llm env) as [m|]; [|split; left; [reflexivity | exact U5]].
  destruct (invoke m (build_prompt message)) as [[| | | | | |reply]|] eqn:I.
  1-6, 8: split; left; [reflexivity | exact U5].
  destruct (lookup reply "confidence") as [v|] eqn:L.
  - destruct (py_float v) as [c|e] eqn:F.
    + split; right; [right|]; exists m, reply, v; auto.
    + split; left; [reflexivity | exact U5].
  - split; [right; left; reflexivity | left; exact U7].
Qed.

Lemma confidence_of_turn_witness :
  confidence Examples.overconfident_turn
  = turn_confidence (Some (Examples.replying Examples.overconfident)) "search oats"
  /\ confidence Examples.overconfident_turn = float_of_Z 5.
Proof.
  split.
  - apply (confidence_of_turn (Examples.online Examples.overconfident) [] [] 1
             "search oats" Examples.overconfident_turn).
    vm_compute. reflexivity.
  - vm_compute. reflexivity.
Defined.

(** C8, as stated, fails: a model that answers with a confidence of 5 ends
    the turn with confidence 5.0. *)
Lemma confidence_above_one :
  ~ (forall (env : Env) (db db' : DB) (uid : Z) (message : string) (st : GraphState),
        run_agent env db uid message = Ok (st, db') ->
        in_unit_interval (confidence st) = true).
Proof.
  intros H.
  specialize (H (Examples.online Examples.overconfident) [] [] 1 "search oats"
                Examples.overconfident_turn).
  assert (R : run_agent (Examples.online Examples.overconfident) [] 1 "search oats"
              = Ok (Examples.overconfident_turn, []))
    by (vm_compute; reflexivity).
  specialize (H R). vm_compute in H. discriminate.
Qed.

(** *** The barcode turn that finds no food *)

Lemma get_set_other (d : dict) (k k' : string) (v : value) :
  k <> k' -> get (set d k' v) k = get d k.
Proof.
  intros N. unfold get, get_or.
  induction d as [|[k0 v0] d IH]; simpl.
  - destruct (String.eqb k' k) eqn:E; [apply String.eqb_eq in E; congruence | reflexivity].
  - destruct (String.eqb k0 k') eqn:E; simpl.
    + destruct (String.eqb k0 k) eqn:E2; [|reflexivity].
      apply String.eqb_eq in E, E2. congruence.
    + destruct (String.eqb k0 k); [reflexivity | exact IH].
Qed.

Lemma check_grams_slots (g : GraphState) (d : dict) :
  entities g = VDict d -> truthy (VDict d) = true ->
  same_slots g (check_grams g d) d.
Proof.
  intros E T. unfold check_grams, same_slots.
  repeat match goal with
         | |- context [if ?c then _ else _] => destruct c
         | |- context [match ?x with _ => _ end] => destruct x
         end.
  all: repeat split; try reflexivity.
  all: try (exists d; rewrite ?ask_entities; repeat split; auto; fail).
  all: eexists; split; [reflexivity|]; split; [apply set_not_empty|].
  all: intros k Hk; now apply get_set_other.
Qed.

Lemma evaluator_slots (s s' : GraphState) (d : dict) :
  entities s = VDict d -> truthy (VDict d) = true ->
  EvaluatorOptimizer_run s = Ok s' -> same_slots s s' d.
Proof.
  intros E T H. unfold EvaluatorOptimizer_run in H.
  unfold py_or in H. rewrite E, T in H. cbn [as_dict bind] in H.
  unfold normalize_text_grams in H.
  destruct (get d "grams") eqn:G; try (injection H as <-; now apply check_grams_slots).
  destruct (float_of_string _) as [x|].
  - injection H as <-.
    destruct (check_grams_slots (set_entities s (VDict (set d "grams" (VFloat x))))
                (set d "grams" (VFloat x)) eq_refl (set_not_empty _ _ _))
      as (A & B & C & d' & D1 & D2 & D3).
    repeat split; auto. exists d'. repeat split; auto.
    intros k Hk. rewrite D3 by exact Hk. now apply get_set_other.
  - injection H as <-. repeat split. exists d. repeat split; auto.
Qed.

Lemma successor_orchestrator_barcode (env : Env) (st : GraphState) :
  intent st = VStr "scan_barcode" ->
  successor (create_graph env) "orchestrator" st = Ok (Some "barcode").
Proof.
  intros I. unfold create_graph, add_agent_tool_pipeline, successor.
  destruct (llm env); cbn [branches add_conditional_edges add_node add_edge
      set_entry_point add_post_edges first_or empty_graph app lookup String.eqb
      Ascii.eqb Bool.eqb fst snd String.append].
  all: unfold route_by_intent; rewrite I; reflexivity.
Qed.

(** C3, which the code departs from.  Every [scan_barcode] turn whose
    [upc] entity is present and whose UPC lookup finds no food ends as a
    clarification whose one question, and response, is the generic question of
    the clarification step: the offer to search by name, which [BarcodeAgent]
    had written, is replaced. *)
Theorem barcode_miss_turn (env : Env) (db : DB) (uid : Z) (message : string) (d : dict) :
  let st1 := OrchestratorAgent_run (llm env) (initial_state uid message) in
  intent st1 = VStr "scan_barcode" ->
  entities st1 = VDict d ->
  truthy (get d "upc") = true ->
  lookup_upc (world env) (get d "upc") = [] ->
  exists st, run_agent env db uid message = Ok (st, db) /\ asks st GENERIC_QUESTION.
Proof.
  intros st1 I E U M.
  assert (T : truthy (VDict d) = true).
  { destruct d; [discriminate U | reflexivity]. }
  set (st2 := ask st1 "Would you like to search by name instead?"
                ("No food found with UPC " ++ py_str (get d "upc")
                 ++ ". Would you like to search by name instead?")).
  assert (B : BarcodeAgent_run (world env) st1 = Ok st2).
  { unfold BarcodeAgent_run. rewrite E. cbn [as_dict bind]. rewrite U. cbn [negb].
    unfold tool_lookup_upc. rewrite M. reflexivity. }
  destruct (evaluator_returns st2 d) as [st3 V].
  { unfold st2. rewrite ask_entities, E. apply py_or_of_dict. }
  destruct (evaluator_slots st2 st3 d) as (I3 & S3 & C3 & d' & E3 & T3 & K3); auto.
  assert (N3 : needs_clarification st3 = true).
  { destruct (evaluator_frame st2 st3 V) as [_ [[N _]|[N _]]]; [rewrite N|]; auto. }
  exists (ask st3 GENERIC_QUESTION GENERIC_QUESTION). split; [|repeat split].
  unfold run_agent, graph_invoke, RECURSION_LIMIT. rewrite entry_point_orchestrator.
  rewrite (invoke_step _ _ "orchestrator" "barcode" _ db _ (st1, db)
             (node_orchestrator env) eq_refl (successor_orchestrator_barcode env _ I)).
  cbn [fst snd].
  rewrite (invoke_step _ _ "barcode" "evaluator" _ db st1 (st2, db) (node_barcode env)).
  2: { unfold pure_action. now rewrite B. }
  2: apply successor_barcode.
  cbn [fst snd].
  rewrite (invoke_step _ _ "evaluator" "elicitation" _ db st2 (st3, db) (node_evaluator env)).
  2: { unfold pure_action. now rewrite V. }
  2: { rewrite successor_evaluator. cbn [fst]. now rewrite N3. }
  cbn [fst snd].
  apply (invoke_last _ _ "elicitation" _ db st3 _ (node_elicitation env)).
  2: apply successor_elicitation.
  unfold pure_action, ElicitationAgent_run, py_or. rewrite E3, T3. cbn [as_dict bind].
  assert (I2 : intent st3 = VStr "scan_barcode") by (rewrite I3; exact I).
  unfold elicitation_questions. rewrite I2.
  cbn [eq_str String.eqb Ascii.eqb Bool.eqb andb orb].
  rewrite (K3 "upc") by discriminate. rewrite U. reflexivity.
Qed.

Lemma barcode_miss_turn_witness :
  (exists st, run_agent Examples.offline [] 1 "scan 012345678906" = Ok (st, [])
              /\ asks st GENERIC_QUESTION)
  /\ contains (response Examples.unknown_upc) "search by name" = false
  /\ (exists asked,
        BarcodeAgent_run Examples.pantry
          (heuristic_intent (initial_state 1 "scan 012345678906")) = Ok asked
        /\ questions asked = ["Would you like to search by name instead?"]).
Proof.
  split; [|split].
  - apply (barcode_miss_turn Examples.offline [] 1 "scan 012345678906"
             [ ("food_name", VNone); ("grams", VNone); ("upc", VStr "012345678906");
               ("meal_type", VNone); ("date", VNone); ("food_id", VNone) ]).
    + vm_compute. reflexivity.
    + vm_compute. reflexivity.
    + reflexivity.
    + reflexivity.
  - vm_compute. reflexivity.
  - eexists. split; vm_compute; reflexivity.
Defined.

(** *** Clarification turns and their response *)

(** With a model, a run ends after the evaluator (on a state it did not
    mark) or after the clarification step. *)
Lemma last_node_with_model (env : Env) (m : LLM) (n : string) (f : action)
    (db : DB) (st : GraphState) (r : GraphState * DB) :
  llm env = Some m ->
  lookup (nodes (create_graph env)) n = Some f ->
  f db st = Ok r ->
  successor (create_graph env) n (fst r) = Ok None ->
  needs_clarification (fst r) = true ->
  exists q, asks (fst r) q.
Proof.
  intros E L F S N. apply lookup_In in L. rewrite nodes_create_graph in L.
  cbv zeta in L. rewrite E in L. cbn [In] in L.
  repeat (destruct L as [L|L]; [injection L as <- <-|]); try contradiction.
  16: { clear S. unfold pure_action in F.
        destruct (ElicitationAgent_run st) as [st'|] eqn:R; [|discriminate].
        injection F as <-. cbn [fst] in *.
        unfold ElicitationAgent_run in R. split_ok R; injection R as <-.
        eexists. repeat split. }
  15: { rewrite successor_evaluator, N in S. discriminate. }
  all: exfalso; clear F; revert S.
  all: unfold create_graph, add_agent_tool_pipeline, successor; rewrite E.
  all: cbn [branches edges add_conditional_edges add_node add_edge
      set_entry_point add_post_edges first_or empty_graph app lookup String.eqb
      Ascii.eqb Bool.eqb fst snd String.append].
  all: try discriminate.
  all: try (unfold tools_condition; destruct (last _ _) as [| | |? [|]|]; cbn; discriminate).
  unfold route_by_intent, first_or.
  repeat match goal with
         | |- context [if eq_str ?a ?b then _ else _] => destruct (eq_str a b)
         end; cbn; discriminate.
Qed.

Lemma clarification_with_model (env : Env) (m : LLM) :
  llm env = Some m ->
  forall limit n db st r,
    invoke_from (create_graph env) limit n db st = Ok r ->
    needs_clarification (fst r) = true ->
    exists q, asks (fst r) q.
Proof.
  intros E. induction limit as [|limit IH]; intros n db st r H N; [discriminate|].
  cbn [invoke_from] in H.
  destruct (lookup (nodes (create_graph env)) n) as [f|] eqn:L; [|discriminate].
  destruct (f db st) as [r1|] eqn:F; [|discriminate]. cbn [bind] in H.
  destruct (successor (create_graph env) n (fst r1)) as [[n'|]|] eqn:S; cbn [bind] in H.
  - eapply IH; eauto.
  - injection H as <-. eapply last_node_with_model; eauto.
  - discriminate.
Qed.

(** C10, which the code departs from.  With a model configured every turn
    that ends with [needs_clarification] true has its one question as its
    response; without one ([get_llm()] raises) the handlers of the four tool
    pipelines have no edge to the evaluator, and the turn "log food_id=1" ends
    on [LoggingAgent]'s own response, which differs from its question. *)
Theorem clarification_response :
  (forall (env : Env) (m : LLM) (db db' : DB) (uid : Z) (message : string)
          (st : GraphState),
      llm env = Some m ->
      run_agent env db uid message = Ok (st, db') ->
      needs_clarification st = true ->
      exists q, questions st = [q] /\ response st = q)
  /\ (run_agent Examples.offline [] 1 "log food_id=1" = Ok (Examples.asked_for_grams, [])
      /\ path_from (create_graph Examples.offline) RECURSION_LIMIT "orchestrator" []
                   (initial_state 1 "log food_id=1") = ["orchestrator"; "logging_post"]
      /\ needs_clarification Examples.asked_for_grams = true
      /\ questions Examples.asked_for_grams = ["How many grams?"]
      /\ response Examples.asked_for_grams = "How many grams would you like to log?").
Proof.
  split.
  - intros env m db db' uid message st E H N.
    unfold run_agent, graph_invoke in H.
    destruct (clarification_with_model env m E _ _ _ _ _ H N) as (q & _ & Q & R).
    exists q. split; assumption.
  - repeat split; vm_compute; reflexivity.
Qed.

Lemma clarification_response_witness :
  exists q, questions Examples.asked_by_elicitation = [q]
            /\ response Examples.asked_by_elicitation = q.
Proof.
  apply (proj1 clarification_response (Examples.online Examples.wants_to_log)
           (Examples.replying Examples.wants_to_log) [] [] 1 "log oats").
  - reflexivity.
  - vm_compute. reflexivity.
  - vm_compute. reflexivity.
Defined.

(** *** The date of a recommendation *)

Lemma relative_date_is_no_iso_date (v : value) :
  relative_date v -> forall w, target_date w v = Raise ValueError.
Proof. intros [-> | [-> | ->]] w; reflexivity. Qed.

(** C4, which the code departs from.  [RecommendationAgent] does not
    resolve the date as [AnalysisAgent] does: it hands a [date] entity of
    "today", "now" or "yesterday" to [tool_compute_day] as it is, and
    [datetime.fromisoformat] raises [ValueError]; [AnalysisAgent] turns the
    first two into no date, for which [tool_compute_day] takes the current
    day of [datetime.utcnow()], and the third into the ISO text of the day
    before [date.today()]. *)
Theorem recommendation_date (w : World) (db : DB) (st : GraphState) (d : dict) :
  entities st = VDict d ->
  relative_date (get d "date") ->
  RecommendationAgent_run w db st = Raise ValueError
  /\ (get d "date" = VStr "yesterday" ->
      analysis_date w (get d "date")
      = bind (minus_one_day (today w)) (fun y => Ok (VStr (isoformat y))))
  /\ (get d "date" <> VStr "yesterday" ->
      analysis_date w (get d "date") = Ok VNone
      /\ target_date w VNone = Ok (utcnow_day w)).
Proof.
  intros E R. split; [|split].
  - unfold RecommendationAgent_run. rewrite E. cbn [as_dict bind].
    assert (P : py_or (get d "date") (VStr (isoformat (today w))) = get d "date")
      by (destruct R as [-> | [-> | ->]]; reflexivity).
    rewrite P. unfold tool_compute_day.
    rewrite (relative_date_is_no_iso_date _ R). reflexivity.
  - intros ->. reflexivity.
  - intros N. destruct R as [R | [R | R]]; rewrite R in *; try (split; reflexivity).
    now elim N.
Qed.

Lemma recommendation_date_witness :
  RecommendationAgent_run Examples.pantry [] Examples.asks_for_advice = Raise ValueError
  /\ run_agent Examples.offline [] 1 "recommend something" = Raise ValueError
  /\ exists st, AnalysisAgent_run Examples.pantry [] Examples.asks_for_advice = Ok st.
Proof.
  split; [|split].
  - apply (recommendation_date Examples.pantry [] Examples.asks_for_advice
             (Examples.heuristic_entities VNone VNone VNone (VStr "today") VNone)).
    + vm_compute. reflexivity.
    + left. reflexivity.
  - vm_compute. reflexivity.
  - eexists. vm_compute. reflexivity.
Defined.

(** *** Logging with a food id *)

(** The heuristic always writes a [meal_type] key: the first of the four
    words the message contains, else [None]. *)
Lemma heuristic_meal_type (st : GraphState) :
  exists d, entities (heuristic_intent st) = VDict d
            /\ lookup d "meal_type"
               = Some (first_contained (strip (lower (input_text st)))
                         ["breakfast"; "lunch"; "dinner"; "snack"]).
Proof.
  unfold heuristic_intent.
  repeat match goal with
         | |- context [if ?c then (_, _) else _] => destruct c
         end.
  all: eexists; split; reflexivity.
Qed.

Lemma snack_by_default (d : dict) :
  no_meal_type d ->
  column_default (get_or d "meal_type" (VStr "snack")) (VStr "snack") = VStr "snack".
Proof. unfold get_or. intros [-> | ->]; reflexivity. Qed.

Lemma first_food_id (w : World) (fid : Z) (food : Food) :
  first_food w fid = Some food -> food_id food = fid.
Proof.
  unfold first_food. intros H. apply find_some in H. destruct H as [_ H].
  now apply Z.eqb_eq.
Qed.

(** C7. When a [food_id] and a [grams] value are available and no meal
    type was stated, [LoggingAgent] logs at once, without asking: one row is
    added to [meal_logs], and its [meal_type] is "snack" (as is the one of the
    log entry the state reports). *)
Theorem log_meal_defaults_to_snack (w : World) (db : DB) (st : GraphState) (d : dict)
    (fid : Z) (g : pyfloat) (prefs : value) (food : Food) :
  entities st = VDict d ->
  truthy (get d "food_id") = true -> py_int (get d "food_id") = Ok fid ->
  truthy (get d "grams") = true -> py_float (get d "grams") = Ok g ->
  no_meal_type d ->
  first_user w (user_id st) = Some prefs ->
  first_food w fid = Some food ->
  exists st' row,
    LoggingAgent_run w db st = Ok (st', (db ++ [row])%list)
    /\ log_meal_type row = VStr "snack"
    /\ log_user_id row = user_id st
    /\ log_food_id row = fid
    /\ log_grams row = VFloat g
    /\ needs_clarification st' = needs_clarification st
    /\ questions st' = questions st
    /\ exists entry, log_entry st' = Some entry
                     /\ lookup entry "meal_type" = Some (VStr "snack").
Proof.
  intros E TF IF TG FG M U F.
  unfold LoggingAgent_run. rewrite E. cbn [as_dict bind].
  rewrite TF, TG. cbn [negb]. rewrite IF, FG. cbn [bind].
  unfold tool_log_meal. rewrite U. cbn [first_food_by]. rewrite F.
  rewrite (snack_by_default d M). cbn [has_key lookup error_dict String.eqb Ascii.eqb Bool.eqb
    log_id log_user_id log_food_id log_grams log_meal_type logged_at].
  eexists. eexists. split; [reflexivity|].
  cbn [log_meal_type log_user_id log_food_id log_grams]. repeat split.
  - now apply first_food_id with w.
  - eexists. split; reflexivity.
Qed.

Lemma log_meal_defaults_to_snack_witness :
  (exists st' row,
      LoggingAgent_run Examples.pantry [] Examples.logs_oats = Ok (st', [row])
      /\ log_meal_type row = VStr "snack")
  /\ no_meal_type
       (Examples.heuristic_entities VNone (Examples.fl 100 1) VNone VNone (VInt 1)).
Proof.
  assert (M : no_meal_type
                (Examples.heuristic_entities VNone (Examples.fl 100 1) VNone VNone (VInt 1)))
    by (right; reflexivity).
  split; [|exact M].
  destruct (log_meal_defaults_to_snack Examples.pantry [] Examples.logs_oats
              (Examples.heuristic_entities VNone (Examples.fl 100 1) VNone VNone (VInt 1))
              1 (round64 (100 # 1))
              (VDict [("goals", VDict [("protein_g", VInt 10); ("iron_mg", VInt 18)])])
              Examples.oats)
    as (st' & row & R & S & _); try (vm_compute; reflexivity); try exact M.
  exists st', row. split; assumption.
Defined.

(** *** The daily summary *)






(** What [tool_compute_day] returns has the four keys and no other. *)
Lemma tool_compute_day_keys (w : World) (db : DB) (uid : Z) (date_iso : value) (day : dict) :
  tool_compute_day w db uid date_iso = Ok day ->
  exists date count totals meals,
    day = [ ("date", VStr date); ("meal_count", VInt count);
            ("totals", VDict totals); ("meals", VList meals) ].
Proof.
  unfold tool_compute_day. intros H. split_ok H. injection H as <-.
  do 4 eexists. reflexivity.
Qed.



Lemma pass_is_not_fail : PASS <> FAIL.
Proof. vm_compute. discriminate. Qed.


(** *** The loop of a tool pipeline *)

Lemma pipeline_nodes (env : Env) (m : LLM) (prefix : string) :
  llm env = Some m -> In prefix PIPELINES ->
  lookup (nodes (create_graph env)) (prefix ++ "_llm")
    = Some (llm_node m prefix (system_prompt env prefix))
  /\ lookup (nodes (create_graph env)) (prefix ++ "_tools") = Some (tool_node env)
  /\ (forall st, successor (create_graph env) (prefix ++ "_tools") st
                 = Ok (Some (prefix ++ "_llm")))
  /\ (forall st, successor (create_graph env) (prefix ++ "_llm") st
                 = Ok (Some (if String.eqb (tools_condition st) "tools"
                             then prefix ++ "_tools" else prefix ++ "_post"))).
Proof.
  intros E P.
  assert (T : forall st, tools_condition st = "tools" \/ tools_condition st = END).
  { intros st. unfold tools_condition. destruct (last _ _) as [| | |? [|]|]; auto. }
  unfold PIPELINES in P. cbn [In] in P.
  repeat (destruct P as [<-|P]); try contradiction.
  all: unfold create_graph, add_agent_tool_pipeline; rewrite E.
  all: split; [reflexivity | split; [reflexivity | split]].
  all: intros st; unfold successor.
  all: cbn [branches edges add_conditional_edges add_node add_edge
      set_entry_point add_post_edges first_or empty_graph app lookup String.eqb
      Ascii.eqb Bool.eqb fst snd String.append].
  all: try (destruct (T st) as [C | C]; rewrite C); reflexivity.
Qed.

(** C1, as amended.  The loop of a tool pipeline has no bound of its own:
    it hands over to the handler's finalize step as soon as the model replies
    without a tool call, after exactly as many round trips as the model asked
    for tools ([2 * k + 1] steps of the graph for [k] round trips). *)
Theorem tool_loop_exit (env : Env) (m : LLM) (prefix : string) (k : nat)
    (s sk s' : GraphState * DB) :
  llm env = Some m -> In prefix PIPELINES ->
  round_trips env m prefix k s sk ->
  llm_node m prefix (system_prompt env prefix) (snd sk) (fst sk) = Ok s' ->
  tools_condition (fst s') = END ->
  forall limit,
    invoke_from (create_graph env) (2 * k + 1 + limit) (prefix ++ "_llm") (snd s) (fst s)
    = invoke_from (create_graph env) limit (prefix ++ "_post") (snd s') (fst s').
Proof.
  intros E P R L C limit.
  destruct (pipeline_nodes env m prefix E P) as (NL & NT & ST & SL).
  induction R as [s|k s s1 s2 s3 L1 C1 T1 R IH].
  - cbn [Nat.mul Nat.add].
    rewrite (invoke_step _ limit _ (prefix ++ "_post") _ _ _ s' NL L); [reflexivity|].
    rewrite SL, C. reflexivity.
  - replace (2 * S k + 1 + limit)%nat with (S (S (2 * k + 1 + limit))) by lia.
    rewrite (invoke_step _ _ _ (prefix ++ "_tools") _ _ _ s1 NL L1).
    2: { rewrite SL, C1. reflexivity. }
    rewrite (invoke_step _ _ _ (prefix ++ "_llm") _ _ _ s2 NT T1 (ST _)).
    now apply IH.
Qed.

Lemma last_coerced (l : list message) (content : string) (calls : list tool_call) :
  last (map coerce (l ++ [AIMessage content calls])%list) (SystemMessage "")
  = AIMessage content calls.
Proof. rewrite map_app. cbn [map coerce]. apply last_last. Qed.

(** With a model that always asks for a tool, the run of a tool pipeline
    stays in its two loop nodes. *)
Lemma greedy_path (env : Env) (m : LLM) (prefix : string) :
  llm env = Some m -> In prefix PIPELINES -> always_asks m ->
  forall limit n db st x,
    n = prefix ++ "_llm" \/ n = prefix ++ "_tools" ->
    In x (path_from (create_graph env) limit n db st) ->
    x = prefix ++ "_llm" \/ x = prefix ++ "_tools".
Proof.
  intros E P A.
  destruct (pipeline_nodes env m prefix E P) as (NL & NT & ST & SL).
  induction limit as [|limit IH]; intros n db st x N H; [contradiction|].
  cbn [path_from] in H. destruct N as [-> | ->].
  - rewrite NL in H. unfold llm_node in H.
    destruct (A prefix (prepare_messages (system_prompt env prefix) st))
      as (content & call & calls & R).
    rewrite R in H. cbn [bind fst snd] in H. rewrite SL in H.
    unfold tools_condition in H. cbn [messages set_response set_messages] in H.
    rewrite last_coerced in H. cbn [String.eqb Ascii.eqb Bool.eqb] in H.
    destruct H as [<-|H]; [now left|]. eapply IH; [|exact H]. now right.
  - rewrite NT in H.
    destruct (tool_node env db st) as [r|]; [|destruct H as [<-|[]]; now right].
    rewrite ST in H. destruct H as [<-|H]; [now right|]. eapply IH; [|exact H]. now left.
Qed.

Lemma insatiable_always_asks : always_asks Examples.insatiable.
Proof. intros prefix msgs. do 3 eexists. reflexivity. Qed.

(** C1, as stated, fails: no number of steps brings every run of the loop
    to the finalize step.  With a model that asks for a tool at every reply
    the run never leaves the two loop nodes (and ends when the recursion limit
    raises). *)
Lemma tool_loop_has_no_bound :
  ~ (exists N : nat,
       forall (env : Env) (db : DB) (st : GraphState),
         (exists m, llm env = Some m
                    /\ forall p msgs, exists reply, chat m p msgs = Ok reply) ->
         In "search_post" (path_from (create_graph env) N "search_llm" db st)).
Proof.
  intros [N H].
  specialize (H Examples.looping [] (initial_state 1 "search oats")).
  destruct (greedy_path Examples.looping Examples.insatiable "search" eq_refl
              (or_introl eq_refl) insatiable_always_asks
              N "search_llm" [] (initial_state 1 "search oats") "search_post")
    as [B|B]; try discriminate B; auto.
  apply H. exists Examples.insatiable. split; [reflexivity|].
  intros p msgs. eexists. reflexivity.
Qed.

Lemma tool_loop_exit_witness :
  invoke_from (create_graph Examples.waiting) 25 "search_llm" [] Examples.search_request
  = invoke_from (create_graph Examples.waiting) 22 "search_post" [] Examples.second_reply.
Proof.
  apply (tool_loop_exit Examples.waiting (Examples.patient 1) "search" 1
           (Examples.search_request, []) (Examples.tool_result, [])
           (Examples.second_reply, [])).
  - reflexivity.
  - left. reflexivity.
  - apply trips_more with (s1 := (Examples.first_reply, []))
                          (s2 := (Examples.tool_result, [])).
    + vm_compute. reflexivity.
    + vm_compute. reflexivity.
    + vm_compute. reflexivity.
    + apply trips_none.
  - vm_compute. reflexivity.
  - vm_compute. reflexivity.
Defined.

(* ================================================================== *)
(** ** Further properties *)
(* ================================================================== *)

Import Meals Barcode Registry LlmFactory Terms.

(** *** Lists and texts *)

Lemma chars_app (a b : string) : chars (a ++ b) = (chars a ++ chars b)%list.
Proof. unfold chars. induction a; simpl; congruence. Qed.

Lemma chars_length (s : string) : List.length (chars s) = String.length s.
Proof. unfold chars. induction s; simpl; congruence. Qed.

Lemma text_chars (s : string) : text (chars s) = s.
Proof. apply string_of_list_ascii_of_string. Qed.

Lemma chars_text (l : list ascii) : chars (text l) = l.
Proof. apply list_ascii_of_string_of_list_ascii. Qed.

Lemma text_length (l : list ascii) : String.length (text l) = List.length l.
Proof. unfold text. induction l; cbn; congruence. Qed.

Lemma substring_middle (a b c : list ascii) :
  String.substring (List.length a) (List.length b) (text (a ++ b ++ c)) = text b.
Proof.
  unfold text. induction a as [|x a IH]; cbn [app List.length].
  - revert c. induction b as [|y b IH]; intros c; cbn [app List.length].
    + destruct (string_of_list_ascii c); reflexivity.
    + cbn [string_of_list_ascii String.substring]. rewrite IH. reflexivity.
  - cbn [string_of_list_ascii String.substring]. exact IH.
Qed.

Lemma startswith_app (a b : list ascii) : startswith (text (a ++ b)) (text a) = true.
Proof.
  unfold text. induction a as [|y a IH]; cbn [app string_of_list_ascii startswith].
  - destruct (string_of_list_ascii b); reflexivity.
  - rewrite Ascii.eqb_refl. exact IH.
Qed.

Lemma contains_prefix (s p : string) : startswith s p = true -> contains s p = true.
Proof. intros H. destruct s; cbn [contains]; rewrite H; reflexivity. Qed.

Lemma contains_later (c : ascii) (s p : string) :
  contains s p = true -> contains (String c s) p = true.
Proof. intros H. cbn [contains]. rewrite H. apply orb_true_r. Qed.

Lemma contains_middle (a b c : list ascii) : contains (text (a ++ b ++ c)) (text b) = true.
Proof.
  induction a as [|x a IH]; cbn [app].
  - apply contains_prefix, startswith_app.
  - unfold text in *. cbn [string_of_list_ascii]. apply contains_later, IH.
Qed.

Lemma firstn_incl {A : Type} (n : nat) (l : list A) (x : A) :
  In x (firstn n l) -> In x l.
Proof.
  revert l. induction n as [|n IH]; intros [|y l]; cbn [firstn In]; try tauto.
  intros [E|I]; auto.
Qed.

Lemma filter_all {A : Type} (f : A -> bool) (l : list A) :
  (forall x, In x l -> f x = true) -> filter f l = l.
Proof.
  induction l as [|x l IH]; intros H; cbn [filter]; [reflexivity|].
  rewrite (H x (or_introl eq_refl)), IH; [reflexivity|].
  intros y I. apply H. right. exact I.
Qed.

Lemma find_append {A : Type} (f : A -> bool) (l l' : list A) :
  find f (l ++ l') = match find f l with Some x => Some x | None => find f l' end.
Proof.
  induction l as [|x l IH]; cbn [app find]; [reflexivity|].
  destruct (f x); [reflexivity | exact IH].
Qed.

Lemma lookup_app_none {A : Type} (l : list (string * A)) (k k' : string) (v : A) :
  lookup l k = None -> lookup (l ++ [(k', v)]) k = if String.eqb k' k then Some v else None.
Proof.
  induction l as [|[k0 v0] l IH]; cbn [lookup app]; [reflexivity|].
  destruct (String.eqb k0 k); [discriminate | exact IH].
Qed.

Lemma lookup_app_some {A : Type} (l l' : list (string * A)) (k : string) (v : A) :
  lookup l k = Some v -> lookup (l ++ l') k = Some v.
Proof.
  induction l as [|[k0 v0] l IH]; cbn [lookup app]; [discriminate|].
  destruct (String.eqb k0 k); [trivial | exact IH].
Qed.

(** *** The heuristic of the orchestrator *)


(** A match of [\d{12}] consumes twelve digits. *)
Lemma times_chars (R : Type) (p : ascii -> bool) (n : nat) :
  forall prev rest pos cap (k : cont R) x,
    rmatch R (Times n (Chars p)) prev rest pos cap k = Some x ->
    exists ds rest' prev',
      rest = (ds ++ rest')%list /\ List.length ds = n /\ forallb p ds = true
      /\ k prev' rest' (pos + n)%nat cap = Some x.
Proof.
  induction n as [|n IH]; intros prev rest pos cap k x H.
  - exists [], rest, prev. rewrite Nat.add_0_r. auto.
  - change (rmatch R (Times (S n) (Chars p)) prev rest pos cap k)
      with (rmatch R (Chars p) prev rest pos cap
              (fun prev' rest' pos' cap' =>
                 rmatch R (Times n (Chars p)) prev' rest' pos' cap' k)) in H.
    cbn [rmatch] in H.
    destruct rest as [|c rest]; [discriminate H|].
    destruct (p c) eqn:P; [|discriminate H].
    destruct (IH _ _ _ _ _ _ H) as (ds & rest' & prev' & -> & L & D & K).
    exists (c :: ds), rest', prev'. cbn [app List.length forallb].
    rewrite P, D, L. repeat split; auto.
    replace (pos + S n)%nat with (S pos + n)%nat by lia. exact K.
Qed.

Lemma upc_match (prev : option ascii) (rest : list ascii) (pos : nat) (cap : span) :
  rmatch span UPC_RE prev rest pos None (fun _ _ _ c => Some c) = Some cap ->
  exists ds rest',
    rest = (ds ++ rest')%list /\ List.length ds = 12%nat /\ forallb is_digit ds = true
    /\ cap = Some (pos, (pos + 12)%nat).
Proof.
  unfold UPC_RE. remember (Times 12 digit) as T eqn:ET.
  cbn [rmatch].
  destruct (xorb _ _); [|discriminate].
  intros H. subst T. unfold digit in H.
  destruct (times_chars _ _ _ _ _ _ _ _ _ H) as (ds & rest' & prev' & -> & L & D & K).
  exists ds, rest'. repeat split; auto.
  cbn [rmatch] in K. destruct (xorb _ _); [|discriminate K].
  injection K as <-. reflexivity.
Qed.

Lemma upc_search (rest : list ascii) :
  forall prev pos cap,
    search_from UPC_RE prev rest pos = Some cap ->
    exists skipped ds rest',
      rest = (skipped ++ ds ++ rest')%list
      /\ List.length ds = 12%nat /\ forallb is_digit ds = true
      /\ cap = Some ((pos + List.length skipped)%nat, (pos + List.length skipped + 12)%nat).
Proof.
  induction rest as [|c rest IH]; intros prev pos cap H; cbn [search_from] in H.
  - destruct (rmatch span UPC_RE prev [] pos None _) as [cap'|] eqn:M; [|discriminate H].
    injection H as <-.
    destruct (upc_match _ _ _ _ M) as (ds & rest' & E & L & D & ->).
    exists [], ds, rest'. cbn [app List.length]. rewrite !Nat.add_0_r. auto.
  - destruct (rmatch span UPC_RE prev (c :: rest) pos None _) as [cap'|] eqn:M.
    + injection H as <-.
      destruct (upc_match _ _ _ _ M) as (ds & rest' & E & L & D & ->).
      exists [], ds, rest'. cbn [app List.length]. rewrite !Nat.add_0_r. auto.
    + destruct (IH _ _ _ H) as (skipped & ds & rest' & -> & L & D & ->).
      exists (c :: skipped), ds, rest'. cbn [app List.length].
      repeat split; auto. f_equal. f_equal; lia.
Qed.

Lemma upc_group (s g : string) :
  search_group UPC_RE s = Some g ->
  String.length g = 12%nat /\ forallb is_digit (chars g) = true /\ contains s g = true.
Proof.
  unfold search_group.
  destruct (search_from UPC_RE None (chars s) 0) as [[[a b]|]|] eqn:S; try discriminate.
  intros [= <-].
  destruct (upc_search _ _ _ _ S) as (skipped & ds & rest' & E & L & D & C).
  injection C as -> ->. cbn [Nat.add].
  replace (List.length skipped + 12 - List.length skipped)%nat with (List.length ds) by lia.
  rewrite <- (text_chars s), E, substring_middle.
  rewrite text_length, chars_text. repeat split; auto.
  apply contains_middle.
Qed.

(** X2.  The [upc] entity the heuristic extracts is either [None] or a
    string of exactly twelve decimal digits that occurs in the lower-cased,
    stripped message: the pattern never yields a shorter, longer or
    non-numeric code. *)
Theorem heuristic_upc_is_twelve_digits (st : GraphState) :
  exists d,
    entities (heuristic_intent st) = VDict d
    /\ (get d "upc" = VNone
        \/ exists g, get d "upc" = VStr g
                     /\ String.length g = 12%nat
                     /\ forallb is_digit (chars g) = true
                     /\ contains (strip (lower (input_text st))) g = true).
Proof.
  unfold heuristic_intent.
  destruct (search_group UPC_RE (strip (lower (input_text st)))) as [g|] eqn:U.
  - destruct (upc_group _ _ U) as (L & D & C).
    repeat match goal with
           | |- context [if ?c then (_, _) else _] => destruct c
           end.
    all: eexists; split; [reflexivity|]; right; exists g; repeat split; assumption.
  - repeat match goal with
           | |- context [if ?c then (_, _) else _] => destruct c
           end.
    all: eexists; split; [reflexivity|]; left; reflexivity.
Qed.

(** *** The edges of the workflow *)

Ltac graph_of env :=
  unfold create_graph, add_agent_tool_pipeline, successor;
  destruct (llm env);
  cbn [branches edges nodes add_conditional_edges add_node add_edge
       set_entry_point add_post_edges first_or empty_graph app lookup String.eqb
       Ascii.eqb Bool.eqb fst snd String.append].

Lemma successor_post (env : Env) (prefix : string) (st : GraphState) :
  In prefix PIPELINES ->
  successor (create_graph env) (prefix ++ "_post") st
  = Ok (match llm env with Some _ => Some "evaluator" | None => None end).
Proof.
  intros P. cbn [In PIPELINES] in P.
  repeat (destruct P as [<-|P]; [graph_of env; reflexivity|]). contradiction.
Qed.

Lemma successor_tools (env : Env) (m : LLM) (prefix : string) (st : GraphState) :
  llm env = Some m ->
  In prefix PIPELINES ->
  successor (create_graph env) (prefix ++ "_tools") st = Ok (Some (prefix ++ "_llm")).
Proof.
  intros M P. cbn [In PIPELINES] in P.
  repeat (destruct P as [<-|P]; [graph_of env; [reflexivity | discriminate M]|]).
  contradiction.
Qed.

Lemma successor_llm (env : Env) (m : LLM) (prefix : string) (st : GraphState) :
  llm env = Some m ->
  In prefix PIPELINES ->
  successor (create_graph env) (prefix ++ "_llm") st
  = Ok (Some (if String.eqb (tools_condition st) "tools"
              then prefix ++ "_tools" else prefix ++ "_post")).
Proof.
  intros M P. cbn [In PIPELINES] in P.
  repeat (destruct P as [<-|P];
          [graph_of env; [|discriminate M];
           unfold tools_condition;
           destruct (last (messages st) (SystemMessage "")) as [| | |? []|]; reflexivity|]).
  contradiction.
Qed.

Lemma successor_orchestrator (env : Env) (st : GraphState) :
  successor (create_graph env) "orchestrator" st = Ok (Some (handler env st)).
Proof.
  unfold handler. graph_of env.
  all: unfold route_by_intent, first_or.
  all: destruct (eq_str (intent st) "scan_barcode"); [reflexivity|].
  all: destruct (eq_str (intent st) "search_food"); [reflexivity|].
  all: destruct (eq_str (intent st) "log_meal"); try reflexivity.
  all: destruct (eq_str (intent st) "daily_summary"); try reflexivity.
  all: destruct (eq_str (intent st) "recommend"); try reflexivity.
Qed.

Lemma handler_is_node (env : Env) (st : GraphState) :
  exists f, lookup (nodes (create_graph env)) (handler env st) = Some f.
Proof.
  rewrite nodes_create_graph. unfold handler. cbv zeta.
  destruct (llm env);
    repeat match goal with
           | |- context [if ?b then _ else _] => destruct b
           end;
    eexists; reflexivity.
Qed.

(** X3.  An intent that is none of the five allowed ones (the [None] of
    a fresh state, or whatever else the model answered: [OrchestratorAgent.run]
    stores the model's intent unchecked) is routed by [route_by_intent] exactly
    as [search_food] is. *)
Theorem unknown_intent_is_a_search (env : Env) (st : GraphState) :
  (forall i, In i ALLOWED_INTENTS -> intent st <> VStr i) ->
  successor (create_graph env) "orchestrator" st
  = successor (create_graph env) "orchestrator" (set_intent st (VStr "search_food")).
Proof.
  intros U. rewrite !successor_orchestrator. unfold handler. cbn [intent set_intent eq_str].
  assert (N : forall i, In i ALLOWED_INTENTS -> eq_str (intent st) i = false).
  { intros i I. specialize (U i I). unfold eq_str.
    destruct (intent st) as [| | | |s| |]; try reflexivity.
    destruct (String.eqb s i) eqn:E; [|reflexivity].
    apply String.eqb_eq in E. congruence. }
  rewrite !N by (cbn; tauto). reflexivity.
Qed.

Lemma unknown_intent_is_a_search_witness :
  successor (create_graph Examples.offline) "orchestrator" (initial_state 1 "hello")
  = successor (create_graph Examples.offline) "orchestrator"
      (set_intent (initial_state 1 "hello") (VStr "search_food")).
Proof.
  apply (unknown_intent_is_a_search Examples.offline (initial_state 1 "hello")).
  intros i _. discriminate.
Defined.

(** X4.  The workflow [create_graph] builds is closed, with a model and
    without: after any node of the graph, on any state, routing does not fail
    and either ends the run or names a node that the graph has. *)
Theorem workflow_routes_to_nodes (env : Env) (n : string) (f : action) (st : GraphState) :
  lookup (nodes (create_graph env)) n = Some f ->
  successor (create_graph env) n st = Ok None
  \/ exists n' f',
       successor (create_graph env) n st = Ok (Some n')
       /\ lookup (nodes (create_graph env)) n' = Some f'.
Proof.
  intros L. apply lookup_In in L. rewrite nodes_create_graph in L. cbv zeta in L.
  destruct (llm env) as [m|] eqn:M; cbn [In] in L.
  all: repeat (destruct L as [L|L]; [injection L as <- <-|]); try contradiction.
  all: try (rewrite successor_orchestrator; right;
            destruct (handler_is_node env st) as [f' F];
            exists (handler env st), f'; split; [reflexivity | exact F]).
  all: try (rewrite successor_barcode; right; eexists; eexists;
            split; [reflexivity | apply node_evaluator]).
  all: try (rewrite successor_elicitation; left; reflexivity).
  all: try (rewrite successor_evaluator; destruct (needs_clarification st);
            [right; eexists; eexists; split; [reflexivity | apply node_elicitation]
            | left; reflexivity]).
  all: try match goal with
       | |- context [successor _ ?x _] =>
           match x with
           | "search_post" => change x with ("search" ++ "_post")
           | "logging_post" => change x with ("logging" ++ "_post")
           | "analysis_post" => change x with ("analysis" ++ "_post")
           | "recommend_post" => change x with ("recommend" ++ "_post")
           end;
           rewrite successor_post by (cbn; tauto); rewrite M;
           first [ left; reflexivity
                 | right; eexists; eexists; split; [reflexivity | apply node_evaluator] ]
       end.
  all: match goal with
       | |- context [successor _ ?x _] =>
           match x with
           | "search_llm" => change x with ("search" ++ "_llm")
           | "logging_llm" => change x with ("logging" ++ "_llm")
           | "analysis_llm" => change x with ("analysis" ++ "_llm")
           | "recommend_llm" => change x with ("recommend" ++ "_llm")
           end;
           rewrite (successor_llm env m) by (first [exact M | cbn; tauto]);
           right; rewrite nodes_create_graph, M; cbv zeta;
           destruct (String.eqb (tools_condition st) "tools");
           eexists; eexists; split; reflexivity
       | |- context [successor _ ?x _] =>
           match x with
           | "search_tools" => change x with ("search" ++ "_tools")
           | "logging_tools" => change x with ("logging" ++ "_tools")
           | "analysis_tools" => change x with ("analysis" ++ "_tools")
           | "recommend_tools" => change x with ("recommend" ++ "_tools")
           end;
           rewrite (successor_tools env m) by (first [exact M | cbn; tauto]);
           right; rewrite nodes_create_graph, M; cbv zeta;
           eexists; eexists; split; reflexivity
       end.
Qed.

Lemma workflow_routes_to_nodes_witness :
  successor (create_graph Examples.offline) "barcode" (initial_state 1 "scan") = Ok None
  \/ exists n' f',
       successor (create_graph Examples.offline) "barcode" (initial_state 1 "scan")
       = Ok (Some n')
       /\ lookup (nodes (create_graph Examples.offline)) n' = Some f'.
Proof.
  apply (workflow_routes_to_nodes Examples.offline "barcode"
           (pure_action (BarcodeAgent_run Examples.pantry))).
  reflexivity.
Defined.

(** *** Turns without a model *)



Lemma invoke_raise (g : StateGraph) (limit : nat) (n : string) (f : action)
    (db : DB) (st : GraphState) (e : exn) :
  lookup (nodes g) n = Some f ->
  f db st = Raise e ->
  invoke_from g (S limit) n db st = Raise e.
Proof. intros L F. cbn [invoke_from]. rewrite L, F. reflexivity. Qed.



(** A run from a node that has no successor takes one step. *)
Lemma invoke_short (g : StateGraph) (limit : nat) (n : string) (f : action)
    (db : DB) (st : GraphState) :
  lookup (nodes g) n = Some f ->
  (forall r : GraphState * DB, successor g n (fst r) = Ok None) ->
  invoke_from g (S limit) n db st = f db st.
Proof.
  intros L S. cbn [invoke_from]. rewrite L.
  destruct (f db st) as [r|e]; cbn [bind]; [|reflexivity].
  rewrite S. reflexivity.
Qed.





(** *** The transcript of a tool pipeline *)

Lemma coerce_idem (m : message) : coerce (coerce m) = coerce m.
Proof.
  destruct m as [role c| | | |]; try reflexivity. cbn [coerce].
  repeat match goal with
         | |- context [if ?b then _ else _] => destruct b eqn:?
         end; try reflexivity.
  cbn [coerce].
  repeat match goal with
         | H : ?b = false |- context [?b] => rewrite H
         end.
  reflexivity.
Qed.

Lemma is_system_coerce (m : message) : is_system (coerce m) = is_system m.
Proof.
  destruct m as [role c| | | |]; try reflexivity. cbn [coerce is_system].
  destruct (String.eqb role "user" || String.eqb role "human") eqn:U.
  - destruct (String.eqb role "system") eqn:S; [|reflexivity].
    apply String.eqb_eq in S. subst role. discriminate U.
  - destruct (String.eqb role "system") eqn:S; [reflexivity|].
    destruct (String.eqb role "assistant" || String.eqb role "ai"); [reflexivity|].
    cbn [is_system]. exact S.
Qed.

Lemma prepare_messages_system (prompt : string) (st : GraphState) :
  exists first rest,
    prepare_messages prompt st = first :: rest /\ is_system first = true.
Proof.
  unfold prepare_messages. destruct (messages st) as [|first rest].
  - eexists. eexists. split; reflexivity.
  - destruct (is_system first) eqn:S; eexists; eexists; split; eauto.
Qed.

(** X6.  The model's node of a pipeline ([llm_node]) leaves the store
    alone and a transcript that starts with a system message; when it runs
    again on that transcript, extended by tool results, it sends the transcript
    as it is and appends the model's reply: the system prompt is not put in
    front a second time. *)
Theorem transcript_keeps_its_system_prompt (m : LLM) (prefix prompt : string)
    (db db1 : DB) (st st1 : GraphState) :
  llm_node m prefix prompt db st = Ok (st1, db1) ->
  db1 = db
  /\ (exists first rest, messages st1 = first :: rest /\ is_system first = true)
  /\ forall (prompt' : string) (outs : list message) (db2 db3 : DB) (st3 : GraphState),
       Forall (fun o => coerce o = o) outs ->
       llm_node m prefix prompt' db2 (set_messages st1 (messages st1 ++ outs)%list)
       = Ok (st3, db3) ->
       exists content calls,
         messages st3 = (messages st1 ++ outs ++ [AIMessage content calls])%list
         /\ response st3 = content.
Proof.
  intros H. unfold llm_node in H.
  destruct (chat m prefix (prepare_messages prompt st)) as [[content calls]|] eqn:C;
    [|discriminate H].
  cbn [bind] in H. injection H as <- <-. split; [reflexivity|].
  cbn [messages set_response set_messages].
  destruct (prepare_messages_system prompt st) as (first & rest & P & S).
  rewrite P. cbn [map app]. split.
  - eexists. eexists. split; [reflexivity|]. rewrite is_system_coerce. exact S.
  - intros prompt' outs db2 db3 st3 O H. unfold llm_node in H.
    set (sent := (coerce first :: (map coerce (rest ++ [AIMessage content calls]) ++ outs))%list).
    assert (Q : forall s, prepare_messages prompt'
                   (set_messages s ((coerce first
                      :: map coerce (rest ++ [AIMessage content calls])) ++ outs)%list)
                 = sent).
    { intros s. unfold prepare_messages. cbn [messages set_messages app].
      rewrite is_system_coerce, S. reflexivity. }
    rewrite Q in H.
    destruct (chat m prefix sent) as [[content' calls']|]; [|discriminate H].
    cbn [bind] in H. injection H as <- <-.
    exists content', calls'. split; [|reflexivity].
    cbn [messages set_response set_messages]. subst sent.
    rewrite map_app. cbn [map app]. rewrite coerce_idem. f_equal.
    rewrite map_app, map_map.
    rewrite (map_ext _ coerce coerce_idem).
    rewrite <- app_assoc. f_equal. f_equal.
    clear -O. induction O as [|o outs E _ IH]; cbn [map]; congruence.
Qed.

Lemma transcript_keeps_its_system_prompt_witness :
  exists first rest,
    messages Examples.first_reply = first :: rest /\ is_system first = true.
Proof.
  exact (proj1 (proj2 (transcript_keeps_its_system_prompt (Examples.patient 1) "search"
                         "" [] [] Examples.search_request Examples.first_reply eq_refl))).
Defined.

(** *** The handlers *)

(** X7.  On entities that are a dict, [BarcodeAgent.run] never raises.
    When the UPC is present and the lookup finds foods, the candidates are
    the rows found, the selected food is the first of them, the response
    names it, and the clarification fields are left alone; otherwise it asks
    one question and leaves candidates and selection alone. *)
Theorem barcode_selects_first_match (w : World) (st : GraphState) (d : dict) :
  entities st = VDict d ->
  exists st',
    BarcodeAgent_run w st = Ok st'
    /\ match (if truthy (get d "upc") then lookup_upc w (get d "upc") else []) with
       | [] =>
           needs_clarification st' = true
           /\ (exists q, questions st' = [q])
           /\ food_candidates st' = food_candidates st
           /\ selected_food st' = selected_food st
       | first :: rest =>
           needs_clarification st' = needs_clarification st
           /\ questions st' = questions st
           /\ food_candidates st' = map food_summary (first :: rest)
           /\ selected_food st' = Some (food_summary first)
           /\ response st'
              = "Found " ++ food_name first ++ " (" ++ py_str (food_brand first) ++ "). "
                ++ py_str (get (food_columns first) "calories") ++ " calories per 100g."
       end.
Proof.
  intros E. unfold BarcodeAgent_run. rewrite E. cbn [as_dict bind].
  destruct (truthy (get d "upc")); cbn [negb].
  - unfold tool_lookup_upc. destruct (lookup_upc w (get d "upc")) as [|first rest].
    + eexists. split; [reflexivity|]. cbn. eauto.
    + eexists. split; [reflexivity|]. cbn. auto.
  - eexists. split; [reflexivity|]. cbn. eauto.
Qed.

Lemma barcode_selects_first_match_witness :
  exists st',
    BarcodeAgent_run Examples.pantry Cases.scans_oats = Ok st'
    /\ needs_clarification st' = false
    /\ questions st' = []
    /\ food_candidates st' = [food_summary Examples.oats]
    /\ selected_food st' = Some (food_summary Examples.oats)
    /\ response st' = "Found Oats (Generic). 389.0 calories per 100g.".
Proof.
  exact (barcode_selects_first_match Examples.pantry Cases.scans_oats
           [("upc", VStr "012345678905")] eq_refl).
Defined.

(** X8.  On entities that are a dict, [FoodSearchAgent.run] never raises
    and never touches the selection.  It asks, with the question as its
    response, exactly when [food_name] is missing or empty.  With a name it
    leaves the clarification fields alone: foods found replace the candidates
    and are counted in the response, and when none is found the candidates
    stay as they were. *)
Theorem search_asks_only_for_a_name (w : World) (st : GraphState) (d : dict) :
  entities st = VDict d ->
  exists st',
    FoodSearchAgent_run w st = Ok st'
    /\ selected_food st' = selected_food st
    /\ if truthy (get d "food_name") then
         needs_clarification st' = needs_clarification st
         /\ questions st' = questions st
         /\ match search_food_by_name w (get d "food_name") 5 with
            | [] =>
                food_candidates st' = food_candidates st
                /\ response st' = "No foods found matching '" ++ py_str (get d "food_name")
                                  ++ "'. Try a different search term."
            | found =>
                food_candidates st' = map food_summary found
                /\ response st' = "Found " ++ str_of_Z (Z.of_nat (List.length found))
                                  ++ " food items."
            end
       else asks st' "What food would you like to search for?".
Proof.
  intros E. unfold FoodSearchAgent_run. rewrite E. cbn [as_dict bind].
  destruct (truthy (get d "food_name")); cbn [negb].
  - unfold tool_search_food.
    destruct (search_food_by_name w (get d "food_name") 5) as [|first rest].
    + eexists. split; [reflexivity|]. cbn. auto.
    + eexists. split; [reflexivity|]. cbn [map]. cbn -[str_of_Z Z.of_nat].
      rewrite length_map. auto.
  - eexists. split; [reflexivity|]. cbn. unfold asks. cbn. auto.
Qed.

Lemma search_asks_only_for_a_name_witness :
  exists st',
    FoodSearchAgent_run Examples.pantry Cases.nameless_search = Ok st'
    /\ selected_food st' = None
    /\ asks st' "What food would you like to search for?".
Proof.
  exact (search_asks_only_for_a_name Examples.pantry Cases.nameless_search
           [("food_name", VStr EmptyString)] eq_refl).
Defined.

Lemma tool_log_meal_outcome (w : World) (db d1 : DB) (uid : Z) (fid g mt : value)
    (r : dict) :
  tool_log_meal w db uid fid g mt = (r, d1) ->
  (has_key r "error" = true /\ d1 = db)
  \/ (has_key r "error" = false
      /\ exists row, d1 = (db ++ [row])%list
           /\ log_user_id row = uid
           /\ log_day row = utcnow_day w
           /\ (exists food, first_food w (log_food_id row) = Some food)
           /\ lookup r "id" = Some (VInt (log_id row))).
Proof.
  intros L. unfold tool_log_meal in L.
  destruct (first_user w uid); [|injection L as <- <-; left; split; reflexivity].
  destruct (first_food_by w fid) as [food|] eqn:F;
    [|injection L as <- <-; left; split; reflexivity].
  injection L as <- <-. right. split; [reflexivity|].
  eexists. split; [reflexivity|]. cbn.
  repeat split. exists food.
  destruct fid; try discriminate F. cbn [first_food_by] in F.
  rewrite (first_food_id _ _ _ F). exact F.
Qed.

(** X9.  A run of [LoggingAgent.run] changes the meal table by at most
    one row.  Either the table and [log_entry] are as before (every path that
    asks, and every error of [tool_log_meal]), or exactly one row was appended:
    it belongs to the user of the state, names a food that exists, is stamped
    with the UTC day, [log_entry] carries its id, and the clarification fields
    are left alone. *)
Theorem logging_appends_at_most_one_row (w : World) (db db' : DB)
    (st st' : GraphState) :
  LoggingAgent_run w db st = Ok (st', db') ->
  (db' = db /\ log_entry st' = log_entry st)
  \/ exists row entry,
       db' = (db ++ [row])%list
       /\ log_user_id row = user_id st
       /\ log_day row = utcnow_day w
       /\ (exists food, first_food w (log_food_id row) = Some food)
       /\ log_entry st' = Some entry
       /\ lookup entry "id" = Some (VInt (log_id row))
       /\ needs_clarification st' = needs_clarification st
       /\ questions st' = questions st.
Proof.
  intros H. unfold LoggingAgent_run in H.
  destruct (as_dict (entities st)) as [ents|] eqn:E; [|discriminate H]. cbn [bind] in H.
  split_ok H.
  all: try (injection H as <- <-; left; split; reflexivity).
  all: match goal with
       | L : tool_log_meal _ _ _ _ _ _ = _ |- _ =>
           destruct (tool_log_meal_outcome _ _ _ _ _ _ _ _ L)
             as [[K ->] | [K (row & -> & ? & ? & ? & ?)]]
       end.
  all: try congruence.
  all: try (injection H as <- <-; left; split; reflexivity).
  all: injection H as <- <-; right; eexists; eexists;
    repeat (split; [first [reflexivity | eassumption]|]); try reflexivity.
Qed.

Lemma logging_appends_at_most_one_row_witness :
  exists st' db',
    LoggingAgent_run Examples.pantry [] Examples.logs_oats = Ok (st', db')
    /\ ((db' = [] /\ log_entry st' = log_entry Examples.logs_oats)
        \/ exists row entry,
             db' = ([] ++ [row])%list
             /\ log_user_id row = user_id Examples.logs_oats
             /\ log_day row = utcnow_day Examples.pantry
             /\ (exists food, first_food Examples.pantry (log_food_id row) = Some food)
             /\ log_entry st' = Some entry
             /\ lookup entry "id" = Some (VInt (log_id row))
             /\ needs_clarification st' = needs_clarification Examples.logs_oats
             /\ questions st' = questions Examples.logs_oats).
Proof.
  eexists. eexists. split; [vm_compute; reflexivity|].
  apply (logging_appends_at_most_one_row Examples.pantry [] _ Examples.logs_oats).
  vm_compute. reflexivity.
Defined.

(** *** Dates *)

Lemma zfill_table (w : nat) (bound : Z) :
  forallb (fun k => zfill_reads w (Z.of_nat k)) (seq 0 (Z.to_nat bound)) = true ->
  forall n, 0 <= n < bound ->
    List.length (chars (zfill w n)) = w
    /\ all_digits (chars (zfill w n)) = true
    /\ number (chars (zfill w n)) = n.
Proof.
  intros T n N. rewrite forallb_forall in T.
  specialize (T (Z.to_nat n)). rewrite Z2Nat.id in T by lia.
  unfold zfill_reads in T.
  assert (I : In (Z.to_nat n) (seq 0 (Z.to_nat bound))) by (apply in_seq; lia).
  specialize (T I). apply andb_prop in T. destruct T as [T C].
  apply andb_prop in T. destruct T as [A B].
  apply Nat.eqb_eq in A. apply Z.eqb_eq in C. auto.
Qed.

Lemma zfill_year : forall n, 0 <= n < 10000 ->
  List.length (chars (zfill 4 n)) = 4%nat
  /\ all_digits (chars (zfill 4 n)) = true
  /\ number (chars (zfill 4 n)) = n.
Proof.
  intros n N. apply (zfill_table 4 10000); [vm_compute; reflexivity | lia].
Qed.

Lemma zfill_two : forall n, 0 <= n < 100 ->
  List.length (chars (zfill 2 n)) = 2%nat
  /\ all_digits (chars (zfill 2 n)) = true
  /\ number (chars (zfill 2 n)) = n.
Proof.
  intros n N. apply (zfill_table 2 100); [vm_compute; reflexivity | lia].
Qed.

Lemma days_in_month_bounds (y m : Z) : 28 <= days_in_month y m <= 31.
Proof.
  unfold days_in_month.
  repeat match goal with |- context [if ?b then _ else _] => destruct b end; lia.
Qed.

Lemma valid_date_bounds (d : date) :
  valid_date d = true ->
  1 <= year d <= 9999 /\ 1 <= month d <= 12 /\ 1 <= day d <= days_in_month (year d) (month d).
Proof. unfold valid_date. lia. Qed.

(** What [isoformat] writes, [fromisoformat] reads back. *)
Lemma fromisoformat_isoformat (w : World) (d : date) :
  valid_date d = true -> fromisoformat w (isoformat d) = Some d.
Proof.
  intros V. pose proof (valid_date_bounds d V) as (Y & M & D).
  pose proof (days_in_month_bounds (year d) (month d)) as B.
  destruct (zfill_year (year d)) as (Ly & Dy & Ny); [lia|].
  destruct (zfill_two (month d)) as (Lm & Dm & Nm); [lia|].
  destruct (zfill_two (day d)) as (Ld & Dd & Nd); [lia|].
  unfold fromisoformat, isoformat. rewrite !chars_app.
  destruct (chars (zfill 4 (year d))) as [|y1 [|y2 [|y3 [|y4 [|]]]]]; try discriminate Ly.
  destruct (chars (zfill 2 (month d))) as [|m1 [|m2 [|]]]; try discriminate Lm.
  destruct (chars (zfill 2 (day d))) as [|d1 [|d2 [|]]]; try discriminate Ld.
  cbn [app chars list_ascii_of_string].
  unfold all_digits in *. cbn [forallb] in *.
  repeat match goal with H : _ && _ = true |- _ => apply andb_prop in H; destruct H end.
  repeat match goal with H : is_digit _ = true |- _ => rewrite H; clear H end.
  change (code "-" =? 45) with true. cbn [andb].
  rewrite Ny, Nm, Nd. destruct d as [y m dd]. cbn [year month day] in *.
  rewrite V. reflexivity.
Qed.

Lemma minus_one_day_valid (d y : date) :
  valid_date d = true -> minus_one_day d = Ok y -> valid_date y = true.
Proof.
  intros V. pose proof (valid_date_bounds d V) as (Y & M & D).
  unfold minus_one_day.
  destruct (1 <? day d) eqn:A.
  - intros [= <-]. unfold valid_date. cbn [year month day]. lia.
  - destruct (1 <? month d) eqn:B.
    + intros [= <-]. unfold valid_date. cbn [year month day].
      pose proof (days_in_month_bounds (year d) (month d - 1)). lia.
    + destruct (1 <? year d) eqn:C; [|discriminate].
      intros [= <-]. unfold valid_date. cbn [year month day].
      change (days_in_month (year d - 1) 12) with 31. lia.
Qed.

(** X10.  For the date entity ["yesterday"], the string [AnalysisAgent]
    hands to [tool_compute_day] is the ISO form of the day before today, and
    [tool_compute_day] parses it back to that very day, which is a calendar
    date: the relative date never ends in a [ValueError].  The one exception
    is the first day of the calendar (0001-01-01), where the subtraction
    raises [OverflowError]. *)
Theorem analysis_understands_yesterday (w : World) :
  valid_date (today w) = true ->
  match minus_one_day (today w) with
  | Ok y =>
      analysis_date w (VStr "yesterday") = Ok (VStr (isoformat y))
      /\ target_date w (VStr (isoformat y)) = Ok y
      /\ valid_date y = true
  | Raise e =>
      today w = mkdate 1 1 1
      /\ analysis_date w (VStr "yesterday") = Raise OverflowError
  end.
Proof.
  intros V. destruct (minus_one_day (today w)) as [y|e] eqn:Y.
  - pose proof (minus_one_day_valid _ _ V Y) as Vy.
    split; [|split; [|exact Vy]].
    + unfold analysis_date. cbn [eq_str String.eqb Ascii.eqb Bool.eqb orb is_none].
      rewrite Y. reflexivity.
    + unfold target_date.
      assert (truthy (VStr (isoformat y)) = true) as ->.
      { unfold isoformat. cbn [truthy]. destruct (zfill 4 (year y)); reflexivity. }
      rewrite (fromisoformat_isoformat w y Vy). reflexivity.
  - pose proof (valid_date_bounds _ V) as (A & B & C).
    unfold minus_one_day in Y.
    destruct (1 <? day (today w)) eqn:D1; [discriminate Y|].
    destruct (1 <? month (today w)) eqn:M1; [discriminate Y|].
    destruct (1 <? year (today w)) eqn:Y1; [discriminate Y|].
    split.
    + destruct (today w) as [y m d]. cbn [year month day] in *. f_equal; lia.
    + unfold analysis_date. cbn [eq_str String.eqb Ascii.eqb Bool.eqb orb is_none].
      unfold minus_one_day. rewrite D1, M1, Y1. reflexivity.
Qed.

Lemma analysis_understands_yesterday_witness :
  analysis_date Examples.pantry (VStr "yesterday") = Ok (VStr "2024-02-29")
  /\ target_date Examples.pantry (VStr "2024-02-29") = Ok (mkdate 2024 2 29)
  /\ valid_date (mkdate 2024 2 29) = true.
Proof.
  exact (analysis_understands_yesterday Examples.pantry eq_refl).
Defined.

(** *** Recommendations *)

Lemma insert_desc_In {A : Type} (key : A -> pyfloat) (x y : A) (l : list A) :
  In y (insert_desc key x l) <-> y = x \/ In y l.
Proof.
  induction l as [|z l IH]; cbn [insert_desc In].
  - intuition congruence.
  - destruct (flt (key z) (key x)); cbn [In]; rewrite ?IH; intuition congruence.
Qed.

Lemma sort_desc_In {A : Type} (key : A -> pyfloat) (l : list A) (y : A) :
  In y (sort_desc key l) <-> In y l.
Proof.
  unfold sort_desc.
  assert (G : forall acc, In y (fold_left (fun acc x => insert_desc key x acc) l acc)
                          <-> In y acc \/ In y l).
  { induction l as [|x l IH]; intros acc; cbn [fold_left In]; [tauto|].
    rewrite IH, insert_desc_In. intuition congruence. }
  rewrite G. cbn [In]. tauto.
Qed.

Lemma rank_foods_In (top : list (string * pyfloat)) (foods : list Food) :
  forall ranked r p,
    rank_foods foods top ranked = Ok r -> In p r ->
    In p ranked
    \/ (In (snd (fst p)) foods
        /\ fgt (fst (fst p)) fzero = true
        /\ score_food (snd (fst p)) top fzero [] = Ok (fst (fst p), snd p)).
Proof.
  induction foods as [|food foods IH]; intros ranked r p H I; cbn [rank_foods] in H.
  - injection H as <-. left. exact I.
  - destruct (score_food food top fzero []) as [[score coverage]|] eqn:S;
      [|discriminate H]. cbn [bind] in H.
    destruct (IH _ _ _ H I) as [J|(J & K & L)].
    + destruct (fgt score fzero) eqn:G; [|left; exact J].
      apply in_app_or in J. destruct J as [J|[<-|[]]]; [left; exact J|].
      right. cbn [fst snd]. split; [left; reflexivity | split; assumption].
    + right. split; [right; exact J | split; assumption].
Qed.

(** X11.  When [RecommendationAgent.run] returns, it has either left
    [recommendations] as it was, or written between one and five of them,
    each for a food of the foods table, under that food's id and name. *)
Theorem recommendation_picks (w : World) (db : DB) (st st' : GraphState) :
  RecommendationAgent_run w db st = Ok st' ->
  recommendations st' = recommendations st
  \/ ((1 <= List.length (recommendations st') <= 5)%nat
      /\ Forall (fun rec => exists food,
                   In food (foods w)
                   /\ lookup rec "food_id" = Some (VInt (food_id food))
                   /\ lookup rec "name" = Some (VStr (food_name food)))
                (recommendations st')).
Proof.
  intros H. unfold RecommendationAgent_run in H. split_ok H.
  all: injection H as <-; try (left; reflexivity).
  right. cbn [recommendations set_recommendations].
  change (recommendation_dict ?p :: map recommendation_dict ?l)
    with (map recommendation_dict (p :: l)).
  match goal with
  | E : firstn 5 ?s = _ :: _ |- _ => rewrite <- E; set (sorted := s) in *
  end.
  split.
  - rewrite length_map. split.
    + match goal with E : firstn 5 sorted = _ |- _ => rewrite E end. cbn. lia.
    + apply firstn_le_length.
  - apply Forall_forall. intros rec I. apply in_map_iff in I.
    destruct I as (p' & <- & I). apply firstn_incl in I. subst sorted.
    apply sort_desc_In in I.
    match goal with
    | R : rank_foods _ _ [] = Ok _ |- _ =>
        destruct (rank_foods_In _ _ _ _ _ R I) as [[]|(J & _ & _)]
    end.
    destruct p' as [[score food] coverage]. exists food. cbn [fst snd] in J.
    split; [exact J | split; reflexivity].
Qed.

Lemma recommendation_picks_witness :
  recommendations Cases.advised = recommendations Cases.advice
  \/ ((1 <= List.length (recommendations Cases.advised) <= 5)%nat
      /\ Forall (fun rec => exists food,
                   In food (foods Examples.pantry)
                   /\ lookup rec "food_id" = Some (VInt (food_id food))
                   /\ lookup rec "name" = Some (VStr (food_name food)))
                (recommendations Cases.advised)).
Proof.
  apply (recommendation_picks Examples.pantry [] Cases.advice Cases.advised).
  vm_compute. reflexivity.
Defined.

(** X12.  For a user id that is in no row of the users table, and a date
    [tool_compute_day] accepts, [RecommendationAgent.run] answers that the
    goals are met: the error dict of [tool_get_user_goals] is read as the
    user's goals, and its one entry is skipped because it is no number. *)
Theorem recommendation_for_a_stranger (w : World) (db : DB) (st : GraphState)
    (d day : dict) :
  entities st = VDict d ->
  first_user w (user_id st) = None ->
  tool_compute_day w db (user_id st)
    (py_or (get d "date") (VStr (isoformat (today w)))) = Ok day ->
  RecommendationAgent_run w db st
  = Ok (set_response st "You're meeting your goals today. Nice work!").
Proof.
  intros E U D. unfold RecommendationAgent_run. rewrite E. cbn [as_dict bind].
  rewrite D. cbn [bind]. unfold tool_get_user_goals. rewrite U. cbn [bind].
  destruct (tool_compute_day_keys _ _ _ _ _ D) as (date & count & totals & meals & ->).
  cbn [get_or lookup String.eqb Ascii.eqb Bool.eqb as_dict bind].
  unfold error_dict. cbn [py_or truthy as_dict bind compute_gaps].
  cbn [get_or lookup].
  assert (py_float (VStr "User not found") = Raise ValueError) as -> by reflexivity.
  destruct (py_float _); reflexivity.
Qed.

Lemma recommendation_for_a_stranger_witness :
  RecommendationAgent_run Examples.pantry [] Cases.stranger
  = Ok (set_response Cases.stranger "You're meeting your goals today. Nice work!").
Proof.
  apply (recommendation_for_a_stranger Examples.pantry [] Cases.stranger []
           Cases.day_before); [reflexivity | reflexivity | vm_compute; reflexivity].
Defined.

Lemma compute_gaps_In (totals goals : dict) :
  forall gaps k delta,
    In (k, delta) (compute_gaps totals goals gaps) ->
    In (k, delta) gaps
    \/ exists goal g actual,
         In (k, goal) goals
         /\ py_float goal = Ok g
         /\ py_float (get_or totals k (VFloat fzero)) = Ok actual
         /\ delta = fsub g actual
         /\ fgt delta fzero = true.
Proof.
  induction goals as [|[k0 goal] goals IH]; intros gaps k delta I; cbn [compute_gaps] in I.
  - left. exact I.
  - destruct (IH _ _ _ I) as [J|(goal' & g & actual & J & R)].
    + destruct (py_float (get_or totals k0 (VFloat fzero))) as [actual|] eqn:A;
        [|left; exact J].
      destruct (py_float goal) as [g|] eqn:G; [|left; exact J].
      destruct (fgt (fsub g actual) fzero) eqn:P; [|left; exact J].
      apply in_app_or in J. destruct J as [J|[J|[]]]; [left; exact J|].
      injection J as <- <-. right. exists goal, g, actual.
      repeat split; auto. left. reflexivity.
    + right. exists goal', g, actual. split; [right; exact J | exact R].
Qed.

(** X13.  Every gap [RecommendationAgent] works with comes from a goal of
    the user: the goal and the day's total (0.0 when the day has none) both
    convert to floats, the gap is their difference, and it is greater than
    zero.  A goal that is met, or that is no number, is never a gap. *)
Theorem gaps_are_unmet_goals (totals goals : dict) (k : string) (delta : pyfloat) :
  In (k, delta) (compute_gaps totals goals []) ->
  exists goal g actual,
    In (k, goal) goals
    /\ py_float goal = Ok g
    /\ py_float (get_or totals k (VFloat fzero)) = Ok actual
    /\ delta = fsub g actual
    /\ fgt delta fzero = true.
Proof.
  intros I. destruct (compute_gaps_In _ _ _ _ _ I) as [[]|H]. exact H.
Qed.

Lemma gaps_are_unmet_goals_witness :
  exists goal g actual,
    In ("iron_mg", goal) [("protein_g", VInt 0); ("iron_mg", VInt 18)]
    /\ py_float goal = Ok g
    /\ py_float (get_or [] "iron_mg" (VFloat fzero)) = Ok actual
    /\ float_of_Z 18 = fsub g actual
    /\ fgt (float_of_Z 18) fzero = true.
Proof.
  apply (gaps_are_unmet_goals [] [("protein_g", VInt 0); ("iron_mg", VInt 18)]
           "iron_mg" (float_of_Z 18)).
  vm_compute. left. reflexivity.
Defined.

(** *** The meal table *)

Lemma tool_compute_day_filter (w : World) (db db' : DB) (uid : Z) (date_iso : value) :
  (forall t, target_date w date_iso = Ok t ->
             filter (of_the_day uid t) db = filter (of_the_day uid t) db') ->
  tool_compute_day w db uid date_iso = tool_compute_day w db' uid date_iso.
Proof.
  intros F. unfold tool_compute_day.
  destruct (target_date w date_iso) as [t|e]; [|reflexivity]. cbn [bind].
  specialize (F t eq_refl). unfold of_the_day in F. rewrite F. reflexivity.
Qed.

(** X14.  [tool_compute_day] reads only the rows of the user it is asked
    about, on the day it is asked about: a row of another user, or of another
    day, changes nothing of what it returns or raises, wherever the row stands
    in the table. *)
Theorem compute_day_ignores_other_rows (w : World) (db1 db2 : DB) (row : MealLog)
    (uid : Z) (date_iso : value) :
  (log_user_id row <> uid
   \/ forall t, target_date w date_iso = Ok t -> date_eqb (log_day row) t = false) ->
  tool_compute_day w (db1 ++ row :: db2)%list uid date_iso
  = tool_compute_day w (db1 ++ db2)%list uid date_iso.
Proof.
  intros O. apply tool_compute_day_filter. intros t T.
  rewrite !filter_app. cbn [filter].
  assert (of_the_day uid t row = false) as ->; [|reflexivity].
  unfold of_the_day. destruct O as [U|D].
  - apply Z.eqb_neq in U. rewrite U. reflexivity.
  - rewrite (D t T). apply andb_false_r.
Qed.

Lemma compute_day_ignores_other_rows_witness :
  tool_compute_day Examples.pantry ([] ++ Cases.oats_meal :: [])%list 2 VNone
  = tool_compute_day Examples.pantry ([] ++ [])%list 2 VNone.
Proof.
  apply (compute_day_ignores_other_rows Examples.pantry [] [] Cases.oats_meal 2 VNone).
  left. discriminate.
Defined.



(** X16.  A meal [tool_log_meal] has logged for a user is counted by
    [tool_compute_day], for that user, on the UTC day of the logging and on no
    other day: the meal count of a day goes up by one exactly when the day
    asked about is that UTC day.  (With no date, [tool_compute_day] asks about
    the local day [date.today()].) *)
Theorem logged_meal_is_counted_on_its_utc_day (w : World) (db db' : DB) (uid : Z)
    (fid grams meal_type date_iso : value) (entry day day' : dict) (t : date) :
  tool_log_meal w db uid fid grams meal_type = (entry, db') ->
  has_key entry "error" = false ->
  target_date w date_iso = Ok t ->
  tool_compute_day w db uid date_iso = Ok day ->
  tool_compute_day w db' uid date_iso = Ok day' ->
  exists count,
    get day "meal_count" = VInt count
    /\ get day' "meal_count"
       = VInt (count + (if date_eqb (utcnow_day w) t then 1 else 0)).
Proof.
  intros L K T D D'. unfold tool_log_meal in L.
  destruct (first_user w uid); [|injection L as <- <-; discriminate K].
  destruct (first_food_by w fid) as [food|]; [|injection L as <- <-; discriminate K].
  injection L as <- <-. clear K.
  unfold tool_compute_day in D, D'. rewrite T in D, D'. cbn [bind] in D, D'.
  split_ok D. split_ok D'. injection D as <-. injection D' as <-.
  eexists. split; [reflexivity|]. cbn [get get_or lookup String.eqb Ascii.eqb Bool.eqb].
  f_equal. rewrite filter_app, length_app. cbn [filter log_user_id log_day].
  rewrite Z.eqb_refl. cbn [andb].
  destruct (date_eqb (utcnow_day w) t); cbn [List.length]; lia.
Qed.

Lemma logged_meal_is_counted_on_its_utc_day_witness :
  exists count,
    get Cases.day_before "meal_count" = VInt count
    /\ get Cases.day_after "meal_count" = VInt (count + 1).
Proof.
  exact (logged_meal_is_counted_on_its_utc_day Examples.pantry [] (snd Cases.first_log) 1
           (VInt 1) (Examples.fl 100 1) VNone VNone (fst Cases.first_log)
           Cases.day_before Cases.day_after (mkdate 2024 3 1)
           eq_refl eq_refl eq_refl eq_refl eq_refl).
Defined.

Lemma next_id_above (db : DB) : forall row, In row db -> log_id row < next_id db.
Proof.
  unfold next_id.
  assert (G : forall l m, m <= fold_left (fun m l => Z.max m (log_id l)) l m
                          /\ forall row, In row l ->
                               log_id row <= fold_left (fun m l => Z.max m (log_id l)) l m).
  { induction l as [|x l IH]; intros m; cbn [fold_left In].
    - split; [lia | tauto].
    - destruct (IH (Z.max m (log_id x))) as [A B]. split; [lia|].
      intros row [<-|I]; [lia | auto]. }
  intros row I. destruct (G db 0) as [_ B]. specialize (B row I). lia.
Qed.

Lemma first_meal_none (db : DB) (meal_id : Z) :
  (forall row, In row db -> log_id row <> meal_id) -> first_meal db meal_id = None.
Proof.
  intros H. unfold first_meal. induction db as [|x db IH]; cbn [find]; [reflexivity|].
  destruct (log_id x =? meal_id) eqn:E.
  - apply Z.eqb_eq in E. elim (H x (or_introl eq_refl) E).
  - apply IH. intros row I. apply H. right. exact I.
Qed.

(** X17.  Deleting the meal [tool_log_meal] has just logged, by the id
    its reply carries, succeeds and gives back the table as it was before the
    logging; before the logging that id named no meal. *)
Theorem delete_undoes_log (w : World) (db db' : DB) (uid : Z)
    (fid grams meal_type : value) (entry : dict) (meal_id : Z) :
  tool_log_meal w db uid fid grams meal_type = (entry, db') ->
  lookup entry "id" = Some (VInt meal_id) ->
  tool_delete_meal db' meal_id = ([("success", VBool true)], db)
  /\ tool_delete_meal db meal_id = (error_dict "Meal not found", db).
Proof.
  intros L I. unfold tool_log_meal in L.
  destruct (first_user w uid); [|injection L as <- <-; discriminate I].
  destruct (first_food_by w fid) as [food|]; [|injection L as <- <-; discriminate I].
  injection L as <- <-.
  cbn [lookup String.eqb Ascii.eqb Bool.eqb log_id] in I. injection I as <-.
  assert (N : forall row, In row db -> log_id row <> next_id db).
  { intros row R. pose proof (next_id_above db row R). lia. }
  assert (F : first_meal db (next_id db) = None) by (apply first_meal_none, N).
  split.
  - unfold tool_delete_meal, first_meal in *. rewrite find_append, F. cbn [find log_id].
    rewrite Z.eqb_refl.
    rewrite filter_app. cbn [filter log_id]. rewrite Z.eqb_refl. cbn [negb].
    rewrite app_nil_r. apply f_equal. apply filter_all.
    intros x X. apply negb_true_iff, Z.eqb_neq, N, X.
  - unfold tool_delete_meal. rewrite F. reflexivity.
Qed.

Lemma delete_undoes_log_witness :
  tool_delete_meal (snd Cases.first_log) 1 = ([("success", VBool true)], [])
  /\ tool_delete_meal [] 1 = (error_dict "Meal not found", []).
Proof.
  exact (delete_undoes_log Examples.pantry [] (snd Cases.first_log) 1 (VInt 1)
           (Examples.fl 100 1) VNone (fst Cases.first_log) 1 eq_refl eq_refl).
Defined.

(** X18.  After [tool_delete_meal], the table holds exactly the rows it
    held whose id is not the one deleted, so a second deletion of that id
    answers "Meal not found"; the first answers with an error exactly when no
    row has the id, and then the table is unchanged. *)
Theorem delete_removes_the_meal (db db' : DB) (meal_id : Z) (reply : dict) :
  tool_delete_meal db meal_id = (reply, db') ->
  (forall row, In row db' <-> In row db /\ log_id row <> meal_id)
  /\ tool_delete_meal db' meal_id = (error_dict "Meal not found", db')
  /\ (has_key reply "error" = true <-> forall row, In row db -> log_id row <> meal_id)
  /\ (has_key reply "error" = true -> db' = db).
Proof.
  intros D. unfold tool_delete_meal in D.
  assert (G : forall row, In row (filter (fun l => negb (log_id l =? meal_id)) db)
                          <-> In row db /\ log_id row <> meal_id).
  { intros row. rewrite filter_In, negb_true_iff, Z.eqb_neq. tauto. }
  destruct (first_meal db meal_id) as [log|] eqn:F.
  - injection D as <- <-. unfold first_meal in F.
    apply find_some in F. destruct F as [I E]. apply Z.eqb_eq in E.
    split; [exact G|]. split; [|split].
    + unfold tool_delete_meal. rewrite first_meal_none; [reflexivity|].
      intros row R. apply G in R. tauto.
    + cbn. split; [discriminate|]. intros N. elim (N log I E).
    + cbn. discriminate.
  - injection D as <- <-.
    assert (N : forall row, In row db -> log_id row <> meal_id).
    { intros row R E. unfold first_meal in F.
      apply (find_none _ _ F) in R. apply Z.eqb_neq in R. contradiction. }
    split; [intros row; split; [intros R; split; [exact R | exact (N row R)] | tauto]|].
    split; [unfold tool_delete_meal; rewrite F; reflexivity|].
    split; [|reflexivity].
    cbn. split; [intros _; exact N | reflexivity].
Qed.

Lemma delete_removes_the_meal_witness :
  (forall row, In row [] <-> In row [Cases.oats_meal] /\ log_id row <> 1)
  /\ tool_delete_meal [] 1 = (error_dict "Meal not found", [])
  /\ (has_key [("success", VBool true)] "error" = true
      <-> forall row, In row [Cases.oats_meal] -> log_id row <> 1)
  /\ (has_key [("success", VBool true)] "error" = true -> [] = [Cases.oats_meal]).
Proof.
  exact (delete_removes_the_meal [Cases.oats_meal] [] 1 [("success", VBool true)] eq_refl).
Defined.

(** X19.  [tool_update_meal] changes no more than it is told to: the
    ids, users, foods and days of the rows stay as they are, in place; rows
    with another id are kept; with no field given, or when the id names no
    meal (the reply is an error), the table is unchanged; and every field that
    is given is what the rows with that id hold afterwards. *)
Theorem update_keeps_the_meals (db db' : DB) (meal_id : Z)
    (grams meal_type notes : value) (reply : dict) :
  tool_update_meal db meal_id grams meal_type notes = (reply, db') ->
  map log_id db' = map log_id db
  /\ map log_user_id db' = map log_user_id db
  /\ map log_food_id db' = map log_food_id db
  /\ map log_day db' = map log_day db
  /\ (forall row, In row db -> log_id row <> meal_id -> In row db')
  /\ (is_none grams = true -> is_none meal_type = true -> is_none notes = true ->
      db' = db)
  /\ (has_key reply "error" = true -> db' = db)
  /\ forall row, In row db' -> log_id row = meal_id ->
       (is_none grams = false -> log_grams row = grams)
       /\ (is_none meal_type = false -> log_meal_type row = meal_type)
       /\ (is_none notes = false -> log_notes row = notes).
Proof.
  intros U. unfold tool_update_meal in U.
  set (f := fun l => if log_id l =? meal_id then updated grams meal_type notes l else l)
    in U.
  assert (K : forall (A : Type) (g : MealLog -> A),
             (forall l, g (updated grams meal_type notes l) = g l) ->
             map g (map f db) = map g db).
  { intros A g G. rewrite map_map. apply map_ext. intros l. unfold f.
    destruct (log_id l =? meal_id); [apply G | reflexivity]. }
  assert (M : (forall row, In row db -> log_id row <> meal_id -> In row (map f db))
              /\ (is_none grams = true -> is_none meal_type = true ->
                  is_none notes = true -> map f db = db)
              /\ forall row, In row (map f db) -> log_id row = meal_id ->
                   (is_none grams = false -> log_grams row = grams)
                   /\ (is_none meal_type = false -> log_meal_type row = meal_type)
                   /\ (is_none notes = false -> log_notes row = notes)).
  { split; [|split].
    - intros row R N. apply in_map_iff. exists row. split; [|exact R].
      unfold f. apply Z.eqb_neq in N. rewrite N. reflexivity.
    - intros G T N. rewrite <- (map_id db) at 2. apply map_ext. intros l. unfold f.
      destruct (log_id l =? meal_id); [|reflexivity].
      unfold updated, assign. rewrite G, T, N. destruct l; reflexivity.
    - intros row R E. apply in_map_iff in R. destruct R as (l & <- & _).
      unfold f in *. destruct (log_id l =? meal_id) eqn:El.
      + unfold updated, assign. cbn [log_grams log_meal_type log_notes].
        repeat split; intros ->; reflexivity.
      + apply Z.eqb_neq in El. contradiction. }
  destruct M as (M1 & M2 & M3).
  destruct (first_meal db meal_id) as [log|] eqn:F.
  - injection U as <- <-.
    repeat split; try (apply K; reflexivity); auto; try apply (M3 row H H0).
    cbn. discriminate.
  - injection U as <- <-.
    assert (N : forall row, In row db -> log_id row <> meal_id).
    { intros row R E. unfold first_meal in F.
      apply (find_none _ _ F) in R. apply Z.eqb_neq in R. contradiction. }
    repeat split; auto; elim (N row H H0).
Qed.

Lemma update_keeps_the_meals_witness :
  map log_id (snd (tool_update_meal [Cases.oats_meal] 1 (VInt 50) VNone VNone)) = [1].
Proof.
  exact (proj1 (update_keeps_the_meals [Cases.oats_meal] _ 1 (VInt 50) VNone VNone _
                  eq_refl)).
Defined.

(** *** UPC check digits *)

Lemma int_of_char (c : ascii) :
  int_of_string (String c EmptyString) = if is_digit c then Some (digit_val c) else None.
Proof.
  destruct c as [[] [] [] [] [] [] [] []]; vm_compute; reflexivity.
Qed.

Lemma digits_of_spec (cs : list ascii) :
  digits_of cs = if forallb is_digit cs then Some (map digit_val cs) else None.
Proof.
  induction cs as [|c r IH]; [reflexivity|].
  cbn [digits_of forallb map]. rewrite int_of_char, IH.
  destruct (is_digit c), (forallb is_digit r); reflexivity.
Qed.

Lemma digit_range (c : ascii) : is_digit c = true -> 0 <= digit_val c <= 9.
Proof. unfold is_digit, digit_val. lia. Qed.

Lemma validate_upc_chars (cs : list ascii) :
  validate_upc (text cs) = true <->
  List.length cs = 12%nat /\ forallb is_digit cs = true /\ upc_sum true cs mod 10 = 0.
Proof.
  unfold validate_upc. rewrite chars_text, digits_of_spec.
  rewrite <- (chars_length (text cs)), chars_text.
  destruct (Nat.eqb (List.length cs) 12) eqn:L.
  - apply Nat.eqb_eq in L.
    assert (String.eqb (text cs) EmptyString = false) as ->.
    { destruct cs; [discriminate L | reflexivity]. }
    cbn [orb negb].
    destruct (forallb is_digit cs) eqn:D.
    + do 12 (destruct cs as [|? cs]; [discriminate L|]).
      destruct cs; [|discriminate L].
      cbn [forallb] in D.
      repeat (apply andb_prop in D; destruct D as [?%digit_range D]).
      cbn -[Z.mul Z.add Z.modulo Z.sub digit_val]. unfold py_sum.
      cbn [fold_left upc_sum negb].
      rewrite Z.eqb_eq.
      split.
      * intros E. split; [reflexivity | split; [reflexivity|]].
        Z.div_mod_to_equations. lia.
      * intros (_ & _ & E). Z.div_mod_to_equations. lia.
    + split; [discriminate | intros (_ & ? & _); discriminate].
  - rewrite orb_true_r. apply Nat.eqb_neq in L.
    split; [discriminate | intros (? & _); contradiction].
Qed.

(** X20.  [validate_upc] accepts exactly the strings of twelve decimal
    digits whose weighted digit sum (weight 3 at the first, third, ...,
    eleventh digit, weight 1 elsewhere, check digit included) is a multiple
    of ten; the empty string, other lengths and any other character are
    refused without an error. *)
Theorem validate_upc_accepts (upc : string) :
  validate_upc upc = true <->
  String.length upc = 12%nat
  /\ forallb is_digit (chars upc) = true
  /\ upc_sum true (chars upc) mod 10 = 0.
Proof.
  rewrite <- (text_chars upc) at 1. rewrite validate_upc_chars, chars_length.
  reflexivity.
Qed.

Lemma validate_upc_accepts_witness :
  String.length "012345678905" = 12%nat
  /\ forallb is_digit (chars "012345678905") = true
  /\ upc_sum true (chars "012345678905") mod 10 = 0.
Proof.
  exact (proj1 (validate_upc_accepts "012345678905") eq_refl).
Defined.

Lemma upc_sum_one_digit (l1 : list ascii) :
  forall three, exists w,
    (w = 1 \/ w = 3)
    /\ forall a b l2,
         upc_sum three (l1 ++ a :: l2) - upc_sum three (l1 ++ b :: l2)
         = w * (digit_val a - digit_val b).
Proof.
  induction l1 as [|c l1 IH]; intros three.
  - exists (if three then 3 else 1). split; [destruct three; auto|].
    intros a b l2. cbn [app upc_sum]. lia.
  - destruct (IH (negb three)) as (w & W & E). exists w. split; [exact W|].
    intros a b l2. cbn [app upc_sum]. specialize (E a b l2). lia.
Qed.

Lemma digit_val_inj (a b : ascii) : digit_val a = digit_val b -> a = b.
Proof.
  unfold digit_val, code. intros E.
  rewrite <- (ascii_N_embedding a), <- (ascii_N_embedding b).
  f_equal. lia.
Qed.

(** X21.  [validate_upc] detects every single wrong digit: two codes
    it accepts that agree everywhere but at one position agree there too. *)
Theorem validate_upc_detects_wrong_digit (l1 l2 : list ascii) (a b : ascii) :
  validate_upc (text (l1 ++ a :: l2)) = true ->
  validate_upc (text (l1 ++ b :: l2)) = true ->
  a = b.
Proof.
  rewrite !validate_upc_chars. intros (_ & Da & Sa) (_ & Db & Sb).
  rewrite forallb_app in Da, Db. cbn [forallb] in Da, Db.
  apply andb_prop in Da, Db. destruct Da as [_ Da], Db as [_ Db].
  apply andb_prop in Da, Db. destruct Da as [Da%digit_range _], Db as [Db%digit_range _].
  destruct (upc_sum_one_digit l1 true) as (w & W & E). specialize (E a b l2).
  apply digit_val_inj.
  revert Sa Sb E. generalize (upc_sum true (l1 ++ a :: l2)) (upc_sum true (l1 ++ b :: l2)).
  intros x y Sa Sb E.
  Z.div_mod_to_equations. lia.
Qed.

Lemma validate_upc_detects_wrong_digit_witness :
  validate_upc "012345678905" = true /\ "5"%char = "5"%char.
Proof.
  split; [vm_compute; reflexivity|].
  apply (validate_upc_detects_wrong_digit (chars "01234567890") [] "5" "5");
    vm_compute; reflexivity.
Defined.

(** *** The tool registry *)

(** X22.  A tool that [ToolRegistry.register] accepts was not registered
    under its name before and is what [get] returns for that name afterwards;
    every tool registered before is returned as before; and from then on
    registering any tool of that name raises [ValueError]. *)
Theorem register_then_get (callable : Type) (tools tools' : ToolRegistry callable)
    (spec : ToolSpec callable) :
  register tools spec = Ok tools' ->
  get_tool tools (spec_name spec) = Raise KeyError
  /\ get_tool tools' (spec_name spec) = Ok spec
  /\ (forall n s, get_tool tools n = Ok s -> get_tool tools' n = Ok s)
  /\ (forall n, n <> spec_name spec -> get_tool tools' n = get_tool tools n)
  /\ (forall other, spec_name other = spec_name spec ->
                    register tools' other = Raise ValueError).
Proof.
  unfold register, get_tool, has_key. intros R.
  destruct (lookup tools (spec_name spec)) eqn:L; [discriminate R|].
  injection R as <-.
  split; [reflexivity|]. split; [|split; [|split]].
  - rewrite (lookup_app_none _ _ _ _ L), String.eqb_refl. reflexivity.
  - intros n s G. destruct (lookup tools n) eqn:Ln; [|discriminate G].
    rewrite (lookup_app_some _ _ _ _ Ln). exact G.
  - intros n N. destruct (lookup tools n) eqn:Ln.
    + rewrite (lookup_app_some _ _ _ _ Ln). reflexivity.
    + rewrite (lookup_app_none _ _ _ _ Ln).
      destruct (String.eqb (spec_name spec) n) eqn:E; [|reflexivity].
      apply String.eqb_eq in E. congruence.
  - intros other E. rewrite E, (lookup_app_none _ _ _ _ L), String.eqb_refl. reflexivity.
Qed.

Lemma register_then_get_witness :
  get_tool [("tool_search_food", Cases.search_spec)] "tool_search_food"
  = Ok Cases.search_spec.
Proof.
  exact (proj1 (proj2 (register_then_get string empty_registry
                         [("tool_search_food", Cases.search_spec)] Cases.search_spec
                         eq_refl))).
Defined.

(** *** The choice of the model *)

(** X23.  [get_llm(provider)] returns a client exactly for the providers
    that [get_available_providers()] lists: for ["openai"] and ["gemini"] when
    their key is set, not empty and not the placeholder, and for no other
    name; in every other case it raises. *)
Theorem get_llm_available (env : environ) (provider : string) :
  (exists c, get_llm env (Some provider) = Ok c) <-> In provider (get_available_providers env).
Proof.
  unfold get_llm, get_available_providers.
  destruct (String.eqb provider "openai") eqn:O;
    [apply String.eqb_eq in O | apply String.eqb_neq in O];
    (destruct (String.eqb provider "gemini") eqn:G;
     [apply String.eqb_eq in G | apply String.eqb_neq in G]);
    try (subst provider; discriminate);
    destruct (env "OPENAI_API_KEY") as [ko|]; destruct (env "GEMINI_API_KEY") as [kg|];
    cbn [unset];
    repeat match goal with
           | |- context [if ?c then _ else _] => destruct c
           end;
    cbn [app In];
    (split;
     [ intros [c H]; first [discriminate H | auto]
     | intros H; first [eexists; reflexivity | intuition congruence] ]).
Qed.

Lemma get_llm_available_witness :
  In "gemini"
     (get_available_providers
        (fun k => if String.eqb k "GEMINI_API_KEY" then Some "key" else None)).
Proof.
  exact (proj1 (get_llm_available
                  (fun k => if String.eqb k "GEMINI_API_KEY" then Some "key" else None)
                  "gemini")
               (ex_intro _ (ChatGoogleGenerativeAI "gemini-1.5-flash" (1 # 10) "key" 30 2)
                         eq_refl)).
Defined.

(** *** What a turn leaves alone *)

Lemma check_grams_turn (g : GraphState) (d : dict) :
  same_turn g (check_grams g d)
  /\ (entities (check_grams g d) = entities g
      \/ exists d', entities (check_grams g d) = VDict d'
                    /\ forall k, k <> "grams" -> get d' k = get d k).
Proof.
  unfold check_grams.
  repeat match goal with
         | |- context [if ?c then _ else _] => destruct c
         | |- context [match ?x with _ => _ end] => destruct x
         end.
  all: split; [unfold same_turn; cbn; repeat split|].
  all: try (left; reflexivity).
  all: right; eexists; (split; [reflexivity|]); intros k K; try reflexivity.
  all: apply get_set_other; exact K.
Qed.

(** X24.  Whatever [EvaluatorOptimizer.run] does on entities that are a
    dict, it touches nothing but the [grams] entity, the response and the two
    clarification fields: every other field of the state and every other
    entity is returned as it was. *)
Theorem validator_touches_only_grams (s s' : GraphState) (d : dict) :
  entities s = VDict d ->
  EvaluatorOptimizer_run s = Ok s' ->
  same_turn s s'
  /\ exists d', entities s' = VDict d'
                /\ forall k, k <> "grams" -> get d' k = get d k.
Proof.
  intros E H. unfold EvaluatorOptimizer_run in H. rewrite E in H.
  assert (Q : as_dict (py_or (VDict d) (VDict [])) = Ok d).
  { destruct d; reflexivity. }
  rewrite Q in H. cbn [bind] in H. unfold normalize_text_grams in H.
  destruct (get d "grams") eqn:G.
  all: try (injection H as <-;
            destruct (check_grams_turn s d) as [T [C|(d' & C & K)]];
            split; [exact T | | exact T | ];
            [ exists d; rewrite C; split; [exact E | reflexivity]
            | exists d'; split; assumption ]).
  destruct (float_of_string _) as [x|].
  - injection H as <-.
    set (d1 := set d "grams" (VFloat x)).
    destruct (check_grams_turn (set_entities s (VDict d1)) d1) as [T [C|(d' & C & K)]].
    + split.
      * unfold same_turn in *. cbn in T. exact T.
      * exists d1. rewrite C. split; [reflexivity|].
        intros k K. apply get_set_other. exact K.
    + split.
      * unfold same_turn in *. cbn in T. exact T.
      * exists d'. split; [exact C|]. intros k N. rewrite (K k N).
        apply get_set_other. exact N.
  - injection H as <-. split; [unfold same_turn; cbn; repeat split|].
    exists d. split; [exact E | reflexivity].
Qed.

Lemma validator_touches_only_grams_witness :
  same_turn Examples.typed_grams Examples.read_grams
  /\ exists d', entities Examples.read_grams = VDict d'
                /\ forall k, k <> "grams" ->
                     get d' k = get [("food_id", VInt 1); ("grams", VStr " 100 G ")] k.
Proof.
  apply (validator_touches_only_grams Examples.typed_grams Examples.read_grams
           [("food_id", VInt 1); ("grams", VStr " 100 G ")]);
    [reflexivity | vm_compute; reflexivity].
Defined.

Lemma logging_rows (w : World) (db db' : DB) (st st' : GraphState) :
  LoggingAgent_run w db st = Ok (st', db') ->
  db' = db \/ exists row, db' = (db ++ [row])%list /\ log_user_id row = user_id st.
Proof.
  intros H. unfold LoggingAgent_run in H.
  destruct (as_dict (entities st)) as [ents|] eqn:E; [|discriminate H]. cbn [bind] in H.
  split_ok H.
  all: try (injection H as <- <-; left; reflexivity).
  all: match goal with
       | L : tool_log_meal _ _ _ _ _ _ = _ |- _ =>
           destruct (tool_log_meal_outcome _ _ _ _ _ _ _ _ L)
             as [[K ->] | [K (row & -> & ? & ? & ? & ?)]]
       end.
  all: injection H as <- <-; first [left; reflexivity | right; eexists; split; eauto].
Qed.

Lemma heuristic_user (st : GraphState) : user_id (heuristic_intent st) = user_id st.
Proof.
  unfold heuristic_intent.
  repeat match goal with
         | |- context [if ?c then (_, _) else _] => destruct c
         end; reflexivity.
Qed.

Lemma evaluator_keeps_store (env : Env) (limit : nat) (db db' : DB)
    (st st' : GraphState) :
  invoke_from (create_graph env) limit "evaluator" db st = Ok (st', db') -> db' = db.
Proof.
  destruct limit as [|limit]; [discriminate|]. cbn [invoke_from].
  rewrite node_evaluator. unfold pure_action.
  destruct (EvaluatorOptimizer_run st) as [s1|]; cbn [bind]; [|discriminate].
  rewrite successor_evaluator. cbn [bind fst snd].
  destruct (needs_clarification s1); [|intros [= _ <-]; reflexivity].
  destruct limit as [|limit]; [discriminate|]. cbn [invoke_from].
  rewrite node_elicitation. unfold pure_action.
  destruct (ElicitationAgent_run s1) as [s2|]; cbn [bind]; [|discriminate].
  rewrite successor_elicitation. cbn [bind]. intros [= _ <-]. reflexivity.
Qed.

(** X25.  With no model configured, a turn of [run_agent] that returns
    has left the meal table as it was, unless the heuristic read the message
    as [log_meal]: then it has appended at most one row, and that row belongs
    to the user of the turn.  No other intent writes, and no turn writes for
    another user. *)
Theorem offline_turn_writes (env : Env) (db db' : DB) (uid : Z) (message : string)
    (st : GraphState) :
  llm env = None ->
  run_agent env db uid message = Ok (st, db') ->
  db' = db
  \/ (intent (heuristic_intent (initial_state uid message)) = VStr "log_meal"
      /\ exists row, db' = (db ++ [row])%list /\ log_user_id row = uid).
Proof.
  intros M H. unfold run_agent, graph_invoke, RECURSION_LIMIT in H.
  rewrite entry_point_orchestrator in H.
  set (st0 := initial_state uid message) in *.
  set (st1 := OrchestratorAgent_run (llm env) st0).
  assert (O : pure_action (fun s => Ok (OrchestratorAgent_run (llm env) s)) db st0
              = Ok (st1, db)) by reflexivity.
  pose proof (successor_orchestrator env st1) as S1.
  rewrite (invoke_step _ _ _ _ _ _ _ _ (node_orchestrator env) O S1) in H.
  cbn [fst snd] in H.
  assert (E1 : st1 = heuristic_intent st0) by (subst st1; rewrite M; reflexivity).
  unfold handler in H. rewrite M in H.
  assert (P : forall p (f : DB -> GraphState -> result GraphState),
             In p PIPELINES ->
             lookup (nodes (create_graph env)) (p ++ "_post")
             = Some (fun d s => s' <- f d s ;; Ok (s', d)) ->
             invoke_from (create_graph env) 24 (p ++ "_post") db st1 = Ok (st, db') ->
             db' = db).
  { intros p f I F R.
    assert (S2 : forall r : GraphState * DB,
               successor (create_graph env) (p ++ "_post") (fst r) = Ok None).
    { intros r. rewrite successor_post, M by exact I. reflexivity. }
    rewrite (invoke_short _ _ _ _ _ _ F S2) in R.
    destruct (f db st1); cbn [bind] in R; [|discriminate R].
    injection R as _ <-. reflexivity. }
  assert (N : nodes (create_graph env) = _) by (rewrite nodes_create_graph, M; reflexivity).
  cbv zeta in N.
  destruct (eq_str (intent st1) "scan_barcode").
  { left.
    destruct (pure_action (BarcodeAgent_run (world env)) db st1) as [r|e] eqn:B.
    - pose proof (successor_barcode env (fst r)) as S2.
      rewrite (invoke_step _ _ _ _ _ _ _ _ (node_barcode env) B S2) in H.
      unfold pure_action in B.
      destruct (BarcodeAgent_run (world env) st1); cbn [bind] in B; [|discriminate B].
      injection B as <-. cbn [fst snd] in H.
      exact (evaluator_keeps_store _ _ _ _ _ _ H).
    - rewrite (invoke_raise _ _ _ _ _ _ _ (node_barcode env) B) in H. discriminate H. }
  destruct (eq_str (intent st1) "search_food").
  { left. apply (P "search" (fun _ => FoodSearchAgent_run (world env)));
      [cbn; tauto | | exact H].
    rewrite N. reflexivity. }
  destruct (eq_str (intent st1) "log_meal") eqn:IL.
  { assert (S2 : forall r : GraphState * DB,
               successor (create_graph env) ("logging" ++ "_post") (fst r) = Ok None).
    { intros r. rewrite successor_post, M by (cbn; tauto). reflexivity. }
    assert (F : lookup (nodes (create_graph env)) ("logging" ++ "_post")
                = Some (LoggingAgent_run (world env))) by (rewrite N; reflexivity).
    rewrite (invoke_short _ _ _ _ _ _ F S2) in H.
    destruct (logging_rows _ _ _ _ _ H) as [->|(row & -> & U)]; [left; reflexivity|].
    right. split.
    - rewrite <- E1. unfold eq_str in IL. destruct (intent st1); try discriminate IL.
      apply String.eqb_eq in IL. congruence.
    - exists row. split; [reflexivity|]. rewrite U, E1, heuristic_user. reflexivity. }
  destruct (eq_str (intent st1) "daily_summary").
  { left. apply (P "analysis" (AnalysisAgent_run (world env))); [cbn; tauto | | exact H].
    rewrite N. reflexivity. }
  destruct (eq_str (intent st1) "recommend").
  { left. apply (P "recommend" (RecommendationAgent_run (world env)));
      [cbn; tauto | | exact H].
    rewrite N. reflexivity. }
  left. apply (P "search" (fun _ => FoodSearchAgent_run (world env)));
    [cbn; tauto | | exact H].
  rewrite N. reflexivity.
Qed.

Lemma offline_turn_writes_witness :
  exists st db',
    run_agent Examples.offline [] 1 "log meal: 100g food_id=1" = Ok (st, db')
    /\ (db' = []
        \/ (intent (heuristic_intent (initial_state 1 "log meal: 100g food_id=1"))
            = VStr "log_meal"
            /\ exists row, db' = ([] ++ [row])%list /\ log_user_id row = 1)).
Proof.
  eexists. eexists. split; [vm_compute; reflexivity|].
  eapply (offline_turn_writes Examples.offline [] _ 1 "log meal: 100g food_id=1");
    [reflexivity | vm_compute; reflexivity].
Defined.
